(** * Suntime Inbox Copilot: the text-to-query pipeline of [main.py]

    A shallow embedding of the Python module: the tokenizer
    ([normalize_terms]), the query synthesizer ([build_shopify_query]),
    the catalog lookup ([shopify_query]), the formatter
    ([format_price], [format_products]), the intent resolver
    ([intent_from_openai]) and the endpoint ([chat_intent]).

    Python strings are sequences of Unicode code points; the Unicode
    character database consulted by [str.lower] and [unicodedata] is a
    parameter of the development ([UCD]).  The external collaborators
    (the language model and the catalog) are oracles that answer
    depending on the trace of calls made so far. *)

From Stdlib Require Import String Ascii List NArith ZArith Bool Lia SpecFloat.
Import ListNotations.

Local Open Scope N_scope.

(** ** Python strings *)

Module PyStr.

Definition codepoint := N.
Definition str := list codepoint.

Fixpoint bytes_of (s : string) : list N :=
  match s with
  | EmptyString => []
  | String a r => N_of_ascii a :: bytes_of r
  end.

(** Continuation bits of a UTF-8 byte. *)
Definition cont (b : N) : N := N.land b 63.

(** Decoder for the UTF-8 text of the source file, so that the string
    literals below read as they do in [main.py]. *)
Fixpoint utf8_decode (bs : list N) : str :=
  match bs with
  | [] => []
  | b0 :: r0 =>
    if b0 <? 128 then b0 :: utf8_decode r0
    else if b0 <? 224 then
      match r0 with
      | b1 :: r1 => (N.shiftl (N.land b0 31) 6 + cont b1) :: utf8_decode r1
      | _ => []
      end
    else if b0 <? 240 then
      match r0 with
      | b1 :: b2 :: r2 =>
        (N.shiftl (N.land b0 15) 12 + N.shiftl (cont b1) 6 + cont b2)
          :: utf8_decode r2
      | _ => []
      end
    else
      match r0 with
      | b1 :: b2 :: b3 :: r3 =>
        (N.shiftl (N.land b0 7) 18 + N.shiftl (cont b1) 12
         + N.shiftl (cont b2) 6 + cont b3) :: utf8_decode r3
      | _ => []
      end
  end.

Definition utf8 (s : string) : str := utf8_decode (bytes_of s).
Arguments utf8 s%_string : simpl never.

(** The double quote character, U+0022. *)
Definition QUOTE : codepoint := 34.

Fixpoint str_eqb (a b : str) : bool :=
  match a, b with
  | [], [] => true
  | x :: a', y :: b' => (x =? y) && str_eqb a' b'
  | _, _ => false
  end.

(** [w in S] for a set literal [S] of strings. *)
Definition set_mem (w : str) (S : list str) : bool := existsb (str_eqb w) S.
Arguments set_mem : simpl never.

(** Truth value of a string: non-empty. *)
Definition str_truthy (s : str) : bool :=
  match s with [] => false | _ => true end.

(** [str.isspace] on one code point; these are the characters on which
    [str.split()] and [str.strip()] act. *)
Definition py_isspace (c : codepoint) : bool :=
  ((9 <=? c) && (c <=? 13)) || ((28 <=? c) && (c <=? 32))
  || (c =? 133) || (c =? 160) || (c =? 5760)
  || ((8192 <=? c) && (c <=? 8202))
  || (c =? 8232) || (c =? 8233) || (c =? 8239) || (c =? 8287)
  || (c =? 12288).

(** [s.split()]: maximal runs of non-space characters.  [cur] is the
    run being read, most recent character first. *)
Fixpoint split_ws (cur : str) (s : str) : list str :=
  match s with
  | [] => match cur with [] => [] | _ => [rev cur] end
  | c :: r =>
    if py_isspace c then
      match cur with
      | [] => split_ws [] r
      | _ => rev cur :: split_ws [] r
      end
    else split_ws (c :: cur) r
  end.

Definition py_split (s : str) : list str := split_ws [] s.

Fixpoint lstrip (s : str) : str :=
  match s with
  | c :: r => if py_isspace c then lstrip r else s
  | [] => []
  end.

(** [s.strip()] *)
Definition py_strip (s : str) : str := rev (lstrip (rev (lstrip s))).

(** [s.replace(old, new)] for a one-character [old]. *)
Definition py_replace (old : codepoint) (new : str) (s : str) : str :=
  flat_map (fun c => if c =? old then new else [c]) s.

(** [sep.join(parts)] *)
Fixpoint py_join (sep : str) (parts : list str) : str :=
  match parts with
  | [] => []
  | [p] => p
  | p :: rest => p ++ sep ++ py_join sep rest
  end.

End PyStr.
Export PyStr.

(** ** The Unicode character database *)

Module Unicode.

Inductive general_category :=
| Lu | Ll | Lt | Lm | Lo | Mn | Mc | Me | Nd | Nl | No
| Pc | Pd | Ps | Pe | Pi | Pf | Po | Sm | Sc | Sk | So
| Zs | Zl | Zp | Cc | Cf | Cs | Co | Cn.

Definition is_Mn (g : general_category) : bool :=
  match g with Mn => true | _ => false end.

(** What [str.lower] and [unicodedata] read from the database of the
    Python runtime: the full lower-case mapping, the Cased and
    Case_Ignorable properties, the full canonical decomposition of a
    code point, its canonical combining class and its general
    category. *)
Record UCD := {
  to_lower_full : codepoint -> str;
  is_cased : codepoint -> bool;
  is_case_ignorable : codepoint -> bool;
  decomposition : codepoint -> str;
  combining : codepoint -> N;
  category : codepoint -> general_category
}.

Definition SIGMA : codepoint := 931.        (* U+03A3 *)
Definition FINAL_SIGMA : codepoint := 962.  (* U+03C2 *)
Definition SMALL_SIGMA : codepoint := 963.  (* U+03C3 *)

Section WithUCD.
Variable U : UCD.

Fixpoint skip_ignorable (s : str) : str :=
  match s with
  | c :: r => if is_case_ignorable U c then skip_ignorable r else s
  | [] => []
  end.

(** Lower case of a capital sigma: final form when it follows a cased
    letter and no cased letter follows it, case-ignorable characters
    skipped on both sides.  [before] is the text to the left, nearest
    character first. *)
Definition handle_capital_sigma (before after : str) : codepoint :=
  match skip_ignorable before with
  | c :: _ =>
    if is_cased U c then
      match skip_ignorable after with
      | [] => FINAL_SIGMA
      | d :: _ => if is_cased U d then SMALL_SIGMA else FINAL_SIGMA
      end
    else SMALL_SIGMA
  | [] => SMALL_SIGMA
  end.

Fixpoint lower_from (before : str) (s : str) : str :=
  match s with
  | [] => []
  | c :: rest =>
    (if c =? SIGMA then [handle_capital_sigma before rest]
     else to_lower_full U c) ++ lower_from (c :: before) rest
  end.

(** [s.lower()] *)
Definition py_lower (s : str) : str := lower_from [] s.

(** Canonical ordering: a character of non-zero combining class moves
    left over the characters of greater class before it.  [racc] is the
    text placed so far, last character first. *)
Fixpoint place_mark (c : codepoint) (racc : str) : str :=
  match racc with
  | p :: racc' =>
    if (0 <? combining U c) && (combining U c <? combining U p)
    then p :: place_mark c racc'
    else c :: racc
  | [] => [c]
  end.

Definition canonical_order (s : str) : str :=
  rev (fold_left (fun racc c => place_mark c racc) s []).

(** [unicodedata.normalize("NFD", s)] *)
Definition py_nfd (s : str) : str :=
  canonical_order (flat_map (decomposition U) s).

End WithUCD.

End Unicode.
Export Unicode.

(** ** A fragment of the Unicode character database *)

Module UCD14.

(** One row per code point: general category, canonical combining class,
    full canonical decomposition, full lower-case mapping, Cased and
    Case_Ignorable. *)
Record row := R {
  cp : codepoint;
  cat : general_category;
  ccc : N;
  dec : str;
  low : str;
  cased : bool;
  ign : bool
}.

(** The rows of Unicode 14.0, the database of CPython 3.11, for Basic
    Latin and Latin-1 Supplement (U+0000-U+00FF), Combining Diacritical
    Marks (U+0300-U+036F), the Greek sigmas (U+03A3, U+03C2, U+03C3),
    HANGUL SINGLE DOT TONE MARK (U+302E) and MUSICAL SYMBOL COMBINING
    STEM (U+1D165). *)
Definition rows : list row :=
  [
    R 0 Cc 0 [0] [0] false false; R 1 Cc 0 [1] [1] false false;
    R 2 Cc 0 [2] [2] false false; R 3 Cc 0 [3] [3] false false;
    R 4 Cc 0 [4] [4] false false; R 5 Cc 0 [5] [5] false false;
    R 6 Cc 0 [6] [6] false false; R 7 Cc 0 [7] [7] false false;
    R 8 Cc 0 [8] [8] false false; R 9 Cc 0 [9] [9] false false;
    R 10 Cc 0 [10] [10] false false; R 11 Cc 0 [11] [11] false false;
    R 12 Cc 0 [12] [12] false false; R 13 Cc 0 [13] [13] false false;
    R 14 Cc 0 [14] [14] false false; R 15 Cc 0 [15] [15] false false;
    R 16 Cc 0 [16] [16] false false; R 17 Cc 0 [17] [17] false false;
    R 18 Cc 0 [18] [18] false false; R 19 Cc 0 [19] [19] false false;
    R 20 Cc 0 [20] [20] false false; R 21 Cc 0 [21] [21] false false;
    R 22 Cc 0 [22] [22] false false; R 23 Cc 0 [23] [23] false false;
    R 24 Cc 0 [24] [24] false false; R 25 Cc 0 [25] [25] false false;
    R 26 Cc 0 [26] [26] false false; R 27 Cc 0 [27] [27] false false;
    R 28 Cc 0 [28] [28] false false; R 29 Cc 0 [29] [29] false false;
    R 30 Cc 0 [30] [30] false false; R 31 Cc 0 [31] [31] false false;
    R 32 Zs 0 [32] [32] false false; R 33 Po 0 [33] [33] false false;
    R 34 Po 0 [34] [34] false false; R 35 Po 0 [35] [35] false false;
    R 36 Sc 0 [36] [36] false false; R 37 Po 0 [37] [37] false false;
    R 38 Po 0 [38] [38] false false; R 39 Po 0 [39] [39] false true;
    R 40 Ps 0 [40] [40] false false; R 41 Pe 0 [41] [41] false false;
    R 42 Po 0 [42] [42] false false; R 43 Sm 0 [43] [43] false false;
    R 44 Po 0 [44] [44] false false; R 45 Pd 0 [45] [45] false false;
    R 46 Po 0 [46] [46] false true; R 47 Po 0 [47] [47] false false;
    R 48 Nd 0 [48] [48] false false; R 49 Nd 0 [49] [49] false false;
    R 50 Nd 0 [50] [50] false false; R 51 Nd 0 [51] [51] false false;
    R 52 Nd 0 [52] [52] false false; R 53 Nd 0 [53] [53] false false;
    R 54 Nd 0 [54] [54] false false; R 55 Nd 0 [55] [55] false false;
    R 56 Nd 0 [56] [56] false false; R 57 Nd 0 [57] [57] false false;
    R 58 Po 0 [58] [58] false true; R 59 Po 0 [59] [59] false false;
    R 60 Sm 0 [60] [60] false false; R 61 Sm 0 [61] [61] false false;
    R 62 Sm 0 [62] [62] false false; R 63 Po 0 [63] [63] false false;
    R 64 Po 0 [64] [64] false false; R 65 Lu 0 [65] [97] true false;
    R 66 Lu 0 [66] [98] true false; R 67 Lu 0 [67] [99] true false;
    R 68 Lu 0 [68] [100] true false; R 69 Lu 0 [69] [101] true false;
    R 70 Lu 0 [70] [102] true false; R 71 Lu 0 [71] [103] true false;
    R 72 Lu 0 [72] [104] true false; R 73 Lu 0 [73] [105] true false;
    R 74 Lu 0 [74] [106] true false; R 75 Lu 0 [75] [107] true false;
    R 76 Lu 0 [76] [108] true false; R 77 Lu 0 [77] [109] true false;
    R 78 Lu 0 [78] [110] true false; R 79 Lu 0 [79] [111] true false;
    R 80 Lu 0 [80] [112] true false; R 81 Lu 0 [81] [113] true false;
    R 82 Lu 0 [82] [114] true false; R 83 Lu 0 [83] [115] true false;
    R 84 Lu 0 [84] [116] true false; R 85 Lu 0 [85] [117] true false;
    R 86 Lu 0 [86] [118] true false; R 87 Lu 0 [87] [119] true false;
    R 88 Lu 0 [88] [120] true false; R 89 Lu 0 [89] [121] true false;
    R 90 Lu 0 [90] [122] true false; R 91 Ps 0 [91] [91] false false;
    R 92 Po 0 [92] [92] false false; R 93 Pe 0 [93] [93] false false;
    R 94 Sk 0 [94] [94] false true; R 95 Pc 0 [95] [95] false false;
    R 96 Sk 0 [96] [96] false true; R 97 Ll 0 [97] [97] true false;
    R 98 Ll 0 [98] [98] true false; R 99 Ll 0 [99] [99] true false;
    R 100 Ll 0 [100] [100] true false; R 101 Ll 0 [101] [101] true false;
    R 102 Ll 0 [102] [102] true false; R 103 Ll 0 [103] [103] true false;
    R 104 Ll 0 [104] [104] true false; R 105 Ll 0 [105] [105] true false;
    R 106 Ll 0 [106] [106] true false; R 107 Ll 0 [107] [107] true false;
    R 108 Ll 0 [108] [108] true false; R 109 Ll 0 [109] [109] true false;
    R 110 Ll 0 [110] [110] true false; R 111 Ll 0 [111] [111] true false;
    R 112 Ll 0 [112] [112] true false; R 113 Ll 0 [113] [113] true false;
    R 114 Ll 0 [114] [114] true false; R 115 Ll 0 [115] [115] true false;
    R 116 Ll 0 [116] [116] true false; R 117 Ll 0 [117] [117] true false;
    R 118 Ll 0 [118] [118] true false; R 119 Ll 0 [119] [119] true false;
    R 120 Ll 0 [120] [120] true false; R 121 Ll 0 [121] [121] true false;
    R 122 Ll 0 [122] [122] true false; R 123 Ps 0 [123] [123] false false;
    R 124 Sm 0 [124] [124] false false; R 125 Pe 0 [125] [125] false false;
    R 126 Sm 0 [126] [126] false false; R 127 Cc 0 [127] [127] false false;
    R 128 Cc 0 [128] [128] false false; R 129 Cc 0 [129] [129] false false;
    R 130 Cc 0 [130] [130] false false; R 131 Cc 0 [131] [131] false false;
    R 132 Cc 0 [132] [132] false false; R 133 Cc 0 [133] [133] false false;
    R 134 Cc 0 [134] [134] false false; R 135 Cc 0 [135] [135] false false;
    R 136 Cc 0 [136] [136] false false; R 137 Cc 0 [137] [137] false false;
    R 138 Cc 0 [138] [138] false false; R 139 Cc 0 [139] [139] false false;
    R 140 Cc 0 [140] [140] false false; R 141 Cc 0 [141] [141] false false;
    R 142 Cc 0 [142] [142] false false; R 143 Cc 0 [143] [143] false false;
    R 144 Cc 0 [144] [144] false false; R 145 Cc 0 [145] [145] false false;
    R 146 Cc 0 [146] [146] false false; R 147 Cc 0 [147] [147] false false;
    R 148 Cc 0 [148] [148] false false; R 149 Cc 0 [149] [149] false false;
    R 150 Cc 0 [150] [150] false false; R 151 Cc 0 [151] [151] false false;
    R 152 Cc 0 [152] [152] false false; R 153 Cc 0 [153] [153] false false;
    R 154 Cc 0 [154] [154] false false; R 155 Cc 0 [155] [155] false false;
    R 156 Cc 0 [156] [156] false false; R 157 Cc 0 [157] [157] false false;
    R 158 Cc 0 [158] [158] false false; R 159 Cc 0 [159] [159] false false;
    R 160 Zs 0 [160] [160] false false; R 161 Po 0 [161] [161] false false;
    R 162 Sc 0 [162] [162] false false; R 163 Sc 0 [163] [163] false false;
    R 164 Sc 0 [164] [164] false false; R 165 Sc 0 [165] [165] false false;
    R 166 So 0 [166] [166] false false; R 167 Po 0 [167] [167] false false;
    R 168 Sk 0 [168] [168] false true; R 169 So 0 [169] [169] false false;
    R 170 Lo 0 [170] [170] true false; R 171 Pi 0 [171] [171] false false;
    R 172 Sm 0 [172] [172] false false; R 173 Cf 0 [173] [173] false true;
    R 174 So 0 [174] [174] false false; R 175 Sk 0 [175] [175] false true;
    R 176 So 0 [176] [176] false false; R 177 Sm 0 [177] [177] false false;
    R 178 No 0 [178] [178] false false; R 179 No 0 [179] [179] false false;
    R 180 Sk 0 [180] [180] false true; R 181 Ll 0 [181] [181] true false;
    R 182 Po 0 [182] [182] false false; R 183 Po 0 [183] [183] false true;
    R 184 Sk 0 [184] [184] false true; R 185 No 0 [185] [185] false false;
    R 186 Lo 0 [186] [186] true false; R 187 Pf 0 [187] [187] false false;
    R 188 No 0 [188] [188] false false; R 189 No 0 [189] [189] false false;
    R 190 No 0 [190] [190] false false; R 191 Po 0 [191] [191] false false;
    R 192 Lu 0 [65;768] [224] true false; R 193 Lu 0 [65;769] [225] true false;
    R 194 Lu 0 [65;770] [226] true false; R 195 Lu 0 [65;771] [227] true false;
    R 196 Lu 0 [65;776] [228] true false; R 197 Lu 0 [65;778] [229] true false;
    R 198 Lu 0 [198] [230] true false; R 199 Lu 0 [67;807] [231] true false;
    R 200 Lu 0 [69;768] [232] true false; R 201 Lu 0 [69;769] [233] true false;
    R 202 Lu 0 [69;770] [234] true false; R 203 Lu 0 [69;776] [235] true false;
    R 204 Lu 0 [73;768] [236] true false; R 205 Lu 0 [73;769] [237] true false;
    R 206 Lu 0 [73;770] [238] true false; R 207 Lu 0 [73;776] [239] true false;
    R 208 Lu 0 [208] [240] true false; R 209 Lu 0 [78;771] [241] true false;
    R 210 Lu 0 [79;768] [242] true false; R 211 Lu 0 [79;769] [243] true false;
    R 212 Lu 0 [79;770] [244] true false; R 213 Lu 0 [79;771] [245] true false;
    R 214 Lu 0 [79;776] [246] true false; R 215 Sm 0 [215] [215] false false;
    R 216 Lu 0 [216] [248] true false; R 217 Lu 0 [85;768] [249] true false;
    R 218 Lu 0 [85;769] [250] true false; R 219 Lu 0 [85;770] [251] true false;
    R 220 Lu 0 [85;776] [252] true false; R 221 Lu 0 [89;769] [253] true false;
    R 222 Lu 0 [222] [254] true false; R 223 Ll 0 [223] [223] true false;
    R 224 Ll 0 [97;768] [224] true false; R 225 Ll 0 [97;769] [225] true false;
    R 226 Ll 0 [97;770] [226] true false; R 227 Ll 0 [97;771] [227] true false;
    R 228 Ll 0 [97;776] [228] true false; R 229 Ll 0 [97;778] [229] true false;
    R 230 Ll 0 [230] [230] true false; R 231 Ll 0 [99;807] [231] true false;
    R 232 Ll 0 [101;768] [232] true false; R 233 Ll 0 [101;769] [233] true false;
    R 234 Ll 0 [101;770] [234] true false; R 235 Ll 0 [101;776] [235] true false;
    R 236 Ll 0 [105;768] [236] true false; R 237 Ll 0 [105;769] [237] true false;
    R 238 Ll 0 [105;770] [238] true false; R 239 Ll 0 [105;776] [239] true false;
    R 240 Ll 0 [240] [240] true false; R 241 Ll 0 [110;771] [241] true false;
    R 242 Ll 0 [111;768] [242] true false; R 243 Ll 0 [111;769] [243] true false;
    R 244 Ll 0 [111;770] [244] true false; R 245 Ll 0 [111;771] [245] true false;
    R 246 Ll 0 [111;776] [246] true false; R 247 Sm 0 [247] [247] false false;
    R 248 Ll 0 [248] [248] true false; R 249 Ll 0 [117;768] [249] true false;
    R 250 Ll 0 [117;769] [250] true false; R 251 Ll 0 [117;770] [251] true false;
    R 252 Ll 0 [117;776] [252] true false; R 253 Ll 0 [121;769] [253] true false;
    R 254 Ll 0 [254] [254] true false; R 255 Ll 0 [121;776] [255] true false;
    R 768 Mn 230 [768] [768] false true; R 769 Mn 230 [769] [769] false true;
    R 770 Mn 230 [770] [770] false true; R 771 Mn 230 [771] [771] false true;
    R 772 Mn 230 [772] [772] false true; R 773 Mn 230 [773] [773] false true;
    R 774 Mn 230 [774] [774] false true; R 775 Mn 230 [775] [775] false true;
    R 776 Mn 230 [776] [776] false true; R 777 Mn 230 [777] [777] false true;
    R 778 Mn 230 [778] [778] false true; R 779 Mn 230 [779] [779] false true;
    R 780 Mn 230 [780] [780] false true; R 781 Mn 230 [781] [781] false true;
    R 782 Mn 230 [782] [782] false true; R 783 Mn 230 [783] [783] false true;
    R 784 Mn 230 [784] [784] false true; R 785 Mn 230 [785] [785] false true;
    R 786 Mn 230 [786] [786] false true; R 787 Mn 230 [787] [787] false true;
    R 788 Mn 230 [788] [788] false true; R 789 Mn 232 [789] [789] false true;
    R 790 Mn 220 [790] [790] false true; R 791 Mn 220 [791] [791] false true;
    R 792 Mn 220 [792] [792] false true; R 793 Mn 220 [793] [793] false true;
    R 794 Mn 232 [794] [794] false true; R 795 Mn 216 [795] [795] false true;
    R 796 Mn 220 [796] [796] false true; R 797 Mn 220 [797] [797] false true;
    R 798 Mn 220 [798] [798] false true; R 799 Mn 220 [799] [799] false true;
    R 800 Mn 220 [800] [800] false true; R 801 Mn 202 [801] [801] false true;
    R 802 Mn 202 [802] [802] false true; R 803 Mn 220 [803] [803] false true;
    R 804 Mn 220 [804] [804] false true; R 805 Mn 220 [805] [805] false true;
    R 806 Mn 220 [806] [806] false true; R 807 Mn 202 [807] [807] false true;
    R 808 Mn 202 [808] [808] false true; R 809 Mn 220 [809] [809] false true;
    R 810 Mn 220 [810] [810] false true; R 811 Mn 220 [811] [811] false true;
    R 812 Mn 220 [812] [812] false true; R 813 Mn 220 [813] [813] false true;
    R 814 Mn 220 [814] [814] false true; R 815 Mn 220 [815] [815] false true;
    R 816 Mn 220 [816] [816] false true; R 817 Mn 220 [817] [817] false true;
    R 818 Mn 220 [818] [818] false true; R 819 Mn 220 [819] [819] false true;
    R 820 Mn 1 [820] [820] false true; R 821 Mn 1 [821] [821] false true;
    R 822 Mn 1 [822] [822] false true; R 823 Mn 1 [823] [823] false true;
    R 824 Mn 1 [824] [824] false true; R 825 Mn 220 [825] [825] false true;
    R 826 Mn 220 [826] [826] false true; R 827 Mn 220 [827] [827] false true;
    R 828 Mn 220 [828] [828] false true; R 829 Mn 230 [829] [829] false true;
    R 830 Mn 230 [830] [830] false true; R 831 Mn 230 [831] [831] false true;
    R 832 Mn 230 [768] [832] false true; R 833 Mn 230 [769] [833] false true;
    R 834 Mn 230 [834] [834] false true; R 835 Mn 230 [787] [835] false true;
    R 836 Mn 230 [776;769] [836] false true; R 837 Mn 240 [837] [837] true true;
    R 838 Mn 230 [838] [838] false true; R 839 Mn 220 [839] [839] false true;
    R 840 Mn 220 [840] [840] false true; R 841 Mn 220 [841] [841] false true;
    R 842 Mn 230 [842] [842] false true; R 843 Mn 230 [843] [843] false true;
    R 844 Mn 230 [844] [844] false true; R 845 Mn 220 [845] [845] false true;
    R 846 Mn 220 [846] [846] false true; R 847 Mn 0 [847] [847] false true;
    R 848 Mn 230 [848] [848] false true; R 849 Mn 230 [849] [849] false true;
    R 850 Mn 230 [850] [850] false true; R 851 Mn 220 [851] [851] false true;
    R 852 Mn 220 [852] [852] false true; R 853 Mn 220 [853] [853] false true;
    R 854 Mn 220 [854] [854] false true; R 855 Mn 230 [855] [855] false true;
    R 856 Mn 232 [856] [856] false true; R 857 Mn 220 [857] [857] false true;
    R 858 Mn 220 [858] [858] false true; R 859 Mn 230 [859] [859] false true;
    R 860 Mn 233 [860] [860] false true; R 861 Mn 234 [861] [861] false true;
    R 862 Mn 234 [862] [862] false true; R 863 Mn 233 [863] [863] false true;
    R 864 Mn 234 [864] [864] false true; R 865 Mn 234 [865] [865] false true;
    R 866 Mn 233 [866] [866] false true; R 867 Mn 230 [867] [867] false true;
    R 868 Mn 230 [868] [868] false true; R 869 Mn 230 [869] [869] false true;
    R 870 Mn 230 [870] [870] false true; R 871 Mn 230 [871] [871] false true;
    R 872 Mn 230 [872] [872] false true; R 873 Mn 230 [873] [873] false true;
    R 874 Mn 230 [874] [874] false true; R 875 Mn 230 [875] [875] false true;
    R 876 Mn 230 [876] [876] false true; R 877 Mn 230 [877] [877] false true;
    R 878 Mn 230 [878] [878] false true; R 879 Mn 230 [879] [879] false true;
    R 931 Lu 0 [931] [963] true false; R 962 Ll 0 [962] [962] true false;
    R 963 Ll 0 [963] [963] true false; R 12334 Mc 224 [12334] [12334] false false;
    R 119141 Mc 216 [119141] [119141] false false
  ].

Fixpoint find_row (c : codepoint) (rs : list row) : option row :=
  match rs with
  | [] => None
  | r :: rs' => if c =? cp r then Some r else find_row c rs'
  end.

Definition field {A} (f : row -> A) (default : codepoint -> A) (c : codepoint) : A :=
  match find_row c rows with
  | Some r => f r
  | None => default c
  end.

(** The database restricted to [rows]; a code point outside the table
    is treated as unassigned. *)
Definition fragment : UCD := {|
  to_lower_full := field low (fun c => [c]);
  is_cased := field cased (fun _ => false);
  is_case_ignorable := field ign (fun _ => false);
  decomposition := field dec (fun c => [c]);
  combining := field ccc (fun _ => 0);
  category := field cat (fun _ => Cn)
|}.

End UCD14.

(** ** Text helpers of [main.py] *)

Definition STOPWORDS_ES : list str :=
  [ utf8 "busco"; utf8 "buscar"; utf8 "quisiera"; utf8 "quiero"; utf8 "deseo";
    utf8 "me"; utf8 "para"; utf8 "de"; utf8 "del"; utf8 "la"; utf8 "el";
    utf8 "los"; utf8 "las";
    utf8 "un"; utf8 "una"; utf8 "unos"; utf8 "unas"; utf8 "por"; utf8 "con";
    utf8 "color"; utf8 "talla"; utf8 "modelo"; utf8 "hombre"; utf8 "mujer";
    utf8 "niño"; utf8 "niña";
    utf8 "porfa"; utf8 "porfavor"; utf8 "favor"; utf8 "tipo"; utf8 "marca";
    utf8 "modelo"; utf8 "reloj"; utf8 "lentes"; utf8 "gafas" ].

Definition BRAND_HINTS : list str :=
  [ utf8 "invicta"; utf8 "ray-ban"; utf8 "rayban"; utf8 "oakley"; utf8 "new";
    utf8 "era"; utf8 "g-shock"; utf8 "gshock"; utf8 "festina"; utf8 "tommy";
    utf8 "hilfiger"; utf8 "vans"; utf8 "polaroid" ].

(** The set literal tested in the loop of [build_shopify_query]. *)
Definition BRAND_PHRASES : list str :=
  [ utf8 "ray ban"; utf8 "new era"; utf8 "g shock"; utf8 "tommy hilfiger" ].

Definition COMMA : codepoint := 44.
Definition PERIOD : codepoint := 46.
Definition LETTER_X : codepoint := 88.

Section Tokenizer.
Variable U : UCD.

Definition strip_accents (s : str) : str :=
  filter (fun c => negb (is_Mn (category U c))) (py_nfd U s).

(** The [for w in tokens] loop: [continue] on a stopword or a short
    word, [useful.append(w)] otherwise. *)
Fixpoint useful_loop (tokens : list str) (useful : list str) : list str :=
  match tokens with
  | [] => useful
  | w :: rest =>
    if set_mem w STOPWORDS_ES then useful_loop rest useful
    else if (length w <=? 2)%nat then useful_loop rest useful
    else useful_loop rest (useful ++ [w])
  end.

(** The text after lower-casing, accent stripping and replacement of
    commas and periods by spaces. *)
Definition cleaned_text (text : str) : str :=
  py_replace PERIOD (utf8 " ")
    (py_replace COMMA (utf8 " ") (strip_accents (py_lower U text))).

Definition normalize_terms (text : str) : list str :=
  let tokens := filter str_truthy (py_split (cleaned_text text)) in
  let useful := useful_loop tokens [] in
  firstn 5 useful.

End Tokenizer.

(** ** The query synthesizer *)

Definition fstr_title (w : str) : str :=
  utf8 "title:" ++ [QUOTE] ++ w ++ utf8 "*" ++ [QUOTE].
Definition fstr_tag (w : str) : str :=
  utf8 "tag:" ++ [QUOTE] ++ w ++ [QUOTE].
Definition fstr_vendor (w : str) : str :=
  utf8 "vendor:" ++ [QUOTE] ++ w ++ [QUOTE].

(** [any(tok in BRAND_HINTS for tok in w.split())] *)
Definition looks_like_brand (w : str) : bool :=
  existsb (fun tok => set_mem tok BRAND_HINTS) (py_split w).

(** The group appended for the term [w] (after the merge). *)
Definition make_group (w : str) : str :=
  let w := py_replace QUOTE [] w in
  let group := [fstr_title w; fstr_tag w] in
  let group := if looks_like_brand w then group ++ [fstr_vendor w] else group in
  utf8 "(" ++ py_join (utf8 " OR ") group ++ utf8 ")".

(** One iteration of the [while] loop at cursor [i], where
    [terms[i] = w]: the new cursor and the new [parts]. *)
Definition loop_body (terms : list str) (w : str) (i : nat) (parts : list str)
  : nat * list str :=
  let pair :=
    match nth_error terms (i + 1) with
    | Some nxt => Some (w ++ utf8 " " ++ nxt)
    | None => None
    end in
  let '(w, i) :=
    match pair with
    | Some p =>
      if str_truthy p && set_mem p BRAND_PHRASES then (p, (i + 1)%nat) else (w, i)
    | None => (w, i)
    end in
  ((i + 1)%nat, parts ++ [make_group w]).

(** [while i < len(terms)], at most [fuel] iterations. *)
Fixpoint while_loop (fuel : nat) (terms : list str) (i : nat) (parts : list str)
  : list str :=
  match fuel with
  | O => parts
  | S fuel' =>
    match nth_error terms i with
    | None => parts
    | Some w =>
      let '(i', parts') := loop_body terms w i parts in
      while_loop fuel' terms i' parts'
    end
  end.

Definition build_shopify_query (terms : list str) : str :=
  match terms with
  | [] => []
  | _ => py_join (utf8 " AND ") (while_loop (length terms) terms 0 [])
  end.

(** ** Python values and exceptions *)

Module PyVal.

(** A value as [resp.json()] yields it: [None], [bool], [int], [float],
    [str], [list] and [dict] with string keys (an association list, the
    first binding of a key being the dictionary's). *)
#[warnings="-register-all"]
Inductive json :=
| JNull
| JBool (b : bool)
| JInt (z : Z)
| JFloat (f : spec_float)
| JStr (s : str)
| JList (l : list json)
| JDict (d : list (str * json)).

(** Instances of [Exception].  [CollaboratorError] stands for whatever
    the [requests] or [openai] libraries raise, with its [str()]. *)
Inductive exn :=
| RuntimeError (msg : str)
| KeyError (key : json)
| IndexError
| TypeError
| AttributeError
| ValueError
| OverflowError
| CollaboratorError (detail : str).

Inductive outcome (A : Type) :=
| Return (a : A)
| Raise (e : exn).
Arguments Return {A} a.
Arguments Raise {A} e.

Definition obind {A B} (o : outcome A) (k : A -> outcome B) : outcome B :=
  match o with
  | Return a => k a
  | Raise e => Raise e
  end.

Definition truthy (v : json) : bool :=
  match v with
  | JNull => false
  | JBool b => b
  | JInt z => negb (z =? 0)%Z
  | JFloat (S754_zero _) => false
  | JFloat _ => true
  | JStr s => str_truthy s
  | JList [] => false
  | JList _ => true
  | JDict [] => false
  | JDict _ => true
  end.

(** [a or b] *)
Definition py_or (a b : json) : json := if truthy a then a else b.

Fixpoint dict_lookup (k : str) (d : list (str * json)) : option json :=
  match d with
  | [] => None
  | (k', v) :: d' => if str_eqb k k' then Some v else dict_lookup k d'
  end.

Fixpoint starts_with (p s : str) : bool :=
  match p, s with
  | [], _ => true
  | x :: p', y :: s' => (x =? y) && starts_with p' s'
  | _ :: _, [] => false
  end.

(** [p in s] on strings *)
Fixpoint substring (p s : str) : bool :=
  starts_with p s ||
  match s with
  | [] => false
  | _ :: s' => substring p s'
  end.

(** [k in v] for a string [k] *)
Definition py_in (k : str) (v : json) : outcome bool :=
  match v with
  | JDict d => Return (match dict_lookup k d with Some _ => true | None => false end)
  | JList l =>
    Return (existsb (fun x => match x with JStr s => str_eqb k s | _ => false end) l)
  | JStr s => Return (substring k s)
  | _ => Raise TypeError
  end.

(** [v[k]] for a string [k] *)
Definition getitem (v : json) (k : str) : outcome json :=
  match v with
  | JDict d =>
    match dict_lookup k d with
    | Some x => Return x
    | None => Raise (KeyError (JStr k))
    end
  | _ => Raise TypeError
  end.

(** [v[0]] *)
Definition getitem0 (v : json) : outcome json :=
  match v with
  | JList (x :: _) => Return x
  | JList [] => Raise IndexError
  | JStr (c :: _) => Return (JStr [c])
  | JStr [] => Raise IndexError
  | JDict _ => Raise (KeyError (JInt 0))
  | _ => Raise TypeError
  end.

(** [v.get(k, default)] *)
Definition py_get (v : json) (k : str) (default : json) : outcome json :=
  match v with
  | JDict d =>
    Return (match dict_lookup k d with Some x => x | None => default end)
  | _ => Raise AttributeError
  end.

(** The items visited by [for e in v[:3]]. *)
Definition first3 (v : json) : outcome (list json) :=
  match v with
  | JList l => Return (firstn 3 l)
  | JStr s => Return (map (fun c => JStr [c]) (firstn 3 s))
  | _ => Raise TypeError
  end.

(** [v.strip()] *)
Definition method_strip (v : json) : outcome str :=
  match v with
  | JStr s => Return (py_strip s)
  | _ => Raise AttributeError
  end.

End PyVal.
Export PyVal.

(** ** Formatting floats: [format(f, ",.2f")] *)

Module FloatFormat.

Fixpoint uint_digits (d : Decimal.uint) : str :=
  match d with
  | Decimal.Nil => []
  | Decimal.D0 r => 48 :: uint_digits r
  | Decimal.D1 r => 49 :: uint_digits r
  | Decimal.D2 r => 50 :: uint_digits r
  | Decimal.D3 r => 51 :: uint_digits r
  | Decimal.D4 r => 52 :: uint_digits r
  | Decimal.D5 r => 53 :: uint_digits r
  | Decimal.D6 r => 54 :: uint_digits r
  | Decimal.D7 r => 55 :: uint_digits r
  | Decimal.D8 r => 56 :: uint_digits r
  | Decimal.D9 r => 57 :: uint_digits r
  end.

Definition digits (n : N) : str := uint_digits (N.to_uint n).

(** Thousands separators, on the digits taken from the right. *)
Fixpoint group3 (rds : str) : str :=
  match rds with
  | a :: r1 =>
    match r1 with
    | b :: r2 =>
      match r2 with
      | c :: r3 =>
        match r3 with
        | [] => rds
        | _ :: _ => a :: b :: c :: COMMA :: group3 r3
        end
      | [] => rds
      end
    | [] => rds
    end
  | [] => rds
  end.

(** Hundredths of [m * 2^e], rounded to nearest, ties to even. *)
Definition hundredths (m : positive) (e : Z) : N :=
  match e with
  | Zneg p =>
    let den := N.pow 2 (Npos p) in
    let num := Npos m * 100 in
    let q := num / den in
    let r := num mod den in
    if 2 * r <? den then q
    else if den <? 2 * r then q + 1
    else if N.even q then q else q + 1
  | _ => Npos m * N.pow 2 (Z.to_N e) * 100
  end.

Definition two_digits (n : N) : str := [48 + n / 10; 48 + n mod 10].

Definition fixed2 (sign : bool) (h : N) : str :=
  (if sign then utf8 "-" else []) ++
  rev (group3 (rev (digits (h / 100)))) ++ [PERIOD] ++ two_digits (h mod 100).

Definition format_comma_2f (f : spec_float) : str :=
  match f with
  | S754_nan => utf8 "nan"
  | S754_infinity s => if s then utf8 "-inf" else utf8 "inf"
  | S754_zero s => fixed2 s 0
  | S754_finite s m e => fixed2 s (hundredths m e)
  end.

End FloatFormat.
Export FloatFormat.

(** ** The process and its collaborators *)

Module World.

(** A call that reached a collaborator: the prompt sent to the language
    model, or the query variable [q] posted to the catalog. *)
Inductive event :=
| OpenAICall (prompt : str)
| CatalogPost (q : str).

Definition trace := list event.

(** The environment of one request: the configuration read at import
    time, the collaborators, and the parts of the Python runtime that
    the module calls and that are not modelled here.  A collaborator
    answers depending on the calls made so far. *)
Record Env := {
  ucd : UCD;
  SHOPIFY_DOMAIN : option str;
  SHOPIFY_TOKEN : option str;
  OPENAI_API_KEY : option str;
  (** [oai.responses.create(model=..., input=prompt).output_text] *)
  responses_create : trace -> str -> outcome json;
  (** [requests.post(...)], [raise_for_status()] and [resp.json()] *)
  requests_post : trace -> str -> outcome json;
  (** [repr] of a value *)
  py_repr : json -> str;
  (** [str(e)] of an exception raised by the interpreter *)
  interpreter_message : exn -> str;
  (** [float(s)] and [float(n)], [None] where they raise *)
  float_of_str : str -> option spec_float;
  float_of_int : Z -> option spec_float
}.

(** Computations that call collaborators: the trace is threaded, and an
    exception keeps the trace reached when it was raised. *)
Definition M (A : Type) := trace -> outcome A * trace.

Definition ret {A} (a : A) : M A := fun t => (Return a, t).
Definition throw {A} (e : exn) : M A := fun t => (Raise e, t).
Definition lift {A} (o : outcome A) : M A := fun t => (o, t).

Definition bind {A B} (m : M A) (k : A -> M B) : M B :=
  fun t =>
    match m t with
    | (Return a, t') => k a t'
    | (Raise e, t') => (Raise e, t')
    end.

(** [try: m  except Exception as e: h e] *)
Definition try_except {A} (m : M A) (h : exn -> M A) : M A :=
  fun t =>
    match m t with
    | (Return a, t') => (Return a, t')
    | (Raise e, t') => h e t'
    end.

(** The outcome of [m], handed to the code after the [try] statement. *)
Definition attempt {A} (m : M A) : M (outcome A) :=
  fun t => let '(o, t') := m t in (Return o, t').

Definition call_openai (env : Env) (prompt : str) : M json :=
  fun t => (responses_create env t prompt, t ++ [OpenAICall prompt]).

Definition call_catalog (env : Env) (q : str) : M json :=
  fun t => (requests_post env t q, t ++ [CatalogPost q]).

End World.
Export World.

Notation "x <- m ;; k" := (bind m (fun x => k))
  (at level 61, m at next level, right associativity).

(** [str(v)], as an f-string renders a value. *)
Definition py_str (env : Env) (v : json) : str :=
  match v with
  | JStr s => s
  | _ => py_repr env v
  end.

(** [str(e)] *)
Definition exn_str (env : Env) (e : exn) : str :=
  match e with
  | RuntimeError msg => msg
  | CollaboratorError detail => detail
  | KeyError key => py_repr env key
  | _ => interpreter_message env e
  end.

Definition NL : codepoint := 10.

(** ** Configuration *)

Definition API_VERSION : str := utf8 "2024-10".
Definition STOREFRONT_BASE : str := utf8 "https://suntimestore.com".

Definition env_truthy (v : option str) : bool :=
  match v with
  | Some s => str_truthy s
  | None => false
  end.

Definition SHOPIFY_GQL (env : Env) : option str :=
  match SHOPIFY_DOMAIN env with
  | Some d =>
    if str_truthy d
    then Some (utf8 "https://" ++ d ++ utf8 "/admin/api/" ++ API_VERSION
               ++ utf8 "/graphql.json")
    else None
  | None => None
  end.

(** [oai] is a client when the key is set, [None] otherwise. *)
Definition oai (env : Env) : bool := env_truthy (OPENAI_API_KEY env).

(** ** Catalog lookup *)

(** The terms [shopify_query] synthesizes its query from. *)
Definition query_terms (env : Env) (q : str) : list str :=
  let terms := normalize_terms (ucd env) q in
  match terms with
  | [] => normalize_terms (ucd env) (strip_accents (ucd env) q)
  | _ => terms
  end.

(** What [shopify_query] does with the decoded response. *)
Definition read_edges (env : Env) (data : json) : outcome json :=
  obind (py_in (utf8 "errors") data) (fun has_errors =>
  if has_errors : bool then
    obind (getitem data (utf8 "errors")) (fun errs =>
    Raise (RuntimeError (utf8 "GraphQL errors: " ++ py_str env errs)))
  else
    obind (py_get data (utf8 "data") (JDict [])) (fun d =>
    obind (py_get d (utf8 "products") (JDict [])) (fun p =>
    obind (py_get p (utf8 "edges") (JList [])) (fun edges =>
    Return (py_or edges (JList [])))))).

Definition shopify_query (env : Env) (q : str) : M json :=
  if negb (env_truthy (SHOPIFY_GQL env)) || negb (env_truthy (SHOPIFY_TOKEN env))
  then throw (RuntimeError (utf8 "Shopify no configurado (dominio o token faltante)."))
  else
    let gql_query := build_shopify_query (query_terms env q) in
    data <- call_catalog env gql_query ;;
    lift (read_edges env data).

(** ** Formatting *)

Definition UNKNOWN_PRICE : str := utf8 "S/ —".

(** [float(v)] *)
Definition py_float (env : Env) (v : json) : outcome spec_float :=
  match v with
  | JFloat f => Return f
  | JInt z =>
    match float_of_int env z with
    | Some f => Return f
    | None => Raise OverflowError
    end
  | JBool b => Return (if b then S754_finite false 1 0 else S754_zero false)
  | JStr s =>
    match float_of_str env s with
    | Some f => Return f
    | None => Raise ValueError
    end
  | _ => Raise TypeError
  end.

(** The body of the [try] in [format_price]. *)
Definition format_price_try (env : Env) (v : json) : outcome str :=
  obind (py_float env v) (fun f =>
  Return (py_replace LETTER_X (utf8 ".")
           (py_replace PERIOD (utf8 ",")
             (py_replace COMMA (utf8 "X")
               (utf8 "S/ " ++ format_comma_2f f))))).

Definition format_price (env : Env) (v : json) : str :=
  match format_price_try env v with
  | Return s => s
  | Raise _ => UNKNOWN_PRICE
  end.

(** The price of the first variant, [n["variants"]["edges"][0]["node"]["price"]]. *)
Definition first_price (n : json) : outcome json :=
  obind (getitem n (utf8 "variants")) (fun vs =>
  obind (getitem vs (utf8 "edges")) (fun es =>
  obind (getitem0 es) (fun e0 =>
  obind (getitem e0 (utf8 "node")) (fun vn =>
  getitem vn (utf8 "price"))))).

(** The line appended for one edge [e]. *)
Definition format_edge (env : Env) (e : json) : outcome str :=
  obind (getitem e (utf8 "node")) (fun n =>
  obind (py_get n (utf8 "title") (JStr (utf8 "Producto"))) (fun title =>
  obind (py_get n (utf8 "handle") (JStr [])) (fun handle =>
  obind (py_get n (utf8 "onlineStoreUrl") JNull) (fun own_url =>
  let url :=
    py_or own_url
      (if truthy handle
       then JStr (STOREFRONT_BASE ++ utf8 "/products/" ++ py_str env handle)
       else JStr STOREFRONT_BASE) in
  let price :=
    match first_price n with
    | Return p => p
    | Raise _ => JStr (utf8 "—")
    end in
  Return (utf8 "• " ++ py_str env title ++ utf8 " — " ++ format_price env price
          ++ [NL] ++ utf8 "  " ++ py_str env url))))).

(** The [for e in edges[:3]] loop. *)
Fixpoint format_lines (env : Env) (es : list json) (lines : list str)
  : outcome (list str) :=
  match es with
  | [] => Return lines
  | e :: rest =>
    obind (format_edge env e) (fun line =>
    format_lines env rest (lines ++ [line]))
  end.

Definition format_products (env : Env) (edges : json) : outcome str :=
  obind (first3 edges) (fun es =>
  obind (format_lines env es []) (fun lines =>
  Return (py_join [NL; NL] lines))).

(** ** Intent resolution *)

Definition prompt_for (env : Env) (user_text : str) : str :=
  utf8 "Convierte este mensaje del cliente en una consulta breve para buscar en Shopify "
  ++ utf8 "(3-6 palabras, marca+tipo+atributo/color si aplica). "
  ++ utf8 "Texto: " ++ py_repr env (JStr user_text) ++ utf8 ". "
  ++ utf8 "Ejemplos: 'invicta reloj dorado', 'ray-ban mujer polarizado', 'new era gorra negra'.".

Definition intent_from_openai (env : Env) (user_text : str) : M str :=
  if negb (oai env) then ret user_text
  else
    try_except
      (output_text <- call_openai env (prompt_for env user_text) ;;
       stripped <- lift (method_strip (py_or output_text (JStr []))) ;;
       let intent := py_lower (ucd env) stripped in
       ret (if str_truthy intent then intent else user_text))
      (fun _ => ret user_text).

(** ** The endpoint *)

Definition ASK_WHAT : str :=
  utf8 "¿Qué estás buscando? Ejemplo: 'reloj Invicta dorado' o 'lentes Ray-Ban mujer polarizado'.".

Definition apology (env : Env) (e : exn) : str :=
  utf8 "⚠️ No pude consultar Shopify (" ++ exn_str env e
  ++ utf8 "). Verifica dominio/token y vuelve a intentar.".

Definition no_results (intent : str) : str :=
  utf8 "No encontré resultados para “" ++ intent
  ++ utf8 "”. ¿Buscamos otra marca o estilo parecido?".

Definition listing (intent listado : str) : str :=
  utf8 "✨ Esto es lo más cercano a lo que buscas (" ++ intent ++ utf8 "):"
  ++ [NL; NL] ++ listado ++ [NL; NL]
  ++ utf8 "¿Quieres que te recomiende según precio o color? "
  ++ utf8 "🎁 *Tip:* si es tu primera compra, usa **SUNTIME10%** para 10% de descuento.".

(** [chat_intent(data)], for [data.message = message]; the value is the
    ["response"] field of the returned dictionary. *)
Definition chat_intent (env : Env) (message : str) : M str :=
  let user_text := py_strip (if str_truthy message then message else []) in
  if negb (str_truthy user_text) then ret ASK_WHAT
  else
    intent <- intent_from_openai env user_text ;;
    first <- attempt (shopify_query env intent) ;;
    match first with
    | Raise e => ret (apology env e)
    | Return products =>
      products <-
        (if negb (truthy products)
         then try_except (shopify_query env user_text) (fun _ => ret products)
         else ret products) ;;
      if negb (truthy products) then ret (no_results intent)
      else
        listado <- lift (format_products env products) ;;
        ret (listing intent listado)
    end.

(** ** The status endpoints *)

(** A configuration value as it appears in a response: the string, or
    [None]. *)
Definition json_of_setting (v : option str) : json :=
  match v with
  | Some s => JStr s
  | None => JNull
  end.

(** [env_ok()] *)
Definition env_ok (env : Env) : json :=
  JDict [ (utf8 "SHOPIFY_DOMAIN_set", JBool (env_truthy (SHOPIFY_DOMAIN env)));
          (utf8 "SHOPIFY_TOKEN_set", JBool (env_truthy (SHOPIFY_TOKEN env)));
          (utf8 "OPENAI_API_KEY_set", JBool (env_truthy (OPENAI_API_KEY env)));
          (utf8 "SHOPIFY_GQL", json_of_setting (SHOPIFY_GQL env)) ].

(** [root()] *)
Definition root : json :=
  JDict [ (utf8 "message", JStr (utf8 "🚀 Copiloto IA de Suntime Store activo")) ].

(** [health()] *)
Definition health (env : Env) : json :=
  JDict [ (utf8 "ok", JBool true); (utf8 "env", env_ok env) ].

(** * Notions used in the statements *)

(** A word: a string without white space. *)
Definition spaceless (w : str) : Prop := forall c, In c w -> py_isspace c = false.

(** The words that the loop of [normalize_terms] keeps. *)
Definition is_useful (w : str) : bool :=
  negb (set_mem w STOPWORDS_ES) && negb (length w <=? 2)%nat.

(** A character that [lower] leaves alone. *)
Definition lower_fixed (U : UCD) (c : codepoint) : Prop :=
  c <> SIGMA /\ to_lower_full U c = [c].

(** Two facts of the character database: the lower-case mapping yields
    characters that it leaves alone (as are both small sigmas), and the
    canonical decomposition of such a character consists of such
    characters. *)
Record LowerClosed (U : UCD) : Prop := {
  lower_yields_fixed :
    forall c d, c <> SIGMA -> In d (to_lower_full U c) -> lower_fixed U d;
  sigmas_fixed : lower_fixed U FINAL_SIGMA /\ lower_fixed U SMALL_SIGMA;
  decomposition_keeps_fixed :
    forall c d, lower_fixed U c -> In d (decomposition U c) -> lower_fixed U d
}.

(** [lower_fixed] on the fragment, as a test. *)
Definition lower_fixed_b (c : codepoint) : bool :=
  negb (c =? SIGMA) && str_eqb (to_lower_full UCD14.fragment c) [c].

(** *** The query, term by term *)

(** A term of the query: a token, or two consecutive tokens merged into
    a brand phrase. *)
Inductive term :=
| Word (w : str)
| Phrase (a b : str).

(** The terms of a token list, read left to right: two tokens that form
    a recognized brand phrase make one term. *)
Fixpoint merge_phrases (terms : list str) : list term :=
  match terms with
  | [] => []
  | a :: rest =>
    match rest with
    | b :: rest' =>
      if set_mem (a ++ utf8 " " ++ b) BRAND_PHRASES
      then Phrase a b :: merge_phrases rest'
      else Word a :: merge_phrases rest
    | [] => [Word a]
    end
  end.

Definition term_source (t : term) : str :=
  match t with
  | Word w => w
  | Phrase a b => a ++ utf8 " " ++ b
  end.

(** The text embedded in the group: the term without its quotes. *)
Definition term_text (t : term) : str := py_replace QUOTE [] (term_source t).

(** The term itself, or a half of the merged phrase, is a brand hint. *)
Definition has_brand_hint (t : term) : bool :=
  set_mem (term_text t) BRAND_HINTS ||
  match t with
  | Word _ => false
  | Phrase a b => set_mem a BRAND_HINTS || set_mem b BRAND_HINTS
  end.

Definition quoted (w : str) : str := [QUOTE] ++ w ++ [QUOTE].

Definition group_of (t : term) : str :=
  let w := term_text t in
  utf8 "(title:" ++ quoted (w ++ utf8 "*") ++ utf8 " OR tag:" ++ quoted w
  ++ (if has_brand_hint t then utf8 " OR vendor:" ++ quoted w else [])
  ++ utf8 ")".

(** The query of a token list: its groups, joined. *)
Definition query_of_terms (terms : list str) : str :=
  py_join (utf8 " AND ") (map group_of (merge_phrases terms)).

Definition spaceless_b (w : str) : bool := forallb (fun c => negb (py_isspace c)) w.

(** The token list of the brand-phrase example, and the query expected
    for it. *)
Definition NEW_ERA_TOKENS : list str :=
  [utf8 "new"; utf8 "era"; utf8 "gorra"; utf8 "negra"].

Definition NEW_ERA_QUERY : str :=
  utf8 "(title:" ++ quoted (utf8 "new era*") ++ utf8 " OR tag:" ++ quoted (utf8 "new era")
  ++ utf8 " OR vendor:" ++ quoted (utf8 "new era")
  ++ utf8 ") AND (title:" ++ quoted (utf8 "gorra*") ++ utf8 " OR tag:" ++ quoted (utf8 "gorra")
  ++ utf8 ") AND (title:" ++ quoted (utf8 "negra*") ++ utf8 " OR tag:" ++ quoted (utf8 "negra")
  ++ utf8 ")".

(** *** The intent, from the answer of the language model *)

(** The trimmed, lower-cased text of the answer; the user's text when
    the call raised, or when the answer is not a text or is empty once
    trimmed. *)
Definition resolved_intent (env : Env) (user_text : str) (answer : outcome json) : str :=
  match answer with
  | Return (JStr s) =>
    match py_lower (ucd env) (py_strip s) with
    | [] => user_text
    | intent => intent
    end
  | _ => user_text
  end.

(** *** The catalog lookup, as seen from the endpoint *)

(** Domain and token are both set. *)
Definition configured (env : Env) : bool :=
  env_truthy (SHOPIFY_GQL env) && env_truthy (SHOPIFY_TOKEN env).

(** The query that [shopify_query] posts for the text [q]. *)
Definition synthesized_query (env : Env) (q : str) : str :=
  build_shopify_query (query_terms env q).

(** *** Prices *)

(** The float [1234.5], as binary64: [5429388417957888 * 2^-42]. *)
Definition FLOAT_1234_5 : spec_float := S754_finite false 5429388417957888 (-42).

(** *** Example environments *)

Module Examples.

(** The body of a catalog response carrying [edges]. *)
Definition response_with (edges : list json) : json :=
  JDict [(utf8 "data",
          JDict [(utf8 "products", JDict [(utf8 "edges", JList edges)])])].

(** A configured shop without a language model, whose catalog answers
    every query with [answer]. *)
Definition shop (answer : outcome json) : Env := {|
  ucd := UCD14.fragment;
  SHOPIFY_DOMAIN := Some (utf8 "suntimestores.myshopify.com");
  SHOPIFY_TOKEN := Some (utf8 "shpat_token");
  OPENAI_API_KEY := None;
  responses_create := fun _ _ => Raise (CollaboratorError (utf8 "no client"));
  requests_post := fun _ _ => answer;
  py_repr := fun _ => utf8 "?";
  interpreter_message := fun _ => utf8 "?";
  float_of_str := fun _ => None;
  float_of_int := fun _ => None
|}.

(** The catalog finds nothing. *)
Definition empty_shop : Env := shop (Return (response_with [])).

(** The catalog returns one edge that has no ["node"]. *)
Definition odd_shop : Env := shop (Return (response_with [JDict []])).

(** One edge as the catalog returns it. *)
Definition watch : json :=
  JDict [(utf8 "node",
          JDict [(utf8 "title", JStr (utf8 "Invicta Pro Diver"));
                 (utf8 "handle", JStr (utf8 "invicta-pro-diver"));
                 (utf8 "variants",
                  JDict [(utf8 "edges",
                          JList [JDict [(utf8 "node",
                                         JDict [(utf8 "price", JFloat FLOAT_1234_5)])]])])])].

(** A shop whose catalog always returns [watch]. *)
Definition watch_shop : Env := shop (Return (response_with [watch])).

End Examples.

(** *** Classes of characters *)

(** The strings made of characters of [D]. *)
Definition within (D : codepoint -> bool) (s : str) : Prop :=
  forall c, In c s -> D c = true.

(** Lower case of a Basic Latin character. *)
Definition ascii_lower (c : codepoint) : codepoint :=
  if (65 <=? c) && (c <=? 90) then c + 32 else c.

(** A database that has Basic Latin (U+0000-U+007F) as Unicode has it:
    the capital letters map to the small ones, no character decomposes,
    combines or is a nonspacing mark. *)
Record BasicLatin (U : UCD) : Prop := {
  ascii_lower_full : forall c, c < 128 -> to_lower_full U c = [ascii_lower c];
  ascii_decomposition : forall c, c < 128 -> decomposition U c = [c];
  ascii_combining : forall c, c < 128 -> combining U c = 0;
  ascii_category : forall c, c < 128 -> category U c <> Mn
}.

Definition basic_latin_b (U : UCD) (c : codepoint) : bool :=
  str_eqb (to_lower_full U c) [ascii_lower c]
  && str_eqb (decomposition U c) [c]
  && (combining U c =? 0)
  && negb (is_Mn (category U c)).

(** What [strip_accents] keeps of one character. *)
Definition strip1 (U : UCD) (c : codepoint) : str :=
  filter (fun x => negb (is_Mn (category U x))) (decomposition U c).

(** What the final-sigma rule sees of a text: nothing when all of it
    is case-ignorable, else whether its first character that is not
    case-ignorable is cased. *)
Definition case_context (U : UCD) (s : str) : option bool :=
  match skip_ignorable U s with
  | [] => None
  | d :: _ => Some (is_cased U d)
  end.

(** A class [D] of characters on which stripping the accents before
    lower-casing changes nothing: it is closed under the lower-case
    mapping and under decomposition; its characters of non-zero
    combining class are nonspacing marks; on each of its characters
    other than the capital sigma, which no other character decomposes
    to, stripping first gives the same stripped lower case; stripping
    a character keeps what the final-sigma rule sees of it, from
    either side; and the capital sigma, when in the class, is not
    decomposed and has both its lower-case forms in the class. *)
Record Plain (U : UCD) (D : codepoint -> bool) : Prop := {
  plain_lower : forall c, D c = true -> within D (to_lower_full U c);
  plain_decomposition : forall c, D c = true -> within D (decomposition U c);
  plain_marks : forall c, D c = true -> combining U c <> 0 -> category U c = Mn;
  plain_commute :
    forall c, D c = true -> c <> SIGMA ->
      ~ In SIGMA (strip1 U c) /\
      flat_map (strip1 U) (flat_map (to_lower_full U) (strip1 U c)) =
      flat_map (strip1 U) (to_lower_full U c);
  plain_context :
    forall c, D c = true ->
      case_context U (strip1 U c) = case_context U [c] /\
      case_context U (rev (strip1 U c)) = case_context U [c];
  plain_sigma :
    D SIGMA = true ->
    strip1 U SIGMA = [SIGMA] /\ D FINAL_SIGMA = true /\ D SMALL_SIGMA = true
}.

(** Basic Latin, Latin-1 Supplement, Combining Diacritical Marks and
    the Greek sigmas. *)
Definition latin (c : codepoint) : bool :=
  (c <? 256) || ((768 <=? c) && (c <? 880))
  || (c =? SIGMA) || (c =? FINAL_SIGMA) || (c =? SMALL_SIGMA).

Definition context_eqb (a b : option bool) : bool :=
  match a, b with
  | None, None => true
  | Some x, Some y => Bool.eqb x y
  | _, _ => false
  end.

(** The conditions of [Plain] on one character, as a test. *)
Definition plain_b (U : UCD) (D : codepoint -> bool) (c : codepoint) : bool :=
  forallb D (to_lower_full U c)
  && forallb D (decomposition U c)
  && ((combining U c =? 0) || is_Mn (category U c))
  && ((c =? SIGMA)
      || (negb (existsb (N.eqb SIGMA) (strip1 U c))
          && str_eqb (flat_map (strip1 U) (flat_map (to_lower_full U) (strip1 U c)))
                     (flat_map (strip1 U) (to_lower_full U c))))
  && context_eqb (case_context U (strip1 U c)) (case_context U [c])
  && context_eqb (case_context U (rev (strip1 U c))) (case_context U [c]).

(** A string on which stripping the accents first changes the tokens:
    ["aa"], HANGUL SINGLE DOT TONE MARK, COMBINING GRAPHEME JOINER,
    MUSICAL SYMBOL COMBINING STEM. *)
Definition REORDERED : str := [97; 97; 12334; 847; 119141].

(** The query expected for the tokens [invicta, dorado]. *)
Definition INVICTA_QUERY : str :=
  utf8 "(title:" ++ quoted (utf8 "invicta*") ++ utf8 " OR tag:" ++ quoted (utf8 "invicta")
  ++ utf8 " OR vendor:" ++ quoted (utf8 "invicta")
  ++ utf8 ") AND (title:" ++ quoted (utf8 "dorado*") ++ utf8 " OR tag:" ++ quoted (utf8 "dorado")
  ++ utf8 ")".

(** The code points of [latin], listed. *)
Definition latin_listed : list codepoint :=
  map N.of_nat (seq 0 256 ++ seq 768 112) ++ [SIGMA; FINAL_SIGMA; SMALL_SIGMA].

(** *** Notions for the further properties *)

(** Text of Basic Latin characters. *)
Definition ascii_text (s : str) : Prop := forall c, In c s -> c < 128.

(** LATIN SMALL LETTER N WITH TILDE, U+00F1. *)
Definition ENYE : codepoint := 241.

(** The exchange of comma and period. *)
Definition swap_separators (c : codepoint) : codepoint :=
  if c =? COMMA then PERIOD else if c =? PERIOD then COMMA else c.

(** An edge that is a dictionary whose ["node"] is a dictionary. *)
Definition has_node (e : json) : bool :=
  match e with
  | JDict d =>
    match dict_lookup (utf8 "node") d with
    | Some (JDict _) => true
    | _ => false
    end
  | _ => false
  end.

(** The message of the [RuntimeError] of an unconfigured shop. *)
Definition NOT_CONFIGURED : str :=
  utf8 "Shopify no configurado (dominio o token faltante).".

(** What [chat_intent] passes on as the intent of [user_text], given
    the trace so far. *)
Definition intent_of (env : Env) (user_text : str) (t : trace) : str :=
  if oai env
  then resolved_intent env user_text
         (responses_create env t (prompt_for env user_text))
  else user_text.

(** The trace after the intent is resolved. *)
Definition trace_after_intent (env : Env) (user_text : str) (t : trace) : trace :=
  if oai env then t ++ [OpenAICall (prompt_for env user_text)] else t.

(** A catalog whose responses, when read, hold a list of edges of which
    the first three have a node. *)
Definition sound_catalog (env : Env) : Prop :=
  forall t q data v,
    requests_post env t q = Return data ->
    read_edges env data = Return v ->
    exists l, v = JList l /\ forallb has_node (firstn 3 l) = true.

(** A response with an ["errors"] entry beside its data. *)
Definition response_with_errors (errors : json) (edges : list json) : json :=
  JDict [ (utf8 "errors", errors);
          (utf8 "data",
           JDict [(utf8 "products", JDict [(utf8 "edges", JList edges)])]) ].

Module MoreExamples.

(** A configured shop with a language model that always gives
    [answer], and a catalog that always gives [catalog]. *)
Definition assisted (answer catalog : outcome json) : Env := {|
  ucd := UCD14.fragment;
  SHOPIFY_DOMAIN := Some (utf8 "suntimestores.myshopify.com");
  SHOPIFY_TOKEN := Some (utf8 "shpat_token");
  OPENAI_API_KEY := Some (utf8 "sk-key");
  responses_create := fun _ _ => answer;
  requests_post := fun _ _ => catalog;
  py_repr := fun _ => utf8 "?";
  interpreter_message := fun _ => utf8 "?";
  float_of_str := fun _ => None;
  float_of_int := fun _ => None
|}.

(** A shop whose token is missing. *)
Definition tokenless : Env := {|
  ucd := UCD14.fragment;
  SHOPIFY_DOMAIN := Some (utf8 "suntimestores.myshopify.com");
  SHOPIFY_TOKEN := None;
  OPENAI_API_KEY := None;
  responses_create := fun _ _ => Raise (CollaboratorError (utf8 "no client"));
  requests_post := fun _ _ => Return (Examples.response_with [Examples.watch]);
  py_repr := fun _ => utf8 "?";
  interpreter_message := fun _ => utf8 "?";
  float_of_str := fun _ => None;
  float_of_int := fun _ => None
|}.

(** A shop whose catalog finds nothing for the intent and the watch for
    the second query. *)
Definition second_chance : Env := {|
  ucd := UCD14.fragment;
  SHOPIFY_DOMAIN := Some (utf8 "suntimestores.myshopify.com");
  SHOPIFY_TOKEN := Some (utf8 "shpat_token");
  OPENAI_API_KEY := Some (utf8 "sk-key");
  responses_create := fun _ _ => Return (JStr (utf8 " Invicta Azul "));
  requests_post := fun t _ =>
    match t with
    | [_] => Return (Examples.response_with [])
    | _ => Return (Examples.response_with [Examples.watch])
    end;
  py_repr := fun _ => utf8 "?";
  interpreter_message := fun _ => utf8 "?";
  float_of_str := fun _ => None;
  float_of_int := fun _ => None
|}.

End MoreExamples.

(** *** Numbers and digits *)

(** A float that is a number: neither infinite nor a NaN. *)
Definition is_number (f : spec_float) : bool :=
  match f with
  | S754_zero _ | S754_finite _ _ _ => true
  | _ => false
  end.

(** A decimal digit. *)
Definition is_digit (c : codepoint) : bool := (48 <=? c) && (c <=? 57).

(** *** Accents and marks *)

(** The decompositions of the database are full: they consist of
    characters that decompose no further. *)
Definition FullyDecomposed (U : UCD) : Prop :=
  forall c d, In d (decomposition U c) -> decomposition U d = [d].

(** A combining mark: general category Mn, Mc or Me. *)
Definition is_mark (g : general_category) : bool :=
  match g with
  | Mn | Mc | Me => true
  | _ => false
  end.

(** A string free of diacritics: it holds no combining mark. *)
Definition diacritic_free (U : UCD) (w : str) : Prop :=
  forall c, In c w -> is_mark (category U c) = false.

(** HANGUL SINGLE DOT TONE MARK, U+302E: a combining mark of category
    Mc and canonical combining class 224. *)
Definition HANGUL_TONE_MARK : codepoint := 12334.

(** The letters [aa] under the tone mark. *)
Definition TONE_MARKED : str := [97; 97; HANGUL_TONE_MARK].

(** * Properties *)

(** ** The model against the Python runtime

    Values of the library functions as CPython 3.11 computes them. *)

Example utf8_literal : utf8 "niño — ✨" = [110; 105; 241; 111; 32; 8212; 32; 10024].
Proof. reflexivity. Qed.

Example split_runs :
  py_split [32; 32; 97; 9; 98; 32; 32; 99; 10] = [[97]; [98]; [99]].
Proof. reflexivity. Qed.

Example strip_both_ends : py_strip (utf8 "  a b  ") = utf8 "a b".
Proof. reflexivity. Qed.

Example lower_final_sigma :
  py_lower UCD14.fragment [65; 931; 32; 192; 931; 769; 32; 97] =
    [97; 962; 32; 224; 962; 769; 32; 97].
Proof. reflexivity. Qed.

Example nfd_reorders_marks :
  py_nfd UCD14.fragment [97; 769; 807; 233] = [97; 807; 769; 101; 769].
Proof. reflexivity. Qed.

Example strip_accents_spanish :
  strip_accents UCD14.fragment (utf8 "Información NIÑO") = utf8 "Informacion NINO".
Proof. reflexivity. Qed.

Example format_ties_to_even :
  format_comma_2f (S754_finite false 1 (-3)) = utf8 "0.12" /\
  format_comma_2f (S754_finite false 3 (-3)) = utf8 "0.38" /\
  format_comma_2f (S754_finite false 8796049041742889 (-43)) = utf8 "1,000.00" /\
  format_comma_2f (S754_finite false 6023564501608038 (-51)) = utf8 "2.67" /\
  format_comma_2f (S754_finite true 4611686018427388 (-62)) = utf8 "-0.00" /\
  format_comma_2f (S754_finite false 1234567 0) = utf8 "1,234,567.00".
Proof. repeat split; vm_compute; reflexivity. Qed.

(** The whole pipeline, when the catalog has a hit. *)
Example chat_intent_listing :
  chat_intent Examples.watch_shop (utf8 " Invicta ") [] =
    (Return (listing (utf8 "Invicta")
               (utf8 "• Invicta Pro Diver — S/ 1.234,50" ++ [NL]
                ++ utf8 "  https://suntimestore.com/products/invicta-pro-diver")),
     [CatalogPost (utf8 "(title:" ++ quoted (utf8 "invicta*") ++ utf8 " OR tag:"
                   ++ quoted (utf8 "invicta") ++ utf8 " OR vendor:"
                   ++ quoted (utf8 "invicta") ++ utf8 ")")]).
Proof. vm_compute. reflexivity. Qed.

(** ** Strings, sets and splitting *)

Lemma str_eqb_eq (a b : str) : str_eqb a b = true <-> a = b.
Proof.
  revert b; induction a as [|x a IH]; intros [|y b]; simpl;
    try (split; [discriminate | discriminate]); try tauto.
  rewrite andb_true_iff, N.eqb_eq, IH.
  split; [intros [-> ->]; reflexivity | intros H; inversion H; auto].
Qed.

Lemma str_eqb_refl (a : str) : str_eqb a a = true.
Proof. apply str_eqb_eq; reflexivity. Qed.

Lemma set_mem_In (w : str) (S : list str) : set_mem w S = true <-> In w S.
Proof.
  unfold set_mem. rewrite existsb_exists. split.
  - intros (x & Hx & E). apply str_eqb_eq in E. subst. exact Hx.
  - intros H. exists w. split; [exact H | apply str_eqb_refl].
Qed.

Lemma set_mem_not_In (w : str) (S : list str) : set_mem w S = false <-> ~ In w S.
Proof.
  rewrite <- set_mem_In. destruct (set_mem w S); split; intros; congruence.
Qed.


Lemma spaceless_nil : spaceless [].
Proof. intros c []. Qed.

Lemma spaceless_cons c w : py_isspace c = false -> spaceless w -> spaceless (c :: w).
Proof. intros Hc Hw d [<- | Hd]; auto. Qed.

Lemma spaceless_rev w : spaceless w -> spaceless (rev w).
Proof. intros H c Hc. apply H. apply in_rev. exact Hc. Qed.

(** Every piece returned by [split] is a non-empty word made of
    characters of the text. *)
Lemma split_ws_pieces (s cur : str) (w : str) :
  spaceless cur ->
  In w (split_ws cur s) ->
  w <> [] /\ spaceless w /\ (forall c, In c w -> In c cur \/ In c s).
Proof.
  revert cur; induction s as [|c r IH]; intros cur Hcur Hw; simpl in Hw.
  - destruct cur as [|x cur']; [destruct Hw |].
    destruct Hw as [<- | []].
    split; [|split].
    + intros E. apply (f_equal (@rev _)) in E. rewrite rev_involutive in E.
      discriminate.
    + apply spaceless_rev; exact Hcur.
    + intros d Hd. left. apply in_rev. exact Hd.
  - destruct (py_isspace c) eqn:Hc.
    + destruct cur as [|x cur'].
      * destruct (IH [] spaceless_nil Hw) as (A & B & C).
        split; [exact A | split; [exact B |]].
        intros d Hd. destruct (C d Hd) as [[] | ?]. right; right; assumption.
      * destruct Hw as [<- | Hw].
        -- split; [|split].
           ++ intros E. apply (f_equal (@rev _)) in E.
              rewrite rev_involutive in E. discriminate.
           ++ apply spaceless_rev; exact Hcur.
           ++ intros d Hd. left. apply in_rev. exact Hd.
        -- destruct (IH [] spaceless_nil Hw) as (A & B & C).
           split; [exact A | split; [exact B |]].
           intros d Hd. destruct (C d Hd) as [[] | ?]. right; right; assumption.
    + destruct (IH (c :: cur) (spaceless_cons _ _ Hc Hcur) Hw) as (A & B & C).
      split; [exact A | split; [exact B |]].
      intros d Hd. destruct (C d Hd) as [[<- | ?] | ?]; simpl; auto.
Qed.

Lemma py_split_pieces (s w : str) :
  In w (py_split s) -> w <> [] /\ spaceless w /\ (forall c, In c w -> In c s).
Proof.
  intros H. destruct (split_ws_pieces s [] w spaceless_nil H) as (A & B & C).
  split; [exact A | split; [exact B |]].
  intros c Hc. destruct (C c Hc) as [[] | ?]; assumption.
Qed.

(** Splitting a word gives the word itself. *)
Lemma split_ws_word (s cur : str) :
  spaceless s ->
  split_ws cur s = match rev cur ++ s with [] => [] | w => [w] end.
Proof.
  revert cur; induction s as [|c r IH]; intros cur Hs; simpl.
  - rewrite app_nil_r. destruct cur as [|x cur']; [reflexivity |].
    destruct (rev (x :: cur')) eqn:E; [|reflexivity].
    apply (f_equal (@rev _)) in E. rewrite rev_involutive in E. discriminate.
  - rewrite (Hs c (or_introl eq_refl)).
    rewrite IH by (intros d Hd; apply Hs; right; exact Hd).
    simpl. rewrite <- app_assoc. reflexivity.
Qed.

Lemma py_split_word (w : str) :
  spaceless w -> py_split w = match w with [] => [] | _ => [w] end.
Proof.
  intros H. unfold py_split. rewrite split_ws_word by exact H.
  simpl. destruct w; reflexivity.
Qed.

Lemma In_py_replace (old : codepoint) (new s : str) (c : codepoint) :
  In c (py_replace old new s) -> In c new \/ (In c s /\ c <> old).
Proof.
  unfold py_replace. rewrite in_flat_map. intros (x & Hx & Hc).
  destruct (N.eqb_spec x old) as [-> | Hne].
  - left; exact Hc.
  - destruct Hc as [<- | []]. right; split; assumption.
Qed.

Lemma In_firstn {A} (n : nat) (l : list A) (x : A) : In x (firstn n l) -> In x l.
Proof.
  revert l; induction n as [|n IH]; intros [|y l]; simpl; try tauto.
  intros [-> | H]; auto.
Qed.


Lemma useful_loop_filter (tokens useful : list str) :
  useful_loop tokens useful = useful ++ filter is_useful tokens.
Proof.
  revert useful; induction tokens as [|w rest IH]; intros useful;
    cbn [useful_loop filter].
  - rewrite app_nil_r; reflexivity.
  - unfold is_useful at 1.
    destruct (set_mem w STOPWORDS_ES); cbn [negb andb]; [apply IH |].
    destruct (length w <=? 2)%nat; cbn [negb andb]; [apply IH |].
    rewrite IH, <- app_assoc. reflexivity.
Qed.

Lemma filter_truthy_split (s : str) :
  filter str_truthy (py_split s) = py_split s.
Proof.
  apply forallb_filter_id. apply forallb_forall. intros w Hw.
  destruct (py_split_pieces s w Hw) as (A & _). destruct w; [congruence | reflexivity].
Qed.

(** [normalize_terms]: the first five useful words of the cleaned text. *)
Lemma normalize_terms_eq (U : UCD) (text : str) :
  normalize_terms U text = firstn 5 (filter is_useful (py_split (cleaned_text U text))).
Proof.
  unfold normalize_terms. rewrite filter_truthy_split, useful_loop_filter. reflexivity.
Qed.

(** ** Lower-casing and normalization *)

Section UnicodeFacts.
Variable U : UCD.

Lemma place_mark_In (c : codepoint) (racc : str) (x : codepoint) :
  In x (place_mark U c racc) <-> x = c \/ In x racc.
Proof.
  induction racc as [|p racc IH]; simpl.
  - intuition.
  - destruct ((0 <? combining U c) && (combining U c <? combining U p)); simpl.
    + rewrite IH. intuition.
    + intuition.
Qed.

Lemma fold_place_mark_In (s acc : str) (x : codepoint) :
  In x (fold_left (fun racc c => place_mark U c racc) s acc) <-> In x s \/ In x acc.
Proof.
  revert acc; induction s as [|c s IH]; intros acc; simpl.
  - intuition.
  - rewrite IH, place_mark_In. intuition.
Qed.

(** Canonical ordering moves characters, it neither adds nor drops any. *)
Lemma canonical_order_In (s : str) (x : codepoint) :
  In x (canonical_order U s) <-> In x s.
Proof.
  unfold canonical_order. rewrite <- in_rev, fold_place_mark_In. simpl. intuition.
Qed.

Lemma py_nfd_In (s : str) (x : codepoint) :
  In x (py_nfd U s) <-> exists c, In c s /\ In x (decomposition U c).
Proof. unfold py_nfd. rewrite canonical_order_In. apply in_flat_map. Qed.

Lemma strip_accents_In (s : str) (x : codepoint) :
  In x (strip_accents U s) <->
  category U x <> Mn /\ exists c, In c s /\ In x (decomposition U c).
Proof.
  unfold strip_accents. rewrite filter_In, py_nfd_In, negb_true_iff.
  assert (E : is_Mn (category U x) = false <-> category U x <> Mn)
    by (destruct (category U x); simpl; split; congruence).
  rewrite E. tauto.
Qed.

Lemma handle_capital_sigma_cases (before after : str) :
  handle_capital_sigma U before after = FINAL_SIGMA \/
  handle_capital_sigma U before after = SMALL_SIGMA.
Proof.
  unfold handle_capital_sigma.
  destruct (skip_ignorable U before) as [|c ?]; [right; reflexivity |].
  destruct (is_cased U c); [| right; reflexivity].
  destruct (skip_ignorable U after) as [|d ?]; [left; reflexivity |].
  destruct (is_cased U d); [right | left]; reflexivity.
Qed.

Lemma lower_from_In (before s : str) (x : codepoint) :
  In x (lower_from U before s) ->
  (In SIGMA s /\ (x = FINAL_SIGMA \/ x = SMALL_SIGMA)) \/
  exists c, In c s /\ c <> SIGMA /\ In x (to_lower_full U c).
Proof.
  revert before; induction s as [|c rest IH]; intros before; simpl; [tauto |].
  rewrite in_app_iff. intros [H | H].
  - destruct (N.eqb_spec c SIGMA) as [-> | Hne].
    + destruct H as [<- | []]. left. split; [left; reflexivity |].
      exact (handle_capital_sigma_cases before rest).
    + right. exists c. auto.
  - destruct (IH _ H) as [[Hs Hx] | (d & Hd & Hne & Hx)].
    + left. auto.
    + right. exists d. auto.
Qed.


Lemma lower_from_fixed (w before : str) :
  Forall (lower_fixed U) w -> lower_from U before w = w.
Proof.
  intros H; revert before; induction H as [|c w [Hne Hc] _ IH]; intros before;
    simpl; [reflexivity |].
  apply N.eqb_neq in Hne. rewrite Hne, Hc, IH. reflexivity.
Qed.


Lemma py_lower_fixed (H : LowerClosed U) (s : str) (x : codepoint) :
  In x (py_lower U s) -> lower_fixed U x.
Proof.
  intros Hx.
  destruct (lower_from_In _ _ _ Hx) as [[_ [-> | ->]] | (c & _ & Hne & Hc)].
  - apply (sigmas_fixed U H).
  - apply (sigmas_fixed U H).
  - exact (lower_yields_fixed U H c x Hne Hc).
Qed.

Lemma cleaned_text_In (text : str) (x : codepoint) :
  In x (cleaned_text U text) ->
  x = 32 \/ In x (strip_accents U (py_lower U text)).
Proof.
  unfold cleaned_text. intros H.
  apply In_py_replace in H. destruct H as [[<- | []] | [H _]]; [left; reflexivity |].
  apply In_py_replace in H. destruct H as [[<- | []] | [H _]]; [left; reflexivity |].
  right; exact H.
Qed.

(** The characters of a token come from the lower-cased text, after
    decomposition, and are not nonspacing marks. *)
Lemma token_chars (text w : str) (x : codepoint) :
  In w (normalize_terms U text) -> In x w ->
  category U x <> Mn /\
  exists c, In c (py_lower U text) /\ In x (decomposition U c).
Proof.
  rewrite normalize_terms_eq. intros Hw Hx.
  apply In_firstn in Hw. apply filter_In in Hw. destruct Hw as [Hw _].
  destruct (py_split_pieces _ _ Hw) as (_ & Hsp & Hin).
  destruct (cleaned_text_In _ _ (Hin x Hx)) as [-> | H].
  - specialize (Hsp 32 Hx). discriminate.
  - apply strip_accents_In in H. exact H.
Qed.

End UnicodeFacts.

(** ** C2: the tokenizer *)

(** C2.  For every input text, [normalize_terms] returns at most five
    tokens; each is longer than two characters, is not in
    [STOPWORDS_ES], is left unchanged by [lower] (it is lower-cased) and
    is stripped of accents as the code strips them: each of its
    characters is its own canonical decomposition, so that no
    precomposed accented letter is left, and none is a nonspacing mark
    (category Mn); and the tokens are the first five useful words of
    the cleaned text, in their order of appearance.  The lower-case
    part rests on the two facts [LowerClosed] of the character
    database, the decomposition part on its decompositions being full
    ([FullyDecomposed]). *)
Theorem normalize_terms_tokens (U : UCD) (text : str) :
  LowerClosed U ->
  FullyDecomposed U ->
  (length (normalize_terms U text) <= 5)%nat /\
  Forall (fun w =>
            (2 < length w)%nat /\
            ~ In w STOPWORDS_ES /\
            py_lower U w = w /\
            Forall (fun c => category U c <> Mn /\ decomposition U c = [c]) w)
         (normalize_terms U text) /\
  normalize_terms U text =
    firstn 5 (filter (fun w => negb (set_mem w STOPWORDS_ES) && (2 <? length w)%nat)
                     (py_split (cleaned_text U text))).
Proof.
  intros HL HF. split; [|split].
  - rewrite normalize_terms_eq. apply firstn_le_length.
  - apply Forall_forall. intros w Hw.
    assert (Hu : is_useful w = true).
    { rewrite normalize_terms_eq in Hw. apply In_firstn in Hw.
      apply filter_In in Hw. apply Hw. }
    unfold is_useful in Hu. apply andb_true_iff in Hu. destruct Hu as [Hs Hl].
    apply negb_true_iff in Hs, Hl.
    split; [apply Nat.leb_gt in Hl; exact Hl |].
    split; [apply set_mem_not_In; exact Hs |].
    split.
    + apply lower_from_fixed. apply Forall_forall. intros x Hx.
      destruct (token_chars U text w x Hw Hx) as (_ & c & Hc & Hd).
      apply (decomposition_keeps_fixed U HL c x); [| exact Hd].
      exact (py_lower_fixed U HL text c Hc).
    + apply Forall_forall. intros x Hx.
      destruct (token_chars U text w x Hw Hx) as (Hmn & c & _ & Hd).
      split; [exact Hmn | exact (HF c x Hd)].
  - rewrite normalize_terms_eq. f_equal. apply filter_ext. intros w.
    unfold is_useful. f_equal.
    destruct (Nat.leb_spec (length w) 2), (Nat.ltb_spec 2 (length w)); simpl;
      try reflexivity; lia.
Qed.

(** ** The fragment satisfies the facts assumed of the database *)

Module UCD14Facts.
Import UCD14.

Lemma find_row_Some (c : codepoint) (rs : list row) (r : row) :
  find_row c rs = Some r -> In r rs /\ cp r = c.
Proof.
  induction rs as [|r0 rs IH]; simpl; [discriminate |].
  destruct (N.eqb_spec c (cp r0)) as [E | _].
  - intros H; inversion H; subst. auto.
  - intros H. destruct (IH H). auto.
Qed.

(** A property of code points holds everywhere when a check of it
    succeeds on every row and it holds outside the table. *)
Lemma by_rows (P : codepoint -> Prop) (check : codepoint -> bool) :
  (forall c, check c = true -> P c) ->
  forallb (fun r => check (cp r)) rows = true ->
  (forall c, find_row c rows = None -> P c) ->
  forall c, P c.
Proof.
  intros Hcheck Hrows Hout c.
  destruct (find_row c rows) as [r|] eqn:E; [| exact (Hout c E)].
  apply find_row_Some in E. destruct E as [Hin <-].
  apply Hcheck. rewrite forallb_forall in Hrows. exact (Hrows r Hin).
Qed.


Lemma lower_fixed_b_spec (c : codepoint) :
  lower_fixed_b c = true <-> lower_fixed fragment c.
Proof.
  unfold lower_fixed_b, lower_fixed.
  rewrite andb_true_iff, negb_true_iff, N.eqb_neq, str_eqb_eq. tauto.
Qed.

Lemma outside_fixed (c : codepoint) :
  find_row c rows = None -> lower_fixed fragment c.
Proof.
  intros E. split.
  - intros ->. vm_compute in E. discriminate.
  - simpl. unfold field. rewrite E. reflexivity.
Qed.

Lemma fragment_lower_closed : LowerClosed fragment.
Proof.
  split.
  - intros c. pattern c. revert c.
    apply (by_rows _ (fun c => (c =? SIGMA)
                               || forallb lower_fixed_b (to_lower_full fragment c))).
    + intros c H d Hne Hd. apply orb_true_iff in H. destruct H as [H | H].
      * apply N.eqb_eq in H. contradiction.
      * rewrite forallb_forall in H. apply lower_fixed_b_spec. exact (H d Hd).
    + vm_compute. reflexivity.
    + intros c E d _ Hd. simpl in Hd. unfold field in Hd. rewrite E in Hd.
      destruct Hd as [<- | []]. exact (outside_fixed c E).
  - split; apply lower_fixed_b_spec; vm_compute; reflexivity.
  - intros c. pattern c. revert c.
    apply (by_rows _ (fun c => negb (lower_fixed_b c)
                               || forallb lower_fixed_b (decomposition fragment c))).
    + intros c H d Hc Hd. apply lower_fixed_b_spec in Hc. rewrite Hc in H.
      simpl in H. rewrite forallb_forall in H. apply lower_fixed_b_spec.
      exact (H d Hd).
    + vm_compute. reflexivity.
    + intros c E d _ Hd. simpl in Hd. unfold field in Hd. rewrite E in Hd.
      destruct Hd as [<- | []]. exact (outside_fixed c E).
Qed.

Lemma fragment_fully_decomposed : FullyDecomposed fragment.
Proof.
  intros c. pattern c. revert c.
  apply (by_rows _ (fun c => forallb (fun d => str_eqb (decomposition fragment d) [d])
                                     (decomposition fragment c))).
  - intros c H d Hd. rewrite forallb_forall in H. apply str_eqb_eq. exact (H d Hd).
  - vm_compute. reflexivity.
  - intros c E d Hd. simpl in Hd. unfold field in Hd. rewrite E in Hd.
    destruct Hd as [<- | []]. simpl. unfold field. rewrite E. reflexivity.
Qed.

End UCD14Facts.

Lemma normalize_terms_tokens_witness :
  LowerClosed UCD14.fragment /\
  FullyDecomposed UCD14.fragment /\
  normalize_terms UCD14.fragment (utf8 "Busco RELOJ Invicta, dorado. Edición ÑANDÚ") =
    [utf8 "invicta"; utf8 "dorado"; utf8 "edicion"; utf8 "nandu"] /\
  (length (normalize_terms UCD14.fragment
             (utf8 "Busco RELOJ Invicta, dorado. Edición ÑANDÚ")) <= 5)%nat /\
  Forall (fun w =>
            (2 < length w)%nat /\
            ~ In w STOPWORDS_ES /\
            py_lower UCD14.fragment w = w /\
            Forall (fun c => category UCD14.fragment c <> Mn /\
                             decomposition UCD14.fragment c = [c]) w)
         (normalize_terms UCD14.fragment
            (utf8 "Busco RELOJ Invicta, dorado. Edición ÑANDÚ")) /\
  normalize_terms UCD14.fragment (utf8 "Busco RELOJ Invicta, dorado. Edición ÑANDÚ") =
    firstn 5 (filter (fun w => negb (set_mem w STOPWORDS_ES) && (2 <? length w)%nat)
                     (py_split (cleaned_text UCD14.fragment
                                  (utf8 "Busco RELOJ Invicta, dorado. Edición ÑANDÚ")))).
Proof.
  split; [exact UCD14Facts.fragment_lower_closed |].
  split; [exact UCD14Facts.fragment_fully_decomposed |].
  split; [vm_compute; reflexivity |].
  exact (normalize_terms_tokens UCD14.fragment
           (utf8 "Busco RELOJ Invicta, dorado. Edición ÑANDÚ")
           UCD14Facts.fragment_lower_closed UCD14Facts.fragment_fully_decomposed).
Defined.

(** C2, as stated, fails: the one token of [TONE_MARKED] is that string
    itself, tone mark included.  The mark is a combining mark of
    category Mc; the code removes those of category Mn only. *)
Lemma normalize_terms_keeps_tone_mark :
  normalize_terms UCD14.fragment TONE_MARKED = [TONE_MARKED] /\
  category UCD14.fragment HANGUL_TONE_MARK = Mc /\
  ~ Forall (diacritic_free UCD14.fragment)
           (normalize_terms UCD14.fragment TONE_MARKED).
Proof.
  assert (E : normalize_terms UCD14.fragment TONE_MARKED = [TONE_MARKED])
    by (vm_compute; reflexivity).
  assert (C : category UCD14.fragment HANGUL_TONE_MARK = Mc)
    by (vm_compute; reflexivity).
  split; [exact E | split; [exact C |]].
  rewrite E. intros H. inversion H as [| w l Hw _]; subst.
  specialize (Hw HANGUL_TONE_MARK (or_intror (or_intror (or_introl eq_refl)))).
  rewrite C in Hw. discriminate Hw.
Qed.

(** ** The query synthesizer *)

Lemma spaceless_b_spec (w : str) : spaceless_b w = true <-> spaceless w.
Proof.
  unfold spaceless_b, spaceless. rewrite forallb_forall.
  split; intros H c Hc; specialize (H c Hc).
  - apply negb_true_iff in H; exact H.
  - rewrite H; reflexivity.
Qed.

Lemma nth_error_skipn {A} (l : list A) (i : nat) (x : A) :
  nth_error l i = Some x -> skipn i l = x :: skipn (S i) l.
Proof.
  revert l; induction i as [|i IH]; intros [|y l]; simpl; try discriminate.
  - intros H; inversion H; reflexivity.
  - intros H. rewrite (IH l H). reflexivity.
Qed.

Lemma nth_error_None_skipn {A} (l : list A) (i : nat) :
  nth_error l i = None -> skipn i l = [].
Proof. intros H. apply skipn_all2. apply nth_error_None. exact H. Qed.

(** One iteration, when a next token exists: the pair is tested, and a
    recognized phrase moves the cursor by two. *)
Lemma loop_body_next (terms : list str) (i : nat) (parts : list str) (a b : str) :
  nth_error terms (i + 1) = Some b ->
  loop_body terms a i parts =
    if set_mem (a ++ utf8 " " ++ b) BRAND_PHRASES
    then ((i + 2)%nat, parts ++ [make_group (a ++ utf8 " " ++ b)])
    else ((i + 1)%nat, parts ++ [make_group a]).
Proof.
  intros Hb. unfold loop_body. rewrite Hb.
  assert (T : str_truthy (a ++ utf8 " " ++ b) = true) by (destruct a; reflexivity).
  rewrite T. cbn [andb].
  destruct (set_mem (a ++ utf8 " " ++ b) BRAND_PHRASES); [| reflexivity].
  replace (i + 1 + 1)%nat with (i + 2)%nat by lia. reflexivity.
Qed.

Lemma loop_body_last (terms : list str) (i : nat) (parts : list str) (a : str) :
  nth_error terms (i + 1) = None ->
  loop_body terms a i parts = ((i + 1)%nat, parts ++ [make_group a]).
Proof. intros Hb. unfold loop_body. rewrite Hb. reflexivity. Qed.

(** The loop, started at cursor [i] with enough iterations left, appends
    one group per term of the rest of the list. *)
Lemma while_loop_groups (fuel : nat) (terms : list str) (i : nat) (parts : list str) :
  (length terms - i <= fuel)%nat ->
  while_loop fuel terms i parts =
    parts ++ map (fun t => make_group (term_source t)) (merge_phrases (skipn i terms)).
Proof.
  revert i parts; induction fuel as [|fuel IH]; intros i parts Hfuel.
  - rewrite skipn_all2 by lia. simpl. rewrite app_nil_r. reflexivity.
  - cbn [while_loop]. destruct (nth_error terms i) as [a|] eqn:Ha.
    + assert (Hi : (i < length terms)%nat)
        by (apply nth_error_Some; congruence).
      rewrite (nth_error_skipn _ _ _ Ha).
      destruct (nth_error terms (i + 1)) as [b|] eqn:Hb.
      * rewrite (loop_body_next _ _ _ _ _ Hb).
        assert (Hi' : (i + 1 < length terms)%nat)
          by (apply nth_error_Some; congruence).
        replace (S i) with (i + 1)%nat by lia.
        rewrite (nth_error_skipn _ _ _ Hb).
        cbn [merge_phrases].
        destruct (set_mem (a ++ utf8 " " ++ b) BRAND_PHRASES).
        -- rewrite IH by lia. rewrite <- app_assoc.
           replace (S (i + 1)) with (i + 2)%nat by lia. reflexivity.
        -- rewrite IH by lia. rewrite <- app_assoc.
           rewrite (nth_error_skipn _ _ _ Hb). reflexivity.
      * rewrite (loop_body_last _ _ _ _ Hb).
        rewrite IH by lia.
        replace (S i) with (i + 1)%nat by lia.
        rewrite (nth_error_None_skipn _ _ Hb). rewrite <- app_assoc. reflexivity.
    + rewrite (nth_error_None_skipn _ _ Ha). simpl. rewrite app_nil_r. reflexivity.
Qed.

Lemma build_shopify_query_groups (terms : list str) :
  build_shopify_query terms =
    py_join (utf8 " AND ")
            (map (fun t => make_group (term_source t)) (merge_phrases terms)).
Proof.
  unfold build_shopify_query. destruct terms as [|a rest]; [reflexivity |].
  rewrite while_loop_groups by lia. reflexivity.
Qed.

(** The group of a term, written out. *)
Lemma make_group_eq (w : str) :
  make_group w =
    let w' := py_replace QUOTE [] w in
    utf8 "(title:" ++ quoted (w' ++ utf8 "*") ++ utf8 " OR tag:" ++ quoted w'
    ++ (if looks_like_brand w' then utf8 " OR vendor:" ++ quoted w' else [])
    ++ utf8 ")".
Proof.
  unfold make_group, fstr_title, fstr_tag, fstr_vendor, quoted. cbv zeta.
  destruct (looks_like_brand (py_replace QUOTE [] w));
    repeat (first [rewrite <- app_assoc | progress cbn [py_join app]]);
    reflexivity.
Qed.

Lemma spaceless_replace (old : codepoint) (w : str) :
  spaceless w -> spaceless (py_replace old [] w).
Proof.
  intros H c Hc. apply In_py_replace in Hc. destruct Hc as [[] | [Hc _]].
  exact (H c Hc).
Qed.

(** On a word, the brand test of the code is membership of the word. *)
Lemma looks_like_brand_word (w : str) :
  spaceless w -> looks_like_brand w = set_mem w BRAND_HINTS.
Proof.
  intros H. unfold looks_like_brand. rewrite (py_split_word w H).
  destruct w as [|c w']; [reflexivity |].
  cbn [existsb]. apply orb_false_r.
Qed.

Lemma make_group_word (w : str) :
  spaceless w -> make_group w = group_of (Word w).
Proof.
  intros H. rewrite make_group_eq. unfold group_of, has_brand_hint, term_text.
  cbn [term_source]. cbv zeta.
  rewrite (looks_like_brand_word _ (spaceless_replace QUOTE w H)), orb_false_r.
  reflexivity.
Qed.

Lemma cut_at_space (a a' b b' : str) :
  spaceless a -> spaceless a' ->
  a ++ 32 :: b = a' ++ 32 :: b' -> a = a' /\ b = b'.
Proof.
  revert a'; induction a as [|x a IH]; intros [|y a'] Ha Ha' E; simpl in E.
  - inversion E; auto.
  - inversion E; subst. specialize (Ha' 32 (or_introl eq_refl)). discriminate.
  - inversion E; subst. specialize (Ha 32 (or_introl eq_refl)). discriminate.
  - inversion E; subst.
    destruct (IH a') as [-> ->]; auto.
    + intros c Hc; apply Ha; right; exact Hc.
    + intros c Hc; apply Ha'; right; exact Hc.
Qed.

(** The recognized phrases, by their halves. *)
Lemma brand_phrase_halves (a b : str) :
  spaceless a ->
  set_mem (a ++ utf8 " " ++ b) BRAND_PHRASES = true ->
  (a = utf8 "ray" /\ b = utf8 "ban") \/
  (a = utf8 "new" /\ b = utf8 "era") \/
  (a = utf8 "g" /\ b = utf8 "shock") \/
  (a = utf8 "tommy" /\ b = utf8 "hilfiger").
Proof.
  intros Ha H. apply set_mem_In in H.
  change (utf8 " " ++ b) with (32 :: b) in H.
  assert (S : forall x, spaceless_b x = true -> spaceless x)
    by (intros x; apply spaceless_b_spec).
  destruct H as [H | [H | [H | [H | []]]]]; symmetry in H.
  - left. apply (cut_at_space a (utf8 "ray") b (utf8 "ban") Ha (S (utf8 "ray") eq_refl) H).
  - right; left.
    apply (cut_at_space a (utf8 "new") b (utf8 "era") Ha (S (utf8 "new") eq_refl) H).
  - right; right; left.
    apply (cut_at_space a (utf8 "g") b (utf8 "shock") Ha (S (utf8 "g") eq_refl) H).
  - right; right; right.
    apply (cut_at_space a (utf8 "tommy") b (utf8 "hilfiger") Ha (S (utf8 "tommy") eq_refl) H).
Qed.

Lemma make_group_phrase (a b : str) :
  spaceless a ->
  set_mem (a ++ utf8 " " ++ b) BRAND_PHRASES = true ->
  make_group (a ++ utf8 " " ++ b) = group_of (Phrase a b).
Proof.
  intros Ha H.
  destruct (brand_phrase_halves a b Ha H)
    as [[-> ->] | [[-> ->] | [[-> ->] | [-> ->]]]];
    vm_compute; reflexivity.
Qed.

(** On words, the groups the code builds are those of [group_of]. *)
Lemma groups_of_words (n : nat) (terms : list str) :
  (length terms <= n)%nat ->
  Forall spaceless terms ->
  map (fun t => make_group (term_source t)) (merge_phrases terms) =
  map group_of (merge_phrases terms).
Proof.
  revert terms; induction n as [|n IH]; intros terms Hn Hw.
  - destruct terms; [reflexivity | simpl in Hn; lia].
  - destruct terms as [|a [|b rest]]; [reflexivity | |].
    + cbn [merge_phrases map term_source]. rewrite make_group_word; [reflexivity |].
      inversion Hw; assumption.
    + inversion Hw as [|? ? Ha Hw']; subst. inversion Hw' as [|? ? Hb Hw'']; subst.
      cbn [merge_phrases].
      destruct (set_mem (a ++ utf8 " " ++ b) BRAND_PHRASES) eqn:E.
      * change (make_group (a ++ utf8 " " ++ b)
                :: map (fun t => make_group (term_source t)) (merge_phrases rest)
                = group_of (Phrase a b) :: map group_of (merge_phrases rest)).
        rewrite (make_group_phrase a b Ha E). f_equal.
        apply IH; [simpl in Hn |- *; lia | exact Hw''].
      * change (make_group a
                :: map (fun t => make_group (term_source t))
                       (merge_phrases (b :: rest))
                = group_of (Word a) :: map group_of (merge_phrases (b :: rest))).
        rewrite (make_group_word a Ha). f_equal.
        apply IH; [simpl in Hn |- *; lia | exact Hw'].
Qed.

(** The tokenizer returns words. *)
Lemma normalize_terms_spaceless (U : UCD) (text : str) :
  Forall spaceless (normalize_terms U text).
Proof.
  apply Forall_forall. intros w Hw. rewrite normalize_terms_eq in Hw.
  apply In_firstn in Hw. apply filter_In in Hw. destruct Hw as [Hw _].
  apply (py_split_pieces _ _ Hw).
Qed.

(** Hence the query synthesized from a text is the query of its tokens. *)
Lemma query_of_normalized_text (U : UCD) (text : str) :
  build_shopify_query (normalize_terms U text) =
  query_of_terms (normalize_terms U text).
Proof.
  unfold query_of_terms. rewrite build_shopify_query_groups.
  rewrite (groups_of_words _ _ (le_n _) (normalize_terms_spaceless U text)).
  reflexivity.
Qed.

(** C3.  For every list of tokens (words: strings without white
    space), non-empty or not, [build_shopify_query] is the join by
    [" AND "], in the order of the tokens, of one group per term, where
    two tokens forming a recognized brand phrase make one term
    ([merge_phrases], [query_of_terms]); the group of a term [w] is
    [(title:"w*" OR tag:"w")], with [OR vendor:"w"] added exactly when
    [w], or a half of the merged phrase, is in [BRAND_HINTS]
    ([group_of], [has_brand_hint]); [w] is the term with its quote
    characters removed ([term_text]). *)
Theorem build_shopify_query_spec (terms : list str) :
  Forall spaceless terms ->
  build_shopify_query terms = query_of_terms terms.
Proof.
  intros Hw. unfold query_of_terms. rewrite build_shopify_query_groups.
  rewrite (groups_of_words (length terms) terms (le_n _) Hw). reflexivity.
Qed.

Lemma build_shopify_query_spec_witness :
  Forall spaceless [utf8 "tommy"; utf8 "hilfiger"; utf8 "polo"; utf8 "azul"] /\
  build_shopify_query [utf8 "tommy"; utf8 "hilfiger"; utf8 "polo"; utf8 "azul"] =
    query_of_terms [utf8 "tommy"; utf8 "hilfiger"; utf8 "polo"; utf8 "azul"].
Proof.
  assert (W : Forall spaceless
                [utf8 "tommy"; utf8 "hilfiger"; utf8 "polo"; utf8 "azul"])
    by (repeat constructor; apply spaceless_b_spec; reflexivity).
  split; [exact W |].
  apply (build_shopify_query_spec
           [utf8 "tommy"; utf8 "hilfiger"; utf8 "polo"; utf8 "azul"]).
  exact W.
Defined.

(** C4.  The loop of [build_shopify_query] looks one token ahead: at
    cursor [i], with current token [a] and next token [b], an iteration
    appends the group of the merged pair ["a b"] and moves the cursor to
    [i + 2] when the pair is a recognized brand phrase, and appends the
    group of [a] alone and moves to [i + 1] otherwise.  For the tokens
    [new, era, gorra, negra] the terms are the phrase [new era] and the
    words [gorra] and [negra], and the query is one group for
    ["new era"], with its vendor clause, followed by the groups of
    ["gorra"] and ["negra"]; it is not the query of four single-word
    groups. *)
Theorem lookahead_merges_brand_phrase
    (fuel : nat) (terms : list str) (i : nat) (parts : list str) (a b : str) :
  nth_error terms i = Some a ->
  nth_error terms (i + 1) = Some b ->
  loop_body terms a i parts =
    (if set_mem (a ++ utf8 " " ++ b) BRAND_PHRASES
     then ((i + 2)%nat, parts ++ [make_group (a ++ utf8 " " ++ b)])
     else ((i + 1)%nat, parts ++ [make_group a])) /\
  while_loop (S fuel) terms i parts =
    (if set_mem (a ++ utf8 " " ++ b) BRAND_PHRASES
     then while_loop fuel terms (i + 2) (parts ++ [make_group (a ++ utf8 " " ++ b)])
     else while_loop fuel terms (i + 1) (parts ++ [make_group a])) /\
  merge_phrases NEW_ERA_TOKENS =
    [Phrase (utf8 "new") (utf8 "era"); Word (utf8 "gorra"); Word (utf8 "negra")] /\
  build_shopify_query NEW_ERA_TOKENS = NEW_ERA_QUERY /\
  build_shopify_query NEW_ERA_TOKENS <>
    py_join (utf8 " AND ") (map make_group NEW_ERA_TOKENS).
Proof.
  intros Ha Hb. split; [| split; [| split; [| split]]].
  - exact (loop_body_next terms i parts a b Hb).
  - cbn [while_loop]. rewrite Ha, (loop_body_next terms i parts a b Hb).
    destruct (set_mem (a ++ utf8 " " ++ b) BRAND_PHRASES); reflexivity.
  - vm_compute. reflexivity.
  - vm_compute. reflexivity.
  - intros H. apply str_eqb_eq in H. vm_compute in H. discriminate H.
Qed.

Lemma lookahead_merges_brand_phrase_witness :
  nth_error NEW_ERA_TOKENS 0 = Some (utf8 "new") /\
  nth_error NEW_ERA_TOKENS (0 + 1) = Some (utf8 "era") /\
  loop_body NEW_ERA_TOKENS (utf8 "new") 0 [] =
    (2%nat, [make_group (utf8 "new era")]) /\
  while_loop 4 NEW_ERA_TOKENS 0 [] =
    while_loop 3 NEW_ERA_TOKENS 2 [make_group (utf8 "new era")].
Proof.
  assert (Ha : nth_error NEW_ERA_TOKENS 0 = Some (utf8 "new")) by reflexivity.
  assert (Hb : nth_error NEW_ERA_TOKENS (0 + 1) = Some (utf8 "era")) by reflexivity.
  destruct (lookahead_merges_brand_phrase 3 NEW_ERA_TOKENS 0 [] (utf8 "new") (utf8 "era")
              Ha Hb) as (H1 & H2 & _).
  split; [exact Ha | split; [exact Hb | split]].
  - exact H1.
  - exact H2.
Defined.

(** ** The intent resolver *)

(** The resolver, in one equation. *)
Lemma intent_from_openai_eq (env : Env) (user_text : str) (t : trace) :
  intent_from_openai env user_text t =
    if oai env
    then (Return (resolved_intent env user_text
                    (responses_create env t (prompt_for env user_text))),
          t ++ [OpenAICall (prompt_for env user_text)])
    else (Return user_text, t).
Proof.
  unfold intent_from_openai. destruct (oai env); cbn [negb]; [| reflexivity].
  unfold try_except, bind, call_openai, lift, ret, resolved_intent.
  destruct (responses_create env t (prompt_for env user_text)) as [v | e];
    [| reflexivity].
  destruct v as [| b | z | f | s | l | d]; unfold py_or; cbn [truthy].
  - reflexivity.
  - destruct b; reflexivity.
  - destruct (z =? 0)%Z; reflexivity.
  - destruct f; reflexivity.
  - destruct s as [|c s']; cbn [str_truthy method_strip].
    + reflexivity.
    + destruct (py_lower (ucd env) (py_strip (c :: s'))); reflexivity.
  - destruct l; reflexivity.
  - destruct d; reflexivity.
Qed.

(** C5.  [intent_from_openai] always returns and never raises.  Without
    a configured client it returns the user's text and calls nothing
    (the trace is unchanged).  With a client it makes exactly one call
    (the trace grows by that one call) and returns the trimmed,
    lower-cased answer, or the user's text when that is empty or the
    call failed in any way. *)
Theorem intent_from_openai_total (env : Env) (user_text : str) (t : trace) :
  intent_from_openai env user_text t =
    if oai env
    then (Return (resolved_intent env user_text
                    (responses_create env t (prompt_for env user_text))),
          t ++ [OpenAICall (prompt_for env user_text)])
    else (Return user_text, t).
Proof. exact (intent_from_openai_eq env user_text t). Qed.

(** ** The catalog lookup and the endpoint *)

(** [shopify_query] raises at once when the shop is not configured;
    otherwise it posts the synthesized query, once, and reads the
    response. *)
Lemma shopify_query_eq (env : Env) (q : str) (t : trace) :
  shopify_query env q t =
    if configured env
    then (obind (requests_post env t (synthesized_query env q)) (read_edges env),
          t ++ [CatalogPost (synthesized_query env q)])
    else (Raise (RuntimeError
                   (utf8 "Shopify no configurado (dominio o token faltante).")), t).
Proof.
  unfold shopify_query, configured.
  destruct (env_truthy (SHOPIFY_GQL env)), (env_truthy (SHOPIFY_TOKEN env));
    cbn [negb orb andb]; try reflexivity.
  unfold bind, call_catalog, lift, synthesized_query.
  destruct (requests_post env t (build_shopify_query (query_terms env q)));
    reflexivity.
Qed.

(** A lookup that returned was posted. *)
Lemma shopify_query_returned (env : Env) (q : str) (t t' : trace) (v : json) :
  shopify_query env q t = (Return v, t') ->
  configured env = true /\ t' = t ++ [CatalogPost (synthesized_query env q)].
Proof.
  rewrite shopify_query_eq. destruct (configured env); [| discriminate].
  intros H; inversion H; auto.
Qed.

Lemma message_or_empty (message : str) :
  (if str_truthy message then message else []) = message.
Proof. destruct message; reflexivity. Qed.

(** C1.  Let the message, trimmed, be non-empty and [intent] be the
    resolved intent.  If the first lookup, made with [intent], raises
    [e], the response is the apology, whose text holds [str(e)] between
    its parentheses, and nothing else is called: the trace is the one
    the failed lookup left, with at most that one post.  If the first
    lookup returns no hits, exactly one more lookup is made, with the
    trimmed message, whatever it gives: the trace of the request is
    that of the first lookup followed by the one post of the second.
    When the second lookup raises, or returns no hits either, the
    response is the no-results message, whose text quotes [intent]. *)
Theorem chat_intent_lookups
    (env : Env) (message : str) (t : trace) (intent : str) (t1 : trace) :
  str_truthy (py_strip message) = true ->
  intent_from_openai env (py_strip message) t = (Return intent, t1) ->
  (forall e t2,
      shopify_query env intent t1 = (Raise e, t2) ->
      chat_intent env message t =
        (Return (utf8 "⚠️ No pude consultar Shopify (" ++ exn_str env e
                 ++ utf8 "). Verifica dominio/token y vuelve a intentar."), t2) /\
      (t2 = t1 \/ t2 = t1 ++ [CatalogPost (synthesized_query env intent)])) /\
  (forall products t2,
      shopify_query env intent t1 = (Return products, t2) ->
      truthy products = false ->
      t2 = t1 ++ [CatalogPost (synthesized_query env intent)] /\
      snd (chat_intent env message t) =
        t2 ++ [CatalogPost (synthesized_query env (py_strip message))] /\
      exists second,
        shopify_query env (py_strip message) t2 =
          (second, t2 ++ [CatalogPost (synthesized_query env (py_strip message))]) /\
        match second with
        | Raise _ =>
          chat_intent env message t =
            (Return (utf8 "No encontré resultados para “" ++ intent
                     ++ utf8 "”. ¿Buscamos otra marca o estilo parecido?"),
             t2 ++ [CatalogPost (synthesized_query env (py_strip message))])
        | Return again =>
          truthy again = false ->
          chat_intent env message t =
            (Return (utf8 "No encontré resultados para “" ++ intent
                     ++ utf8 "”. ¿Buscamos otra marca o estilo parecido?"),
             t2 ++ [CatalogPost (synthesized_query env (py_strip message))])
        end).
Proof.
  intros Hne Hintent. split.
  - intros e t2 H1. split.
    + unfold chat_intent. rewrite message_or_empty, Hne. cbn [negb].
      unfold bind at 1. rewrite Hintent.
      unfold bind, attempt. rewrite H1. unfold apology. reflexivity.
    + rewrite shopify_query_eq in H1. destruct (configured env).
      * right. inversion H1; reflexivity.
      * left. inversion H1; reflexivity.
  - intros products t2 H1 Hzero.
    destruct (shopify_query_returned _ _ _ _ _ H1) as [Hc Ht2].
    split; [exact Ht2 |].
    assert (H2 : shopify_query env (py_strip message) t2 =
                 (fst (shopify_query env (py_strip message) t2),
                  t2 ++ [CatalogPost (synthesized_query env (py_strip message))])).
    { rewrite shopify_query_eq, Hc. reflexivity. }
    assert (Hstart : chat_intent env message t =
              (products' <-
                 try_except (shopify_query env (py_strip message))
                            (fun _ => ret products) ;;
               if negb (truthy products') then ret (no_results intent)
               else listado <- lift (format_products env products') ;;
                    ret (listing intent listado)) t2).
    { unfold chat_intent. rewrite message_or_empty, Hne. cbn [negb].
      unfold bind at 1. rewrite Hintent.
      unfold bind at 1. unfold attempt. rewrite H1.
      rewrite Hzero. reflexivity. }
    assert (Hrun : chat_intent env message t =
              match fst (shopify_query env (py_strip message) t2) with
              | Return again =>
                (if negb (truthy again) then ret (no_results intent)
                 else listado <- lift (format_products env again) ;;
                      ret (listing intent listado))
                  (t2 ++ [CatalogPost (synthesized_query env (py_strip message))])
              | Raise _ =>
                (Return (no_results intent),
                 t2 ++ [CatalogPost (synthesized_query env (py_strip message))])
              end).
    { rewrite Hstart. unfold bind at 1, try_except. rewrite H2.
      destruct (fst (shopify_query env (py_strip message) t2)) as [again | e].
      - reflexivity.
      - unfold ret at 1. rewrite Hzero. reflexivity. }
    split.
    + rewrite Hrun.
      destruct (fst (shopify_query env (py_strip message) t2)) as [again | e];
        [| reflexivity].
      destruct (truthy again); cbn [negb]; [| reflexivity].
      unfold bind, lift, ret. destruct (format_products env again); reflexivity.
    + exists (fst (shopify_query env (py_strip message) t2)).
      split; [exact H2 |]. rewrite Hrun.
      destruct (fst (shopify_query env (py_strip message) t2)) as [again | e].
      * intros Hagain. rewrite Hagain. unfold no_results. reflexivity.
      * unfold no_results. reflexivity.
Qed.

Lemma chat_intent_lookups_witness :
  str_truthy (py_strip (utf8 " pulsera azul ")) = true /\
  intent_from_openai Examples.empty_shop (py_strip (utf8 " pulsera azul ")) [] =
    (Return (utf8 "pulsera azul"), []) /\
  chat_intent Examples.empty_shop (utf8 " pulsera azul ") [] =
    (Return (utf8 "No encontré resultados para “pulsera azul”. ¿Buscamos otra marca o estilo parecido?"),
     [CatalogPost (synthesized_query Examples.empty_shop (utf8 "pulsera azul"));
      CatalogPost (synthesized_query Examples.empty_shop (utf8 "pulsera azul"))]) /\
  intent_from_openai
    (Examples.shop (Raise (CollaboratorError (utf8 "503 Service Unavailable"))))
    (py_strip (utf8 " pulsera azul ")) [] =
    (Return (utf8 "pulsera azul"), []) /\
  chat_intent
    (Examples.shop (Raise (CollaboratorError (utf8 "503 Service Unavailable"))))
    (utf8 " pulsera azul ") [] =
    (Return (utf8 "⚠️ No pude consultar Shopify (503 Service Unavailable). Verifica dominio/token y vuelve a intentar."),
     [CatalogPost
        (synthesized_query
           (Examples.shop (Raise (CollaboratorError (utf8 "503 Service Unavailable"))))
           (utf8 "pulsera azul"))]).
Proof.
  assert (H0 : str_truthy (py_strip (utf8 " pulsera azul ")) = true) by reflexivity.
  assert (H1 : intent_from_openai Examples.empty_shop
                 (py_strip (utf8 " pulsera azul ")) [] =
               (Return (utf8 "pulsera azul"), [])) by reflexivity.
  assert (H1' : intent_from_openai
                  (Examples.shop
                     (Raise (CollaboratorError (utf8 "503 Service Unavailable"))))
                  (py_strip (utf8 " pulsera azul ")) [] =
                (Return (utf8 "pulsera azul"), [])) by reflexivity.
  split; [exact H0 | split; [exact H1 |]].
  split; [| split; [exact H1' |]].
  - destruct (chat_intent_lookups Examples.empty_shop (utf8 " pulsera azul ") []
                (utf8 "pulsera azul") [] H0 H1) as [_ Hzero].
    destruct (Hzero (JList [])
                [CatalogPost (synthesized_query Examples.empty_shop (utf8 "pulsera azul"))]
                eq_refl eq_refl) as (_ & _ & second & Hsecond & Hresp).
    assert (E : second = Return (JList [])).
    { apply (f_equal fst) in Hsecond. symmetry. exact Hsecond. }
    rewrite E in Hresp. etransitivity; [exact (Hresp eq_refl) |].
    vm_compute. reflexivity.
  - destruct (chat_intent_lookups
                (Examples.shop
                   (Raise (CollaboratorError (utf8 "503 Service Unavailable"))))
                (utf8 " pulsera azul ") [] (utf8 "pulsera azul") [] H0 H1')
      as [Hraise _].
    assert (Hq : shopify_query
                   (Examples.shop
                      (Raise (CollaboratorError (utf8 "503 Service Unavailable"))))
                   (utf8 "pulsera azul") [] =
                 (Raise (CollaboratorError (utf8 "503 Service Unavailable")),
                  [CatalogPost
                     (synthesized_query
                        (Examples.shop
                           (Raise (CollaboratorError (utf8 "503 Service Unavailable"))))
                        (utf8 "pulsera azul"))]))
      by (vm_compute; reflexivity).
    destruct (Hraise _ _ Hq) as [Hresp _].
    etransitivity; [exact Hresp |]. vm_compute. reflexivity.
Defined.

(** An exception leaves the endpoint only from [format_products]: what
    the collaborators raise, and what the catalog lookup raises on a
    malformed response, is answered by a message. *)
Lemma chat_intent_raises_in_format_products
    (env : Env) (message : str) (t t' : trace) (e : exn) :
  chat_intent env message t = (Raise e, t') ->
  exists products, truthy products = true /\ format_products env products = Raise e.
Proof.
  unfold chat_intent. rewrite message_or_empty.
  destruct (str_truthy (py_strip message)); cbn [negb]; [| discriminate].
  unfold bind at 1. rewrite intent_from_openai_eq.
  assert (Hfinish : forall intent products t2 r,
             (if negb (truthy products) then ret (no_results intent)
              else listado <- lift (format_products env products) ;;
                   ret (listing intent listado)) t2 = (Raise e, r) ->
             exists products, truthy products = true
                              /\ format_products env products = Raise e).
  { intros intent products t2 r H. destruct (truthy products) eqn:T; cbn [negb] in H.
    - exists products. split; [exact T |].
      unfold bind, lift, ret in H.
      destruct (format_products env products); inversion H; reflexivity.
    - discriminate. }
  destruct (oai env);
    unfold bind at 1, attempt;
    (destruct (shopify_query env _ _) as [[products | e1] t2]; [| discriminate]);
    unfold bind at 1;
    (destruct (truthy products) eqn:T; cbn [negb];
     [ unfold ret at 1; apply Hfinish
     | unfold try_except;
       destruct (shopify_query env (py_strip message) t2) as [[again | e2] t3];
       [ apply Hfinish | unfold ret at 1; apply Hfinish ] ]).
Qed.

(** C6, at a failing input.  The catalog answers the query for
    ["invicta"] with one edge that has no ["node"] key: [chat_intent]
    does not return a response, the [KeyError] raised by [e["node"]] in
    [format_products] leaves it. *)
Theorem chat_intent_raises_on_edge_without_node :
  chat_intent Examples.odd_shop (utf8 "invicta") [] =
    (Raise (KeyError (JStr (utf8 "node"))),
     [CatalogPost (synthesized_query Examples.odd_shop (utf8 "invicta"))]).
Proof. vm_compute. reflexivity. Qed.

(** C9.  [normalize_terms] of the empty string is the empty list and
    [build_shopify_query] of the empty list is the empty string.  When
    the query synthesized for a text is empty, a configured
    [shopify_query] does not raise on that account: it posts the empty
    query and returns what the response holds. *)
Theorem empty_query_is_unconstrained (env : Env) (q : str) (t : trace) :
  configured env = true ->
  synthesized_query env q = [] ->
  normalize_terms (ucd env) [] = [] /\
  build_shopify_query [] = [] /\
  synthesized_query env [] = [] /\
  shopify_query env q t =
    (obind (requests_post env t []) (read_edges env), t ++ [CatalogPost []]).
Proof.
  intros Hc Hq. split; [reflexivity | split; [reflexivity | split; [reflexivity |]]].
  rewrite shopify_query_eq, Hc, Hq. reflexivity.
Qed.

Lemma empty_query_is_unconstrained_witness :
  configured Examples.watch_shop = true /\
  synthesized_query Examples.watch_shop (utf8 "busco un reloj") = [] /\
  shopify_query Examples.watch_shop (utf8 "busco un reloj") [] =
    (Return (JList [Examples.watch]), [CatalogPost []]).
Proof.
  assert (Hc : configured Examples.watch_shop = true) by reflexivity.
  assert (Hq : synthesized_query Examples.watch_shop (utf8 "busco un reloj") = [])
    by reflexivity.
  split; [exact Hc | split; [exact Hq |]].
  destruct (empty_query_is_unconstrained Examples.watch_shop
              (utf8 "busco un reloj") [] Hc Hq) as (_ & _ & _ & H).
  exact H.
Defined.

(** ** Prices *)

(** C7.  [format_price] of the float [1234.5] is ["S/ 1.234,50"]: the
    currency prefix, a period between the thousands and a comma before
    the decimals.  [format_price] of [None] is the placeholder, and so
    is [format_price] of every value whose conversion by [float]
    raises; being a function into strings, it raises nothing. *)
Theorem format_price_spec (env : Env) (v : json) (e : exn) :
  py_float env v = Raise e ->
  format_price env (JFloat FLOAT_1234_5) = utf8 "S/ 1.234,50" /\
  substring (utf8 "1.234,50") (format_price env (JFloat FLOAT_1234_5)) = true /\
  starts_with (utf8 "S/ ") (format_price env (JFloat FLOAT_1234_5)) = true /\
  format_price env JNull = UNKNOWN_PRICE /\
  format_price env v = UNKNOWN_PRICE.
Proof.
  intros H. repeat split; try (vm_compute; reflexivity).
  unfold format_price, format_price_try. rewrite H. reflexivity.
Qed.

Lemma format_price_spec_witness :
  py_float Examples.empty_shop (JStr (utf8 "gratis")) = Raise ValueError /\
  format_price Examples.empty_shop (JStr (utf8 "gratis")) = UNKNOWN_PRICE.
Proof.
  assert (H : py_float Examples.empty_shop (JStr (utf8 "gratis")) = Raise ValueError)
    by reflexivity.
  split; [exact H |].
  destruct (format_price_spec Examples.empty_shop (JStr (utf8 "gratis")) ValueError H)
    as (_ & _ & _ & _ & G).
  exact G.
Defined.

(** ** Accent stripping, character by character *)

Lemma within_forallb (D : codepoint -> bool) (s : str) :
  forallb D s = true <-> within D s.
Proof. unfold within. apply forallb_forall. Qed.

Lemma within_flat_map (D : codepoint -> bool) (f : codepoint -> str) (s : str) :
  within D s -> (forall c, D c = true -> within D (f c)) -> within D (flat_map f s).
Proof.
  intros Hs Hf x Hx. apply in_flat_map in Hx. destruct Hx as (c & Hc & Hx).
  exact (Hf c (Hs c Hc) x Hx).
Qed.

Lemma flat_map_flat_map {A B C} (f : B -> list C) (g : A -> list B) (l : list A) :
  flat_map f (flat_map g l) = flat_map (fun x => flat_map f (g x)) l.
Proof.
  induction l as [|x l IH]; simpl; [reflexivity |].
  rewrite flat_map_app, IH. reflexivity.
Qed.

Lemma filter_flat_map {A B} (p : B -> bool) (g : A -> list B) (l : list A) :
  filter p (flat_map g l) = flat_map (fun x => filter p (g x)) l.
Proof.
  induction l as [|x l IH]; simpl; [reflexivity |].
  rewrite filter_app, IH. reflexivity.
Qed.

Lemma flat_map_ext_within {B} (D : codepoint -> bool) (f g : codepoint -> list B)
    (s : str) :
  within D s -> (forall c, D c = true -> f c = g c) -> flat_map f s = flat_map g s.
Proof.
  induction s as [|c s IH]; intros Hs H; simpl; [reflexivity |].
  rewrite (H c (Hs c (or_introl eq_refl))), IH; [reflexivity | | exact H].
  intros x Hx. apply Hs. right. exact Hx.
Qed.

Section Characterwise.
Variable U : UCD.

(** Without a capital sigma, [lower] maps each character on its own. *)
Lemma lower_from_plain (s before : str) :
  (forall c, In c s -> c <> SIGMA) ->
  lower_from U before s = flat_map (to_lower_full U) s.
Proof.
  revert before; induction s as [|c s IH]; intros before H; simpl; [reflexivity |].
  destruct (N.eqb_spec c SIGMA) as [E | _].
  - exfalso. exact (H c (or_introl eq_refl) E).
  - rewrite IH; [reflexivity |]. intros x Hx. apply H. right. exact Hx.
Qed.

(** Canonical ordering is invisible to a filter that drops every
    character of non-zero combining class. *)
Lemma filter_place_mark (p : codepoint -> bool) (c : codepoint) (racc : str) :
  (forall x, In x (c :: racc) -> combining U x <> 0 -> p x = false) ->
  filter p (place_mark U c racc) = filter p (c :: racc).
Proof.
  induction racc as [|q racc IH]; intros H; [reflexivity |].
  cbn [place_mark].
  destruct ((0 <? combining U c) && (combining U c <? combining U q)) eqn:E;
    [| reflexivity].
  apply andb_true_iff in E. destruct E as [E1 E2].
  apply N.ltb_lt in E1, E2.
  assert (Hc : p c = false) by (apply H; [left; reflexivity | lia]).
  assert (Hq : p q = false) by (apply H; [right; left; reflexivity | lia]).
  change (filter p (q :: place_mark U c racc))
    with (if p q then q :: filter p (place_mark U c racc)
          else filter p (place_mark U c racc)).
  change (filter p (c :: q :: racc))
    with (if p c then c :: filter p (q :: racc) else filter p (q :: racc)).
  change (filter p (q :: racc))
    with (if p q then q :: filter p racc else filter p racc).
  rewrite Hq, Hc, IH.
  - change (filter p (c :: racc))
      with (if p c then c :: filter p racc else filter p racc).
    rewrite Hc. reflexivity.
  - intros x [<- | Hx]; apply H; simpl; auto.
Qed.

Lemma filter_fold_place_mark (p : codepoint -> bool) (s acc : str) :
  (forall x, In x (s ++ acc) -> combining U x <> 0 -> p x = false) ->
  filter p (fold_left (fun racc c => place_mark U c racc) s acc) =
  filter p (rev s ++ acc).
Proof.
  revert acc; induction s as [|c s IH]; intros acc H; [reflexivity |].
  cbn [fold_left]. rewrite IH.
  - cbn [rev]. rewrite <- app_assoc.
    change ([c] ++ acc) with (c :: acc).
    rewrite (filter_app p (rev s)), (filter_app p (rev s)), filter_place_mark.
    + reflexivity.
    + intros x Hx. apply H. simpl. destruct Hx as [<- | Hx]; [left; reflexivity |].
      right. apply in_or_app. right. exact Hx.
  - intros x Hx. apply H. apply in_app_or in Hx. simpl.
    destruct Hx as [Hx | Hx].
    + right. apply in_or_app. left. exact Hx.
    + apply place_mark_In in Hx. destruct Hx as [-> | Hx]; [left; reflexivity |].
      right. apply in_or_app. right. exact Hx.
Qed.

Lemma filter_canonical_order (p : codepoint -> bool) (s : str) :
  (forall x, In x s -> combining U x <> 0 -> p x = false) ->
  filter p (canonical_order U s) = filter p s.
Proof.
  intros H. unfold canonical_order.
  rewrite filter_rev, filter_fold_place_mark.
  - rewrite app_nil_r, filter_rev, rev_involutive. reflexivity.
  - intros x Hx. rewrite app_nil_r in Hx. exact (H x Hx).
Qed.

Lemma filter_all {A} (l : list A) : filter (fun _ => true) l = l.
Proof. induction l as [|x l IH]; simpl; [| rewrite IH]; reflexivity. Qed.

(** Characters that do not combine stay where they are. *)
Lemma canonical_order_starters (s : str) :
  (forall x, In x s -> combining U x = 0) -> canonical_order U s = s.
Proof.
  intros H. rewrite <- (filter_all (canonical_order U s)).
  rewrite filter_canonical_order; [apply filter_all |].
  intros x Hx Hne. exfalso. exact (Hne (H x Hx)).
Qed.

End Characterwise.

(** ** Basic Latin *)

Lemma ascii_lower_below (c : codepoint) : c < 128 -> ascii_lower c < 128.
Proof.
  intros H. unfold ascii_lower.
  destruct ((65 <=? c) && (c <=? 90)) eqn:E; [| exact H].
  apply andb_true_iff in E. destruct E as [_ E]. apply N.leb_le in E. lia.
Qed.

(** On Basic Latin text, cleaning is lower-casing the letters and
    replacing commas and periods. *)
Lemma cleaned_text_basic_latin (U : UCD) (s : str) :
  BasicLatin U ->
  (forall c, In c s -> c < 128) ->
  cleaned_text U s =
    py_replace PERIOD (utf8 " ") (py_replace COMMA (utf8 " ") (map ascii_lower s)).
Proof.
  intros HU Hs. unfold cleaned_text. do 2 f_equal.
  assert (Hlow : py_lower U s = map ascii_lower s).
  { unfold py_lower. rewrite lower_from_plain.
    - clear -HU Hs. induction s as [|c s IH]; simpl; [reflexivity |].
      rewrite (ascii_lower_full U HU c (Hs c (or_introl eq_refl))), IH;
        [reflexivity |].
      intros x Hx. apply Hs. right. exact Hx.
    - intros c Hc E. specialize (Hs c Hc). subst c. vm_compute in Hs. discriminate. }
  rewrite Hlow.
  assert (Hm : forall c, In c (map ascii_lower s) -> c < 128).
  { intros c Hc. apply in_map_iff in Hc. destruct Hc as (x & <- & Hx).
    apply ascii_lower_below. exact (Hs x Hx). }
  revert Hm. generalize (map ascii_lower s). intros l Hl.
  unfold strip_accents, py_nfd.
  assert (Hd : flat_map (decomposition U) l = l).
  { clear -HU Hl. induction l as [|c l IH]; simpl; [reflexivity |].
    rewrite (ascii_decomposition U HU c (Hl c (or_introl eq_refl))), IH;
      [reflexivity |].
    intros x Hx. apply Hl. right. exact Hx. }
  rewrite Hd, canonical_order_starters.
  - apply forallb_filter_id. apply forallb_forall. intros c Hc.
    pose proof (ascii_category U HU c (Hl c Hc)) as Hne.
    destruct (category U c); try reflexivity. congruence.
  - intros c Hc. exact (ascii_combining U HU c (Hl c Hc)).
Qed.

Lemma below_forallb (s : str) (n : N) :
  forallb (fun c => c <? n) s = true -> forall c, In c s -> c < n.
Proof.
  intros H c Hc. rewrite forallb_forall in H. apply N.ltb_lt. exact (H c Hc).
Qed.

(** The code points below [n], listed. *)
Lemma below_listed (n : nat) (c : codepoint) :
  c < N.of_nat n -> In c (map N.of_nat (seq 0 n)).
Proof.
  intros H. apply in_map_iff. exists (N.to_nat c). split.
  - apply N2Nat.id.
  - apply in_seq. lia.
Qed.

Lemma basic_latin_b_spec (U : UCD) :
  forallb (basic_latin_b U) (map N.of_nat (seq 0 128)) = true -> BasicLatin U.
Proof.
  intros H. rewrite forallb_forall in H.
  assert (G : forall c, c < 128 -> basic_latin_b U c = true)
    by (intros c Hc; apply H; apply (below_listed 128); exact Hc).
  split; intros c Hc; specialize (G c Hc); unfold basic_latin_b in G;
    repeat (apply andb_true_iff in G; destruct G as [G ?]).
  - apply str_eqb_eq. exact G.
  - apply str_eqb_eq. assumption.
  - apply N.eqb_eq. assumption.
  - destruct (category U c); simpl in *; congruence.
Qed.

Lemma fragment_basic_latin : BasicLatin UCD14.fragment.
Proof. apply basic_latin_b_spec. vm_compute. reflexivity. Qed.

(** C8.  For every database that has Basic Latin as Unicode has it,
    [normalize_terms("busco reloj invicta dorado")] is exactly
    [["invicta", "dorado"]], ["busco"] and ["reloj"] being stopwords,
    and the query synthesized from these tokens has the vendor clause
    [vendor:"invicta"]. *)
Theorem busco_reloj_invicta_dorado (U : UCD) :
  BasicLatin U ->
  normalize_terms U (utf8 "busco reloj invicta dorado") =
    [utf8 "invicta"; utf8 "dorado"] /\
  In (utf8 "busco") STOPWORDS_ES /\
  In (utf8 "reloj") STOPWORDS_ES /\
  build_shopify_query (normalize_terms U (utf8 "busco reloj invicta dorado")) =
    INVICTA_QUERY /\
  substring (utf8 "vendor:" ++ quoted (utf8 "invicta")) INVICTA_QUERY = true.
Proof.
  intros HU.
  assert (E : normalize_terms U (utf8 "busco reloj invicta dorado") =
              [utf8 "invicta"; utf8 "dorado"]).
  { rewrite normalize_terms_eq, (cleaned_text_basic_latin U _ HU).
    - vm_compute. reflexivity.
    - apply below_forallb. vm_compute. reflexivity. }
  split; [exact E |].
  split; [apply set_mem_In; vm_compute; reflexivity |].
  split; [apply set_mem_In; vm_compute; reflexivity |].
  split; [rewrite E |]; vm_compute; reflexivity.
Qed.

Lemma busco_reloj_invicta_dorado_witness :
  BasicLatin UCD14.fragment /\
  normalize_terms UCD14.fragment (utf8 "busco reloj invicta dorado") =
    [utf8 "invicta"; utf8 "dorado"] /\
  build_shopify_query
    (normalize_terms UCD14.fragment (utf8 "busco reloj invicta dorado")) =
    INVICTA_QUERY.
Proof.
  split; [exact fragment_basic_latin |].
  destruct (busco_reloj_invicta_dorado UCD14.fragment fragment_basic_latin)
    as (H1 & _ & _ & H2 & _).
  split; [exact H1 | exact H2].
Defined.

(** ** Stripping the accents before normalizing *)

Lemma rev_flat_map {A B} (f : A -> list B) (l : list A) :
  rev (flat_map f l) = flat_map (fun x => rev (f x)) (rev l).
Proof.
  induction l as [|x l IH]; simpl; [reflexivity |].
  rewrite rev_app_distr, IH, flat_map_app. simpl. rewrite app_nil_r. reflexivity.
Qed.

Lemma within_app (D : codepoint -> bool) (a b : str) :
  within D (a ++ b) <-> within D a /\ within D b.
Proof.
  unfold within. split.
  - intros H. split; intros c Hc; apply H; apply in_or_app; auto.
  - intros [Ha Hb] c Hc. apply in_app_or in Hc. destruct Hc; auto.
Qed.

Lemma within_rev (D : codepoint -> bool) (s : str) : within D s -> within D (rev s).
Proof. intros H c Hc. apply H. apply in_rev. exact Hc. Qed.

Section CaseContext.
Variable U : UCD.

Lemma handle_capital_sigma_context (before after : str) :
  handle_capital_sigma U before after =
    match case_context U before with
    | Some true =>
      match case_context U after with
      | Some true => SMALL_SIGMA
      | _ => FINAL_SIGMA
      end
    | _ => SMALL_SIGMA
    end.
Proof.
  unfold handle_capital_sigma, case_context.
  destruct (skip_ignorable U before) as [|c ?]; [reflexivity |].
  destruct (is_cased U c); [| reflexivity].
  destruct (skip_ignorable U after) as [|d ?]; [reflexivity |].
  destruct (is_cased U d); reflexivity.
Qed.

Lemma case_context_app (x y : str) :
  case_context U (x ++ y) =
    match case_context U x with
    | None => case_context U y
    | seen => seen
    end.
Proof.
  unfold case_context. induction x as [|c x IH]; simpl.
  - destruct (skip_ignorable U y); reflexivity.
  - destruct (is_case_ignorable U c); [exact IH | reflexivity].
Qed.

(** A character-wise rewriting that keeps the context of each character
    keeps the context of the text. *)
Lemma case_context_flat_map (D : codepoint -> bool) (f : codepoint -> str) (l : str) :
  within D l ->
  (forall c, D c = true -> case_context U (f c) = case_context U [c]) ->
  case_context U (flat_map f l) = case_context U l.
Proof.
  intros Hl Hf. induction l as [|c l IH]; [reflexivity |].
  change (c :: l) with ([c] ++ l) at 2. cbn [flat_map].
  rewrite !case_context_app, (Hf c (Hl c (or_introl eq_refl))), IH; [reflexivity |].
  intros x Hx. apply Hl. right. exact Hx.
Qed.

(** The lower case of a text that begins with a stretch free of capital
    sigmas. *)
Lemma lower_from_app_plain (x y before : str) :
  ~ In SIGMA x ->
  lower_from U before (x ++ y) =
    flat_map (to_lower_full U) x ++ lower_from U (rev x ++ before) y.
Proof.
  revert before; induction x as [|c x IH]; intros before Hx; [reflexivity |].
  cbn [app lower_from flat_map rev].
  destruct (N.eqb_spec c SIGMA) as [E | _].
  - exfalso. apply Hx. left. exact E.
  - rewrite IH, <- !app_assoc; [reflexivity |].
    intros H. apply Hx. right. exact H.
Qed.

End CaseContext.

Section PlainText.
Variable U : UCD.
Variable D : codepoint -> bool.
Hypothesis HD : Plain U D.

Lemma plain_strip_text (s : str) :
  within D s -> strip_accents U s = flat_map (strip1 U) s.
Proof.
  intros Hs. unfold strip_accents, py_nfd.
  rewrite filter_canonical_order.
  - apply filter_flat_map.
  - intros x Hx Hne.
    assert (Dx : D x = true).
    { apply (within_flat_map D (decomposition U) s Hs); [| exact Hx].
      apply (plain_decomposition U D HD). }
    rewrite (plain_marks U D HD x Dx Hne). reflexivity.
Qed.

Lemma within_strip1 (c : codepoint) : D c = true -> within D (strip1 U c).
Proof.
  intros Dc x Hx. unfold strip1 in Hx. apply filter_In in Hx.
  exact (plain_decomposition U D HD c Dc x (proj1 Hx)).
Qed.

Lemma within_stripped (s : str) : within D s -> within D (flat_map (strip1 U) s).
Proof. intros Hs. apply within_flat_map; [exact Hs | exact within_strip1]. Qed.

Lemma within_lower (s before : str) : within D s -> within D (lower_from U before s).
Proof.
  intros Hs x Hx.
  destruct (lower_from_In U _ _ _ Hx) as [[Hsigma Hx'] | (c & Hc & _ & Hx')].
  - destruct (plain_sigma U D HD (Hs _ Hsigma)) as (_ & Hf & Hsm).
    destruct Hx' as [-> | ->]; assumption.
  - exact (plain_lower U D HD c (Hs c Hc) x Hx').
Qed.

Lemma context_stripped (s : str) :
  within D s -> case_context U (flat_map (strip1 U) s) = case_context U s.
Proof.
  intros Hs. apply (case_context_flat_map U D); [exact Hs |].
  intros c Dc. apply (plain_context U D HD c Dc).
Qed.

Lemma context_stripped_rev (s : str) :
  within D s ->
  case_context U (rev (flat_map (strip1 U) s)) = case_context U (rev s).
Proof.
  intros Hs. rewrite rev_flat_map.
  apply (case_context_flat_map U D); [apply within_rev; exact Hs |].
  intros c Dc. apply (plain_context U D HD c Dc).
Qed.

(** Lower-casing the stripped text [q], to the right of the stripped
    text [p], and stripping the result, is stripping the lower case of
    [q] to the right of [p]. *)
Lemma strip_lower_strip (q p : str) :
  within D p -> within D q ->
  flat_map (strip1 U)
    (lower_from U (rev (flat_map (strip1 U) p)) (flat_map (strip1 U) q)) =
  flat_map (strip1 U) (lower_from U (rev p) q).
Proof.
  revert p; induction q as [|c q IH]; intros p Hp Hq; [reflexivity |].
  assert (Dc : D c = true) by (apply Hq; left; reflexivity).
  assert (Hq' : within D q) by (intros x Hx; apply Hq; right; exact Hx).
  assert (Hp' : within D (p ++ [c])).
  { apply within_app. split; [exact Hp |]. intros x [<- | []]. exact Dc. }
  specialize (IH (p ++ [c]) Hp' Hq').
  rewrite flat_map_app, !rev_app_distr in IH. cbn [flat_map rev app] in IH.
  rewrite app_nil_r in IH.
  cbn [flat_map lower_from].
  destruct (N.eqb_spec c SIGMA) as [E | Hne].
  - subst c. destruct (plain_sigma U D HD Dc) as (Hs1 & _ & _).
    rewrite Hs1 in IH |- *. cbn [app lower_from rev] in IH |- *.
    rewrite N.eqb_refl. cbn [app flat_map]. rewrite IH.
    rewrite !handle_capital_sigma_context.
    rewrite (context_stripped_rev p Hp), (context_stripped q Hq'). reflexivity.
  - destruct (plain_commute U D HD c Dc Hne) as [Hns Hcomm].
    rewrite (lower_from_app_plain U _ _ _ Hns).
    rewrite !flat_map_app. f_equal; [exact Hcomm | exact IH].
Qed.

(** On plain text the cleaned text is the same whether or not the
    accents are stripped first. *)
Lemma plain_cleaned_text (q : str) :
  within D q -> cleaned_text U (strip_accents U q) = cleaned_text U q.
Proof.
  intros Hq. unfold cleaned_text. do 2 f_equal.
  rewrite (plain_strip_text q Hq). unfold py_lower.
  rewrite (plain_strip_text _ (within_lower _ [] (within_stripped q Hq))).
  rewrite (plain_strip_text _ (within_lower _ [] Hq)).
  exact (strip_lower_strip q [] (fun _ H => match H with end) Hq).
Qed.

End PlainText.

Lemma latin_in_listed (c : codepoint) : latin c = true -> In c latin_listed.
Proof.
  unfold latin, latin_listed. intros H. apply in_or_app.
  repeat (apply orb_true_iff in H; destruct H as [H | H]).
  - left. apply in_map_iff. exists (N.to_nat c). split; [apply N2Nat.id |].
    apply in_or_app. left. apply N.ltb_lt in H. apply in_seq. lia.
  - left. apply in_map_iff. exists (N.to_nat c). split; [apply N2Nat.id |].
    apply in_or_app. right. apply andb_true_iff in H. destruct H as [H1 H2].
    apply N.leb_le in H1. apply N.ltb_lt in H2. apply in_seq. lia.
  - right. apply N.eqb_eq in H. subst. simpl. auto.
  - right. apply N.eqb_eq in H. subst. simpl. auto.
  - right. apply N.eqb_eq in H. subst. simpl. auto.
Qed.

Lemma context_eqb_eq (a b : option bool) : context_eqb a b = true -> a = b.
Proof.
  destruct a as [[|]|], b as [[|]|]; simpl; intros H;
    try reflexivity; discriminate.
Qed.

Lemma plain_b_spec (U : UCD) (D : codepoint -> bool) (l : list codepoint) :
  (D SIGMA = true ->
   strip1 U SIGMA = [SIGMA] /\ D FINAL_SIGMA = true /\ D SMALL_SIGMA = true) ->
  (forall c, D c = true -> In c l) ->
  forallb (plain_b U D) l = true ->
  Plain U D.
Proof.
  intros Hsigma Hl H. rewrite forallb_forall in H.
  assert (G : forall c, D c = true -> plain_b U D c = true)
    by (intros c Dc; apply H, Hl, Dc).
  split; [| | | | | exact Hsigma]; intros c Dc; specialize (G c Dc);
    unfold plain_b in G;
    apply andb_true_iff in G; destruct G as [G G6];
    apply andb_true_iff in G; destruct G as [G G5];
    apply andb_true_iff in G; destruct G as [G G4];
    apply andb_true_iff in G; destruct G as [G G3];
    apply andb_true_iff in G; destruct G as [G1 G2].
  - apply within_forallb. exact G1.
  - apply within_forallb. exact G2.
  - intros Hne. apply orb_true_iff in G3. destruct G3 as [K | K].
    + apply N.eqb_eq in K. contradiction.
    + destruct (category U c); simpl in K; congruence.
  - intros Hne. apply orb_true_iff in G4. destruct G4 as [K | K].
    + apply N.eqb_eq in K. contradiction.
    + apply andb_true_iff in K. destruct K as [K1 K2]. split.
      * intros Hin. apply negb_true_iff in K1.
        assert (E : existsb (N.eqb SIGMA) (strip1 U c) = true).
        { apply existsb_exists. exists SIGMA. split; [exact Hin | apply N.eqb_refl]. }
        congruence.
      * apply str_eqb_eq. exact K2.
  - split; apply context_eqb_eq; assumption.
Qed.

Lemma fragment_latin_plain : Plain UCD14.fragment latin.
Proof.
  apply (plain_b_spec _ _ latin_listed).
  - intros _. vm_compute. auto.
  - exact latin_in_listed.
  - vm_compute. reflexivity.
Qed.




(** * Further properties *)

(** ** The tokenizer *)

Lemma cleaned_word_chars (U : UCD) (text w : str) (x : codepoint) :
  In w (py_split (cleaned_text U text)) -> In x w ->
  py_isspace x = false /\ x <> COMMA /\ x <> PERIOD /\
  In x (strip_accents U (py_lower U text)).
Proof.
  intros Hw Hx. destruct (py_split_pieces _ _ Hw) as (_ & Hsp & Hin).
  specialize (Hsp x Hx). specialize (Hin x Hx). split; [exact Hsp |].
  unfold cleaned_text in Hin.
  apply In_py_replace in Hin. destruct Hin as [[<- | []] | [Hin Hp]];
    [discriminate Hsp |].
  apply In_py_replace in Hin. destruct Hin as [[<- | []] | [Hin Hc]];
    [discriminate Hsp |].
  auto.
Qed.

Lemma normalize_terms_words (U : UCD) (text w : str) :
  In w (normalize_terms U text) ->
  In w (py_split (cleaned_text U text)) /\ is_useful w = true.
Proof.
  rewrite normalize_terms_eq. intros H. apply In_firstn in H.
  apply filter_In in H. exact H.
Qed.

(** X1.  No token holds a white-space character, a comma or a period:
    commas and periods are turned into spaces before the text is
    split. *)
Theorem tokens_free_of_separators (U : UCD) (text : str) :
  Forall (fun w =>
            forall c, In c w ->
              py_isspace c = false /\ c <> COMMA /\ c <> PERIOD)
         (normalize_terms U text).
Proof.
  apply Forall_forall. intros w Hw c Hc.
  destruct (normalize_terms_words U text w Hw) as [Hs _].
  destruct (cleaned_word_chars U text w c Hs Hc) as (A & B & C & _). auto.
Qed.

(** X2.  On Basic Latin text the tokens do not depend on the case of the
    letters: two texts with the same lower case have the same tokens. *)
Theorem normalize_terms_ignores_case (U : UCD) (s s' : str) :
  BasicLatin U ->
  ascii_text s -> ascii_text s' ->
  map ascii_lower s = map ascii_lower s' ->
  normalize_terms U s = normalize_terms U s'.
Proof.
  intros HU Hs Hs' E.
  rewrite !normalize_terms_eq.
  rewrite (cleaned_text_basic_latin U s HU Hs).
  rewrite (cleaned_text_basic_latin U s' HU Hs'), E. reflexivity.
Qed.

Lemma ascii_text_check (s : str) :
  forallb (fun c => c <? 128) s = true -> ascii_text s.
Proof. exact (below_forallb s 128). Qed.

Lemma normalize_terms_ignores_case_witness :
  BasicLatin UCD14.fragment /\
  ascii_text (utf8 "RELOJ Invicta Dorado") /\
  ascii_text (utf8 "reloj INVICTA dorado") /\
  map ascii_lower (utf8 "RELOJ Invicta Dorado") =
    map ascii_lower (utf8 "reloj INVICTA dorado") /\
  normalize_terms UCD14.fragment (utf8 "RELOJ Invicta Dorado") =
    normalize_terms UCD14.fragment (utf8 "reloj INVICTA dorado").
Proof.
  assert (A : ascii_text (utf8 "RELOJ Invicta Dorado"))
    by (apply ascii_text_check; reflexivity).
  assert (B : ascii_text (utf8 "reloj INVICTA dorado"))
    by (apply ascii_text_check; reflexivity).
  assert (E : map ascii_lower (utf8 "RELOJ Invicta Dorado") =
              map ascii_lower (utf8 "reloj INVICTA dorado")) by reflexivity.
  split; [exact fragment_basic_latin |].
  split; [exact A | split; [exact B | split; [exact E |]]].
  exact (normalize_terms_ignores_case UCD14.fragment _ _ fragment_basic_latin A B E).
Defined.

Lemma py_replace_one (old x : codepoint) (s : str) :
  py_replace old [x] s = map (fun c => if c =? old then x else c) s.
Proof.
  unfold py_replace. induction s as [|c s IH]; simpl; [reflexivity |].
  rewrite IH. destruct (c =? old); reflexivity.
Qed.

Lemma by_ascii (check : codepoint -> bool) :
  forallb check (map N.of_nat (seq 0 128)) = true ->
  forall c, c < 128 -> check c = true.
Proof.
  intros H c Hc. rewrite forallb_forall in H. apply H.
  apply (below_listed 128). exact Hc.
Qed.

(** X3.  On Basic Latin text a comma or a period separates words as a
    space does: replacing them by spaces beforehand leaves the tokens
    unchanged. *)
Theorem commas_and_periods_separate (U : UCD) (s : str) :
  BasicLatin U ->
  ascii_text s ->
  normalize_terms U (py_replace PERIOD (utf8 " ") (py_replace COMMA (utf8 " ") s)) =
  normalize_terms U s.
Proof.
  intros HU Hs.
  change (utf8 " ") with [32].
  assert (Hs' : ascii_text (py_replace PERIOD [32] (py_replace COMMA [32] s))).
  { intros c Hc. apply In_py_replace in Hc.
    destruct Hc as [[<- | []] | [Hc _]]; [reflexivity |].
    apply In_py_replace in Hc.
    destruct Hc as [[<- | []] | [Hc _]]; [reflexivity | exact (Hs c Hc)]. }
  rewrite !normalize_terms_eq.
  rewrite (cleaned_text_basic_latin U _ HU Hs').
  rewrite (cleaned_text_basic_latin U s HU Hs).
  change (utf8 " ") with [32].
  rewrite !py_replace_one, !map_map. do 3 f_equal.
  apply map_ext_in. intros c Hc.
  apply N.eqb_eq.
  apply (by_ascii (fun c =>
    (let r c := if (if c =? COMMA then 32 else c) =? PERIOD then 32
                else (if c =? COMMA then 32 else c) in
     r (ascii_lower (r c)) =? r (ascii_lower c)))); [vm_compute; reflexivity |].
  exact (Hs c Hc).
Qed.

Lemma commas_and_periods_separate_witness :
  BasicLatin UCD14.fragment /\
  ascii_text (utf8 "Gorra,New Era.negra") /\
  normalize_terms UCD14.fragment (utf8 "Gorra New Era negra") =
    normalize_terms UCD14.fragment (utf8 "Gorra,New Era.negra").
Proof.
  assert (A : ascii_text (utf8 "Gorra,New Era.negra"))
    by (apply ascii_text_check; reflexivity).
  split; [exact fragment_basic_latin | split; [exact A |]].
  exact (commas_and_periods_separate UCD14.fragment _ fragment_basic_latin A).
Defined.

(** X4.  The stopwords ["niño"] and ["niña"] never match.  The words are
    tested after the accents are stripped, and stripping leaves no
    U+00F1 when, as in Unicode, no decomposition contains that
    character; so no word of the cleaned text holds it, and none is one
    of these two stopwords. *)
Theorem accented_stopwords_never_match (U : UCD) (text : str) :
  (forall c, ~ In ENYE (decomposition U c)) ->
  Forall (fun w => ~ In ENYE w /\ w <> utf8 "niño" /\ w <> utf8 "niña")
         (py_split (cleaned_text U text)).
Proof.
  intros HU. apply Forall_forall. intros w Hw.
  assert (Hn : ~ In ENYE w).
  { intros Hx. destruct (cleaned_word_chars U text w ENYE Hw Hx) as (_ & _ & _ & H).
    apply strip_accents_In in H. destruct H as (_ & c & _ & Hc).
    exact (HU c Hc). }
  split; [exact Hn |].
  split; intros ->; apply Hn; vm_compute; auto.
Qed.

Lemma fragment_decomposes_enye (c : codepoint) :
  ~ In ENYE (decomposition UCD14.fragment c).
Proof.
  pattern c. revert c.
  apply (UCD14Facts.by_rows _
           (fun c => negb (existsb (N.eqb ENYE) (decomposition UCD14.fragment c)))).
  - intros c H Hin. apply negb_true_iff in H.
    assert (E : existsb (N.eqb ENYE) (decomposition UCD14.fragment c) = true).
    { apply existsb_exists. exists ENYE. split; [exact Hin | apply N.eqb_refl]. }
    congruence.
  - vm_compute. reflexivity.
  - intros c E Hin. simpl in Hin. unfold UCD14.field in Hin. rewrite E in Hin.
    destruct Hin as [E' | []]. subst c. vm_compute in E. discriminate.
Qed.

Lemma accented_stopwords_never_match_witness :
  Forall (fun w => ~ In ENYE w /\ w <> utf8 "niño" /\ w <> utf8 "niña")
         (py_split (cleaned_text UCD14.fragment (utf8 "Zapatillas para NIÑO"))) /\
  normalize_terms UCD14.fragment (utf8 "Zapatillas para NIÑO") =
    [utf8 "zapatillas"; utf8 "nino"].
Proof.
  split; [| reflexivity].
  exact (accented_stopwords_never_match UCD14.fragment
           (utf8 "Zapatillas para NIÑO") fragment_decomposes_enye).
Defined.

Lemma strip_accents_basic_latin (U : UCD) (s : str) :
  BasicLatin U -> ascii_text s -> strip_accents U s = s.
Proof.
  intros HU Hs. unfold strip_accents, py_nfd.
  assert (Hd : flat_map (decomposition U) s = s).
  { induction s as [|c s IH]; simpl; [reflexivity |].
    rewrite (ascii_decomposition U HU c (Hs c (or_introl eq_refl))), IH;
      [reflexivity |].
    intros x Hx. apply Hs. right. exact Hx. }
  rewrite Hd, canonical_order_starters.
  - apply forallb_filter_id. apply forallb_forall. intros c Hc.
    pose proof (ascii_category U HU c (Hs c Hc)) as Hne.
    destruct (category U c); try reflexivity. congruence.
  - intros c Hc. exact (ascii_combining U HU c (Hs c Hc)).
Qed.

(** X5.  [strip_accents] returns Basic Latin text as it is, and there
    the fallback of [shopify_query] normalizes the very same text. *)
Theorem strip_accents_keeps_basic_latin (env : Env) (s : str) :
  BasicLatin (ucd env) ->
  ascii_text s ->
  strip_accents (ucd env) s = s /\
  query_terms env s = normalize_terms (ucd env) s.
Proof.
  intros HU Hs.
  pose proof (strip_accents_basic_latin (ucd env) s HU Hs) as E.
  split; [exact E |].
  unfold query_terms. rewrite E.
  destruct (normalize_terms (ucd env) s); reflexivity.
Qed.

Lemma strip_accents_keeps_basic_latin_witness :
  BasicLatin (ucd Examples.empty_shop) /\
  ascii_text (utf8 "Ray-Ban aviator") /\
  strip_accents (ucd Examples.empty_shop) (utf8 "Ray-Ban aviator") =
    utf8 "Ray-Ban aviator".
Proof.
  assert (A : ascii_text (utf8 "Ray-Ban aviator"))
    by (apply ascii_text_check; reflexivity).
  split; [exact fragment_basic_latin | split; [exact A |]].
  exact (proj1 (strip_accents_keeps_basic_latin Examples.empty_shop _
                  fragment_basic_latin A)).
Defined.

(** ** The query synthesizer *)

Lemma make_group_head (w : str) : exists r, make_group w = 40 :: r.
Proof. unfold make_group. cbv zeta. eexists. reflexivity. Qed.

Lemma py_join_head (sep p : str) (rest : list str) (c : codepoint) (r : str) :
  p = c :: r -> exists r', py_join sep (p :: rest) = c :: r'.
Proof.
  intros ->. destruct rest as [|q rest]; simpl; eexists; reflexivity.
Qed.

Lemma merge_phrases_cons (a : str) (rest : list str) :
  exists t ts, merge_phrases (a :: rest) = t :: ts.
Proof.
  destruct rest as [|b rest]; cbn [merge_phrases]; [eexists; eexists; reflexivity |].
  destruct (set_mem (a ++ utf8 " " ++ b) BRAND_PHRASES);
    eexists; eexists; reflexivity.
Qed.

(** X6.  The query is the empty string exactly when there is no term;
    with a term it begins with an opening parenthesis.  So the catalog
    is searched without constraint only when no token is left. *)
Theorem build_shopify_query_empty_iff (terms : list str) :
  (build_shopify_query terms = [] <-> terms = []) /\
  (terms = [] \/ exists r, build_shopify_query terms = 40 :: r).
Proof.
  destruct terms as [|a rest].
  - split; [split; reflexivity | left; reflexivity].
  - assert (H : exists r, build_shopify_query (a :: rest) = 40 :: r).
    { rewrite build_shopify_query_groups.
      destruct (merge_phrases_cons a rest) as (t & ts & ->). cbn [map].
      destruct (make_group_head (term_source t)) as (r & Hr).
      exact (py_join_head _ _ _ _ _ Hr). }
    split; [| right; exact H].
    destruct H as (r & Hr). rewrite Hr. split; discriminate.
Qed.

Lemma count_replace_quote (w : str) :
  count_occ N.eq_dec (py_replace QUOTE [] w) QUOTE = 0%nat.
Proof.
  apply count_occ_not_In. intros H. apply In_py_replace in H.
  destruct H as [[] | [_ H]]. apply H. reflexivity.
Qed.

Lemma make_group_quotes (w : str) :
  count_occ N.eq_dec (make_group w) QUOTE =
    if looks_like_brand (py_replace QUOTE [] w) then 6%nat else 4%nat.
Proof.
  rewrite make_group_eq. cbv zeta. unfold quoted.
  destruct (looks_like_brand (py_replace QUOTE [] w));
    rewrite !count_occ_app, !count_replace_quote; reflexivity.
Qed.

Lemma py_join_quotes_even (parts : list str) :
  Forall (fun g => Nat.even (count_occ N.eq_dec g QUOTE) = true) parts ->
  Nat.even (count_occ N.eq_dec (py_join (utf8 " AND ") parts) QUOTE) = true.
Proof.
  induction 1 as [|p rest Hp Hrest IH]; [reflexivity |].
  destruct rest as [|q rest]; [exact Hp |].
  set (J := py_join (utf8 " AND ") (q :: rest)) in *.
  change (py_join (utf8 " AND ") (p :: q :: rest)) with (p ++ utf8 " AND " ++ J).
  rewrite !count_occ_app, !Nat.even_add. unfold codepoint. rewrite Hp, IH.
  reflexivity.
Qed.

(** X7.  The quote characters of the query are those that delimit its
    values, whatever the tokens hold: a group has four of them, six
    with a vendor clause, and the query an even number. *)
Theorem query_quotes_delimit (terms : list str) :
  Forall (fun g => count_occ N.eq_dec g QUOTE = 4%nat \/
                   count_occ N.eq_dec g QUOTE = 6%nat)
         (while_loop (length terms) terms 0 []) /\
  Nat.even (count_occ N.eq_dec (build_shopify_query terms) QUOTE) = true.
Proof.
  assert (G : Forall (fun g => count_occ N.eq_dec g QUOTE = 4%nat \/
                               count_occ N.eq_dec g QUOTE = 6%nat)
                     (map (fun t => make_group (term_source t))
                          (merge_phrases terms))).
  { apply Forall_forall. intros g Hg. apply in_map_iff in Hg.
    destruct Hg as (t & <- & _). rewrite make_group_quotes.
    destruct (looks_like_brand _); auto. }
  split.
  - rewrite while_loop_groups by lia. exact G.
  - rewrite build_shopify_query_groups. apply py_join_quotes_even.
    apply Forall_forall. intros g Hg. rewrite Forall_forall in G.
    destruct (G g Hg) as [-> | ->]; reflexivity.
Qed.

Lemma merge_phrases_length (n : nat) (terms : list str) :
  (length terms <= n)%nat ->
  (length (merge_phrases terms) <= length terms)%nat /\
  (length terms <= 2 * length (merge_phrases terms))%nat.
Proof.
  revert terms; induction n as [|n IH]; intros terms Hn.
  - destruct terms; simpl in *; lia.
  - destruct terms as [|a [|b rest]]; [simpl; lia | simpl; lia |].
    cbn [merge_phrases].
    destruct (set_mem (a ++ utf8 " " ++ b) BRAND_PHRASES).
    + destruct (IH rest) as [A B]; [simpl in Hn; lia |]. cbn [length] in *. lia.
    + destruct (IH (b :: rest)) as [A B]; [simpl in Hn |- *; lia |].
      cbn [merge_phrases length] in *. lia.
Qed.

(** X8.  The loop builds at most one group per token and at least one
    group for every two tokens. *)
Theorem group_count_bounds (terms : list str) :
  (length (while_loop (length terms) terms 0 []) <= length terms)%nat /\
  (length terms <= 2 * length (while_loop (length terms) terms 0 []))%nat.
Proof.
  rewrite while_loop_groups by lia. cbn [app skipn]. rewrite length_map.
  exact (merge_phrases_length (length terms) terms (le_n _)).
Qed.

Lemma merge_phrases_Phrase (n : nat) (terms : list str) (a b : str) :
  (length terms <= n)%nat ->
  In (Phrase a b) (merge_phrases terms) ->
  In a terms /\ set_mem (a ++ utf8 " " ++ b) BRAND_PHRASES = true.
Proof.
  revert terms; induction n as [|n IH]; intros terms Hn Hin.
  - destruct terms; [destruct Hin | simpl in Hn; lia].
  - destruct terms as [|x [|y rest]]; [destruct Hin | |].
    + destruct Hin as [H | []]. discriminate H.
    + cbn [merge_phrases] in Hin.
      destruct (set_mem (x ++ utf8 " " ++ y) BRAND_PHRASES) eqn:E.
      * destruct Hin as [H | Hin].
        -- inversion H; subst. split; [left; reflexivity | exact E].
        -- destruct (IH rest) as [A B]; [simpl in Hn; lia | exact Hin |].
           split; [right; right; exact A | exact B].
      * destruct Hin as [H | Hin]; [discriminate H |].
        destruct (IH (y :: rest)) as [A B]; [simpl in Hn |- *; lia | exact Hin |].
        split; [right; exact A | exact B].
Qed.

(** X9.  In the query synthesized from a text, the merged terms are
    ["ray ban"], ["new era"] and ["tommy hilfiger"] only: ["g shock"]
    is never merged, its first half being too short to be a token. *)
Theorem normalized_text_merges_three_phrases (U : UCD) (text : str) :
  build_shopify_query (normalize_terms U text) =
    query_of_terms (normalize_terms U text) /\
  Forall (fun t =>
            match t with
            | Word _ => True
            | Phrase a b =>
              (a = utf8 "ray" /\ b = utf8 "ban") \/
              (a = utf8 "new" /\ b = utf8 "era") \/
              (a = utf8 "tommy" /\ b = utf8 "hilfiger")
            end)
         (merge_phrases (normalize_terms U text)).
Proof.
  split; [apply query_of_normalized_text |].
  apply Forall_forall. intros [w | a b] Ht; [exact I |].
  destruct (merge_phrases_Phrase _ _ a b (le_n _) Ht) as [Ha Hp].
  destruct (normalize_terms_words U text a Ha) as [Hs Hu].
  destruct (py_split_pieces _ _ Hs) as (_ & Hsp & _).
  destruct (brand_phrase_halves a b Hsp Hp)
    as [H | [H | [[-> _] | H]]]; auto.
  vm_compute in Hu. discriminate Hu.
Qed.

(** ** Prices and listings *)

(** On text without the letter X, the three replacements of
    [format_price] exchange commas and periods. *)
Lemma replacements_swap_separators (s : str) :
  ~ In LETTER_X s ->
  py_replace LETTER_X (utf8 ".")
    (py_replace PERIOD (utf8 ",") (py_replace COMMA (utf8 "X") s)) =
  map swap_separators s.
Proof.
  intros Hx.
  change (utf8 ".") with [PERIOD]. change (utf8 ",") with [COMMA].
  change (utf8 "X") with [LETTER_X].
  rewrite !py_replace_one, !map_map. apply map_ext_in. intros c Hc.
  assert (Hne : c <> LETTER_X) by (intros ->; exact (Hx Hc)).
  unfold swap_separators.
  destruct (N.eqb_spec c COMMA) as [-> | H1]; [reflexivity |].
  destruct (N.eqb_spec c PERIOD) as [-> | H2]; [reflexivity |].
  apply N.eqb_neq in Hne. rewrite Hne. reflexivity.
Qed.

Lemma uint_digits_chars (d : Decimal.uint) (c : codepoint) :
  In c (uint_digits d) -> 48 <= c /\ c <= 57.
Proof.
  induction d; simpl; intros H; try (destruct H as [<- | H]; [lia | auto]).
  destruct H.
Qed.

Lemma group3_chars (n : nat) (l : str) (c : codepoint) :
  (length l <= n)%nat -> In c (group3 l) -> c = COMMA \/ In c l.
Proof.
  revert l; induction n as [|n IH]; intros l Hn H.
  - destruct l; [destruct H | simpl in Hn; lia].
  - destruct l as [|x [|y [|z [|u r]]]]; try (right; exact H).
    cbn [group3] in H. simpl in Hn.
    destruct H as [<- | [<- | [<- | [<- | H]]]]; simpl; auto.
    destruct (IH (u :: r)) as [E | E]; [simpl; lia | exact H | auto |].
    right. right. right. right. exact E.
Qed.

(** The characters of a formatted float: Basic Latin, without X. *)
Lemma format_comma_2f_chars (f : spec_float) (c : codepoint) :
  In c (format_comma_2f f) -> c < 128 /\ c <> LETTER_X.
Proof.
  assert (Lit : forall l, forallb (fun c => (c <? 128) && negb (c =? LETTER_X)) l = true ->
                          In c l -> c < 128 /\ c <> LETTER_X).
  { intros l Hl Hc. rewrite forallb_forall in Hl. specialize (Hl c Hc).
    apply andb_true_iff in Hl. destruct Hl as [A B].
    apply N.ltb_lt in A. apply negb_true_iff, N.eqb_neq in B. auto. }
  assert (Fix : forall s h, In c (fixed2 s h) -> c < 128 /\ c <> LETTER_X).
  { intros s h H. unfold fixed2 in H. rewrite !in_app_iff in H.
    destruct H as [H | [H | [H | H]]].
    - destruct s; [apply (Lit (utf8 "-")); [reflexivity | exact H] | destruct H].
    - apply in_rev in H.
      destruct (group3_chars _ _ _ (le_n _) H) as [-> | H'].
      + split; [reflexivity | discriminate].
      + apply in_rev in H'. apply uint_digits_chars in H'.
        unfold LETTER_X. split; lia.
    - destruct H as [<- | []]. split; [reflexivity | discriminate].
    - unfold two_digits in H.
      assert (B : h mod 100 < 100) by (apply N.mod_lt; discriminate).
      assert (D1 : (h mod 100) / 10 < 10)
        by (apply N.Div0.div_lt_upper_bound; exact B).
      assert (D0 : (h mod 100) mod 10 < 10) by (apply N.mod_lt; discriminate).
      unfold LETTER_X. destruct H as [<- | [<- | []]]; split; lia. }
  destruct f as [s | s | | s m e]; cbn [format_comma_2f].
  - apply Fix.
  - destruct s; [apply (Lit (utf8 "-inf")) | apply (Lit (utf8 "inf"))]; reflexivity.
  - apply (Lit (utf8 "nan")); reflexivity.
  - apply Fix.
Qed.

Lemma format_price_eq (env : Env) (v : json) :
  format_price env v =
    match py_float env v with
    | Return f => utf8 "S/ " ++ map swap_separators (format_comma_2f f)
    | Raise _ => UNKNOWN_PRICE
    end.
Proof.
  unfold format_price, format_price_try.
  destruct (py_float env v) as [f | e]; cbn [obind]; [| reflexivity].
  rewrite replacements_swap_separators.
  - rewrite map_app. reflexivity.
  - intros H. apply in_app_or in H. destruct H as [H | H].
    + vm_compute in H. repeat (destruct H as [H | H]; [discriminate H |]). exact H.
    + apply format_comma_2f_chars in H. apply (proj2 H). reflexivity.
Qed.

(** X10.  When [float] converts the value, [format_price] is the currency
    prefix followed by the number formatted with [",.2f"] in which
    every comma has become a period and every period a comma: the
    three replacements through the letter X amount to that exchange,
    no formatted number holding an X. *)
Theorem format_price_swaps_separators (env : Env) (v : json) :
  format_price env v =
    match py_float env v with
    | Return f => utf8 "S/ " ++ map swap_separators (format_comma_2f f)
    | Raise _ => UNKNOWN_PRICE
    end.
Proof. exact (format_price_eq env v). Qed.

(** X11.  Every price begins with the currency prefix, and the placeholder
    is returned exactly when the conversion by [float] raises. *)
Theorem format_price_placeholder_iff (env : Env) (v : json) :
  starts_with (utf8 "S/ ") (format_price env v) = true /\
  (format_price env v = UNKNOWN_PRICE <-> exists e, py_float env v = Raise e).
Proof.
  rewrite format_price_eq. destruct (py_float env v) as [f | e].
  - split; [reflexivity |]. split.
    + intros H. exfalso.
      change UNKNOWN_PRICE with (utf8 "S/ " ++ [8212]) in H.
      apply app_inv_head in H.
      destruct (format_comma_2f f) as [|c [|d r]] eqn:E; try discriminate H.
      cbn [map] in H. inversion H as [Hc].
      assert (Hin : In c (format_comma_2f f)) by (rewrite E; left; reflexivity).
      apply format_comma_2f_chars in Hin. destruct Hin as [Hlt _].
      unfold swap_separators in Hc.
      destruct (c =? COMMA); [discriminate Hc |].
      destruct (c =? PERIOD); [discriminate Hc |].
      subst c. vm_compute in Hlt. discriminate Hlt.
    + intros (e & He). discriminate He.
  - split; [reflexivity |]. split; [intros _; exists e; reflexivity | reflexivity].
Qed.

Lemma format_edge_returns (env : Env) (e : json) :
  (exists line, format_edge env e = Return line) <-> has_node e = true.
Proof.
  unfold format_edge, has_node, getitem.
  destruct e as [| b | z | f | s | l | d];
    try (split; [intros (x & H); discriminate H | discriminate]).
  destruct (dict_lookup (utf8 "node") d) as [n |];
    [| split; [intros (x & H); discriminate H | discriminate]].
  cbn [obind].
  destruct n as [| b | z | f | s | l | nd];
    try (split; [intros (x & H); discriminate H | discriminate]).
  cbn [py_get obind]. split; [reflexivity |]. intros _. eexists. reflexivity.
Qed.

Lemma format_lines_returns (env : Env) (es : list json) (lines : list str) :
  (exists r, format_lines env es lines = Return r) <-> forallb has_node es = true.
Proof.
  revert lines; induction es as [|e es IH]; intros lines; cbn [format_lines forallb].
  - split; [reflexivity | intros _; eexists; reflexivity].
  - rewrite andb_true_iff, <- (format_edge_returns env e).
    destruct (format_edge env e) as [line | x]; cbn [obind].
    + rewrite IH. split; [intros H; split; [eexists; reflexivity | exact H] | tauto].
    + split; [intros (r & H); discriminate H | intros [(l & H) _]; discriminate H].
Qed.

Lemma format_products_on_list (env : Env) (edges : list json) :
  (exists listado, format_products env (JList edges) = Return listado) <->
  forallb has_node (firstn 3 edges) = true.
Proof.
  unfold format_products. cbn [first3 obind].
  rewrite <- (format_lines_returns env (firstn 3 edges) []).
  destruct (format_lines env (firstn 3 edges) []) as [lines | e]; cbn [obind].
  - split; intros _; eexists; reflexivity.
  - split; intros (r & H); discriminate H.
Qed.

(** X12.  On a list of edges, [format_products] returns a listing exactly
    when each of the first three edges is a dictionary whose ["node"]
    is a dictionary; what their other fields hold, and what comes
    after the third edge, makes no difference; otherwise it raises. *)
Theorem format_products_returns_iff (env : Env) (edges : list json) :
  (exists listado, format_products env (JList edges) = Return listado) <->
  forallb has_node (firstn 3 edges) = true.
Proof. exact (format_products_on_list env edges). Qed.

(** X13.  A product whose first-variant price cannot be read (no variants,
    no edges, no node, no price) is listed with the unknown-price
    placeholder: the default ["—"] is handed to [format_price], where
    [float] rejects it. *)
Theorem unreadable_price_is_placeholder
    (env : Env) (d nd : list (str * json)) (e : exn) :
  dict_lookup (utf8 "node") d = Some (JDict nd) ->
  first_price (JDict nd) = Raise e ->
  float_of_str env (utf8 "—") = None ->
  exists title url,
    format_edge env (JDict d) =
      Return (utf8 "• " ++ title ++ utf8 " — " ++ UNKNOWN_PRICE
              ++ [NL] ++ utf8 "  " ++ url).
Proof.
  intros Hn Hp Hf. unfold format_edge, getitem. rewrite Hn.
  cbn [obind py_get]. rewrite Hp.
  unfold format_price, format_price_try. cbn [py_float]. rewrite Hf.
  cbn [obind]. eexists. eexists. reflexivity.
Qed.

Lemma unreadable_price_is_placeholder_witness :
  dict_lookup (utf8 "node")
    [(utf8 "node", JDict [(utf8 "title", JStr (utf8 "Gorra"))])] =
    Some (JDict [(utf8 "title", JStr (utf8 "Gorra"))]) /\
  first_price (JDict [(utf8 "title", JStr (utf8 "Gorra"))]) =
    Raise (KeyError (JStr (utf8 "variants"))) /\
  float_of_str Examples.empty_shop (utf8 "—") = None /\
  exists title url,
    format_edge Examples.empty_shop
      (JDict [(utf8 "node", JDict [(utf8 "title", JStr (utf8 "Gorra"))])]) =
      Return (utf8 "• " ++ title ++ utf8 " — " ++ UNKNOWN_PRICE
              ++ [NL] ++ utf8 "  " ++ url).
Proof.
  split; [reflexivity | split; [reflexivity | split; [reflexivity |]]].
  exact (unreadable_price_is_placeholder Examples.empty_shop
           [(utf8 "node", JDict [(utf8 "title", JStr (utf8 "Gorra"))])]
           [(utf8 "title", JStr (utf8 "Gorra"))]
           (KeyError (JStr (utf8 "variants")))
           eq_refl eq_refl eq_refl).
Defined.

(** ** The endpoint and its calls *)

Lemma lstrip_blank (s : str) :
  (forall c, In c s -> py_isspace c = true) -> lstrip s = [].
Proof.
  induction s as [|c s IH]; intros H; [reflexivity |].
  cbn [lstrip]. rewrite (H c (or_introl eq_refl)).
  apply IH. intros x Hx. apply H. right. exact Hx.
Qed.

(** X14.  A message made of white space only (the empty message included)
    is answered by the question what the user is looking for, and no
    collaborator is called: the trace is unchanged. *)
Theorem blank_message_asks_back (env : Env) (message : str) (t : trace) :
  (forall c, In c message -> py_isspace c = true) ->
  chat_intent env message t = (Return ASK_WHAT, t).
Proof.
  intros H. unfold chat_intent. rewrite message_or_empty.
  unfold py_strip. rewrite (lstrip_blank message H). reflexivity.
Qed.

Lemma blank_message_asks_back_witness :
  (forall c, In c [32; 9; 160; 10] -> py_isspace c = true) /\
  chat_intent Examples.watch_shop [32; 9; 160; 10] [] = (Return ASK_WHAT, []).
Proof.
  assert (H : forall c, In c [32; 9; 160; 10] -> py_isspace c = true).
  { intros c Hc. simpl in Hc.
    destruct Hc as [<- | [<- | [<- | [<- | []]]]]; reflexivity. }
  split; [exact H |].
  exact (blank_message_asks_back Examples.watch_shop [32; 9; 160; 10] [] H).
Defined.

Lemma intent_from_openai_pair (env : Env) (user_text : str) (t : trace) :
  intent_from_openai env user_text t =
    (Return (intent_of env user_text t), trace_after_intent env user_text t).
Proof.
  rewrite intent_from_openai_eq. unfold intent_of, trace_after_intent.
  destruct (oai env); reflexivity.
Qed.

(** The endpoint, from the first lookup on. *)
Lemma chat_intent_from_lookup (env : Env) (message : str) (t : trace) :
  str_truthy (py_strip message) = true ->
  chat_intent env message t =
    (first <- attempt (shopify_query env (intent_of env (py_strip message) t)) ;;
     match first with
     | Raise e => ret (apology env e)
     | Return products =>
       products <-
         (if negb (truthy products)
          then try_except (shopify_query env (py_strip message))
                          (fun _ => ret products)
          else ret products) ;;
       if negb (truthy products)
       then ret (no_results (intent_of env (py_strip message) t))
       else
         listado <- lift (format_products env products) ;;
         ret (listing (intent_of env (py_strip message) t) listado)
     end) (trace_after_intent env (py_strip message) t).
Proof.
  intros Hne. unfold chat_intent. rewrite message_or_empty, Hne. cbn [negb].
  unfold bind at 1. rewrite intent_from_openai_pair. reflexivity.
Qed.

(** X15.  When the shop is not configured (no domain or no token), a
    non-blank message is answered by the apology naming the missing
    configuration, and the catalog is not called: after the intent is
    resolved the trace does not change. *)
Theorem unconfigured_shop_apologizes (env : Env) (message : str) (t : trace) :
  configured env = false ->
  str_truthy (py_strip message) = true ->
  chat_intent env message t =
    (Return (apology env (RuntimeError NOT_CONFIGURED)),
     trace_after_intent env (py_strip message) t).
Proof.
  intros Hc Hne. rewrite (chat_intent_from_lookup env message t Hne).
  unfold bind, attempt. rewrite shopify_query_eq, Hc.
  unfold NOT_CONFIGURED. reflexivity.
Qed.

Lemma unconfigured_shop_apologizes_witness :
  configured MoreExamples.tokenless = false /\
  str_truthy (py_strip (utf8 "reloj invicta")) = true /\
  chat_intent MoreExamples.tokenless (utf8 "reloj invicta") [] =
    (Return (utf8 "⚠️ No pude consultar Shopify (Shopify no configurado (dominio o token faltante).). Verifica dominio/token y vuelve a intentar."),
     []).
Proof.
  split; [reflexivity | split; [reflexivity |]].
  etransitivity;
    [exact (unconfigured_shop_apologizes MoreExamples.tokenless
              (utf8 "reloj invicta") [] eq_refl eq_refl) |].
  vm_compute. reflexivity.
Defined.

(** X16.  One request calls the language model at most once and the
    catalog at most twice, in that order: the trace grows by the call
    of the intent resolver, then by a prefix of the post for the
    intent followed by the post for the trimmed message. *)
Theorem chat_intent_calls (env : Env) (message : str) (t : trace) :
  exists k,
    (k <= 2)%nat /\
    snd (chat_intent env message t) =
      if str_truthy (py_strip message)
      then trace_after_intent env (py_strip message) t ++
           firstn k
             [CatalogPost (synthesized_query env
                             (intent_of env (py_strip message) t));
              CatalogPost (synthesized_query env (py_strip message))]
      else t.
Proof.
  destruct (str_truthy (py_strip message)) eqn:Hne.
  - rewrite (chat_intent_from_lookup env message t Hne).
    set (u := py_strip message). set (i := intent_of env u t).
    set (t1 := trace_after_intent env u t).
    assert (Hfinish : forall products t2,
               snd ((if negb (truthy products) then ret (no_results i)
                     else listado <- lift (format_products env products) ;;
                          ret (listing i listado)) t2) = t2).
    { intros products t2. destruct (truthy products); cbn [negb]; [| reflexivity].
      unfold bind, lift, ret. destruct (format_products env products); reflexivity. }
    unfold bind at 1, attempt. rewrite shopify_query_eq.
    destruct (configured env) eqn:Hc.
    + destruct (obind (requests_post env t1 (synthesized_query env i))
                      (read_edges env)) as [products | e].
      * unfold bind at 1. destruct (truthy products) eqn:T; cbn [negb].
        -- exists 1%nat. split; [lia |]. unfold ret at 1. rewrite Hfinish.
           reflexivity.
        -- exists 2%nat. split; [lia |]. unfold try_except.
           rewrite shopify_query_eq, Hc.
           destruct (obind _ _) as [again | e2].
           ++ rewrite Hfinish, <- app_assoc. reflexivity.
           ++ unfold ret at 1. rewrite Hfinish, <- app_assoc. reflexivity.
      * exists 1%nat. split; [lia | reflexivity].
    + exists 0%nat. split; [lia |]. cbn [firstn]. rewrite app_nil_r. reflexivity.
  - exists 0%nat. split; [lia |].
    unfold chat_intent. rewrite message_or_empty, Hne. reflexivity.
Qed.

(** X17.  When the first lookup has hits, no second lookup is made: the
    response is the header quoting the intent in parentheses, a blank
    line, the listing [format_products] makes of these hits, a blank
    line and the closing tip (or the exception [format_products] raises
    on them), and the trace ends with the one post for the intent. *)
Theorem first_hits_are_listed
    (env : Env) (message : str) (t : trace) (products : json) (t2 : trace) :
  str_truthy (py_strip message) = true ->
  shopify_query env (intent_of env (py_strip message) t)
    (trace_after_intent env (py_strip message) t) = (Return products, t2) ->
  truthy products = true ->
  chat_intent env message t =
    (obind (format_products env products)
       (fun listado =>
          Return (utf8 "✨ Esto es lo más cercano a lo que buscas ("
                  ++ intent_of env (py_strip message) t ++ utf8 "):"
                  ++ [NL; NL] ++ listado ++ [NL; NL]
                  ++ utf8 "¿Quieres que te recomiende según precio o color? "
                  ++ utf8 "🎁 *Tip:* si es tu primera compra, usa **SUNTIME10%** para 10% de descuento.")),
     t2) /\
  t2 = trace_after_intent env (py_strip message) t ++
       [CatalogPost (synthesized_query env (intent_of env (py_strip message) t))].
Proof.
  intros Hne H1 T. split.
  - rewrite (chat_intent_from_lookup env message t Hne).
    unfold bind at 1, attempt. rewrite H1.
    unfold bind at 1. rewrite T. cbn [negb]. unfold ret at 1. rewrite T. cbn [negb].
    unfold bind, lift, ret, listing.
    destruct (format_products env products); reflexivity.
  - exact (proj2 (shopify_query_returned _ _ _ _ _ H1)).
Qed.

Lemma first_hits_are_listed_witness :
  str_truthy (py_strip (utf8 "invicta")) = true /\
  shopify_query Examples.watch_shop
    (intent_of Examples.watch_shop (py_strip (utf8 "invicta")) [])
    (trace_after_intent Examples.watch_shop (py_strip (utf8 "invicta")) []) =
    (Return (JList [Examples.watch]),
     [CatalogPost (synthesized_query Examples.watch_shop (utf8 "invicta"))]) /\
  truthy (JList [Examples.watch]) = true /\
  chat_intent Examples.watch_shop (utf8 "invicta") [] =
    (Return (utf8 "✨ Esto es lo más cercano a lo que buscas (invicta):"
             ++ [NL; NL]
             ++ utf8 "• Invicta Pro Diver — S/ 1.234,50" ++ [NL]
             ++ utf8 "  https://suntimestore.com/products/invicta-pro-diver"
             ++ [NL; NL]
             ++ utf8 "¿Quieres que te recomiende según precio o color? 🎁 *Tip:* si es tu primera compra, usa **SUNTIME10%** para 10% de descuento."),
     [CatalogPost (synthesized_query Examples.watch_shop (utf8 "invicta"))]).
Proof.
  assert (H1 : shopify_query Examples.watch_shop
                 (intent_of Examples.watch_shop (py_strip (utf8 "invicta")) [])
                 (trace_after_intent Examples.watch_shop
                    (py_strip (utf8 "invicta")) []) =
               (Return (JList [Examples.watch]),
                [CatalogPost (synthesized_query Examples.watch_shop (utf8 "invicta"))]))
    by (vm_compute; reflexivity).
  split; [reflexivity | split; [exact H1 | split; [reflexivity |]]].
  destruct (first_hits_are_listed Examples.watch_shop (utf8 "invicta") []
              _ _ eq_refl H1 eq_refl) as [H _].
  etransitivity; [exact H |]. vm_compute. reflexivity.
Defined.

(** X18.  When the first lookup finds nothing and the second, made with
    the trimmed message, has hits, the response is the listing
    [format_products] makes of these hits, between the header and the
    closing tip; the header still quotes the resolved intent, not the
    message the hits were found with. *)
Theorem fallback_hits_are_listed
    (env : Env) (message : str) (t : trace)
    (nothing : json) (t2 : trace) (products : json) (t3 : trace) :
  str_truthy (py_strip message) = true ->
  shopify_query env (intent_of env (py_strip message) t)
    (trace_after_intent env (py_strip message) t) = (Return nothing, t2) ->
  truthy nothing = false ->
  shopify_query env (py_strip message) t2 = (Return products, t3) ->
  truthy products = true ->
  chat_intent env message t =
    (obind (format_products env products)
       (fun listado =>
          Return (utf8 "✨ Esto es lo más cercano a lo que buscas ("
                  ++ intent_of env (py_strip message) t ++ utf8 "):"
                  ++ [NL; NL] ++ listado ++ [NL; NL]
                  ++ utf8 "¿Quieres que te recomiende según precio o color? "
                  ++ utf8 "🎁 *Tip:* si es tu primera compra, usa **SUNTIME10%** para 10% de descuento.")),
     t3).
Proof.
  intros Hne H1 T1 H2 T2.
  rewrite (chat_intent_from_lookup env message t Hne).
  unfold bind at 1, attempt. rewrite H1.
  unfold bind at 1. rewrite T1. cbn [negb]. unfold try_except. rewrite H2, T2.
  cbn [negb]. unfold bind, lift, ret, listing.
  destruct (format_products env products); reflexivity.
Qed.

Lemma fallback_hits_are_listed_witness :
  str_truthy (py_strip (utf8 "reloj azul de Invicta")) = true /\
  shopify_query MoreExamples.second_chance
    (intent_of MoreExamples.second_chance (py_strip (utf8 "reloj azul de Invicta")) [])
    (trace_after_intent MoreExamples.second_chance
       (py_strip (utf8 "reloj azul de Invicta")) []) =
    (Return (JList []),
     [OpenAICall (prompt_for MoreExamples.second_chance (utf8 "reloj azul de Invicta"));
      CatalogPost (synthesized_query MoreExamples.second_chance (utf8 "invicta azul"))]) /\
  truthy (JList []) = false /\
  shopify_query MoreExamples.second_chance (py_strip (utf8 "reloj azul de Invicta"))
    [OpenAICall (prompt_for MoreExamples.second_chance (utf8 "reloj azul de Invicta"));
     CatalogPost (synthesized_query MoreExamples.second_chance (utf8 "invicta azul"))] =
    (Return (JList [Examples.watch]),
     [OpenAICall (prompt_for MoreExamples.second_chance (utf8 "reloj azul de Invicta"));
      CatalogPost (synthesized_query MoreExamples.second_chance (utf8 "invicta azul"));
      CatalogPost (synthesized_query MoreExamples.second_chance
                     (utf8 "reloj azul de Invicta"))]) /\
  truthy (JList [Examples.watch]) = true /\
  fst (chat_intent MoreExamples.second_chance (utf8 "reloj azul de Invicta") []) =
    Return (utf8 "✨ Esto es lo más cercano a lo que buscas (invicta azul):"
            ++ [NL; NL]
            ++ utf8 "• Invicta Pro Diver — S/ 1.234,50" ++ [NL]
            ++ utf8 "  https://suntimestore.com/products/invicta-pro-diver"
            ++ [NL; NL]
            ++ utf8 "¿Quieres que te recomiende según precio o color? 🎁 *Tip:* si es tu primera compra, usa **SUNTIME10%** para 10% de descuento.").
Proof.
  assert (H1 : shopify_query MoreExamples.second_chance
                 (intent_of MoreExamples.second_chance
                    (py_strip (utf8 "reloj azul de Invicta")) [])
                 (trace_after_intent MoreExamples.second_chance
                    (py_strip (utf8 "reloj azul de Invicta")) []) =
               (Return (JList []),
                [OpenAICall (prompt_for MoreExamples.second_chance
                               (utf8 "reloj azul de Invicta"));
                 CatalogPost (synthesized_query MoreExamples.second_chance
                                (utf8 "invicta azul"))]))
    by (vm_compute; reflexivity).
  assert (H2 : shopify_query MoreExamples.second_chance
                 (py_strip (utf8 "reloj azul de Invicta"))
                 [OpenAICall (prompt_for MoreExamples.second_chance
                                (utf8 "reloj azul de Invicta"));
                  CatalogPost (synthesized_query MoreExamples.second_chance
                                 (utf8 "invicta azul"))] =
               (Return (JList [Examples.watch]),
                [OpenAICall (prompt_for MoreExamples.second_chance
                               (utf8 "reloj azul de Invicta"));
                 CatalogPost (synthesized_query MoreExamples.second_chance
                                (utf8 "invicta azul"));
                 CatalogPost (synthesized_query MoreExamples.second_chance
                                (utf8 "reloj azul de Invicta"))]))
    by (vm_compute; reflexivity).
  split; [reflexivity | split; [exact H1 | split; [reflexivity |
    split; [exact H2 | split; [reflexivity |]]]]].
  rewrite (fallback_hits_are_listed MoreExamples.second_chance
             (utf8 "reloj azul de Invicta") [] _ _ _ _
             eq_refl H1 eq_refl H2 eq_refl).
  vm_compute. reflexivity.
Defined.

(** X19.  Without a language model the intent is the trimmed message, so
    when the first lookup finds nothing the second one posts the very
    same query again. *)
Theorem retry_repeats_query_without_model
    (env : Env) (message : str) (t : trace) (nothing : json) (t2 : trace) :
  oai env = false ->
  str_truthy (py_strip message) = true ->
  shopify_query env (py_strip message) t = (Return nothing, t2) ->
  truthy nothing = false ->
  snd (chat_intent env message t) =
    t ++ [CatalogPost (synthesized_query env (py_strip message));
          CatalogPost (synthesized_query env (py_strip message))].
Proof.
  intros Ho Hne H1 T1.
  rewrite (chat_intent_from_lookup env message t Hne).
  unfold intent_of, trace_after_intent. rewrite Ho.
  unfold bind at 1, attempt. rewrite H1.
  destruct (shopify_query_returned _ _ _ _ _ H1) as [Hc ->].
  unfold bind at 1. rewrite T1. cbn [negb]. unfold try_except.
  rewrite shopify_query_eq, Hc.
  assert (Hfinish : forall products t',
             snd ((if negb (truthy products)
                   then ret (no_results (py_strip message))
                   else listado <- lift (format_products env products) ;;
                        ret (listing (py_strip message) listado)) t') = t').
  { intros products t'. destruct (truthy products); cbn [negb]; [| reflexivity].
    unfold bind, lift, ret. destruct (format_products env products); reflexivity. }
  destruct (obind _ _) as [again | e].
  - rewrite Hfinish, <- app_assoc. reflexivity.
  - unfold ret at 1. rewrite Hfinish, <- app_assoc. reflexivity.
Qed.

Lemma retry_repeats_query_without_model_witness :
  oai Examples.empty_shop = false /\
  str_truthy (py_strip (utf8 "pulsera azul")) = true /\
  shopify_query Examples.empty_shop (py_strip (utf8 "pulsera azul")) [] =
    (Return (JList []),
     [CatalogPost (synthesized_query Examples.empty_shop (utf8 "pulsera azul"))]) /\
  truthy (JList []) = false /\
  snd (chat_intent Examples.empty_shop (utf8 "pulsera azul") []) =
    [CatalogPost (synthesized_query Examples.empty_shop (utf8 "pulsera azul"));
     CatalogPost (synthesized_query Examples.empty_shop (utf8 "pulsera azul"))].
Proof.
  split; [reflexivity | split; [reflexivity | split; [reflexivity |
    split; [reflexivity |]]]].
  exact (retry_repeats_query_without_model Examples.empty_shop (utf8 "pulsera azul") []
           (JList [])
           [CatalogPost (synthesized_query Examples.empty_shop (utf8 "pulsera azul"))]
           eq_refl eq_refl eq_refl eq_refl).
Defined.

(** The exception that leaves the endpoint was raised by
    [format_products] on the result of a lookup. *)
Lemma chat_intent_raises_on_lookup_result
    (env : Env) (message : str) (t t' : trace) (e : exn) :
  chat_intent env message t = (Raise e, t') ->
  exists q t1 t2 products,
    shopify_query env q t1 = (Return products, t2) /\
    format_products env products = Raise e.
Proof.
  destruct (str_truthy (py_strip message)) eqn:Hne.
  - rewrite (chat_intent_from_lookup env message t Hne).
    set (u := py_strip message). set (i := intent_of env u t).
    set (t1 := trace_after_intent env u t).
    assert (Hfinish : forall products t2 r,
               (if negb (truthy products) then ret (no_results i)
                else listado <- lift (format_products env products) ;;
                     ret (listing i listado)) t2 = (Raise e, r) ->
               format_products env products = Raise e).
    { intros products t2 r H. destruct (truthy products); cbn [negb] in H;
        [| discriminate H].
      unfold bind, lift, ret in H.
      destruct (format_products env products); inversion H; reflexivity. }
    unfold bind at 1, attempt.
    destruct (shopify_query env i t1) as [[products | e1] t2] eqn:H1;
      [| discriminate].
    unfold bind at 1. destruct (truthy products) eqn:T; cbn [negb].
    + unfold ret at 1. intros H. exists i, t1, t2, products.
      split; [exact H1 | exact (Hfinish _ _ _ H)].
    + unfold try_except.
      destruct (shopify_query env u t2) as [[again | e2] t3] eqn:H2.
      * intros H. exists u, t2, t3, again.
        split; [exact H2 | exact (Hfinish _ _ _ H)].
      * unfold ret at 1. intros H. apply Hfinish in H.
        exists i, t1, t2, products. split; [exact H1 | exact H].
  - unfold chat_intent. rewrite message_or_empty, Hne. discriminate.
Qed.

(** X20.  When the catalog's responses are sound (what is read from them
    is a list whose first three edges each have a node), the endpoint
    always returns a response: whatever else the collaborators do,
    raising included, no exception leaves it. *)
Theorem sound_catalog_always_answers (env : Env) (message : str) (t : trace) :
  sound_catalog env ->
  exists response, fst (chat_intent env message t) = Return response.
Proof.
  intros Hs.
  destruct (chat_intent env message t) as [[response | e] t'] eqn:H;
    [exists response; reflexivity |].
  exfalso.
  destruct (chat_intent_raises_on_lookup_result env message t t' e H)
    as (q & t1 & t2 & products & H1 & H2).
  rewrite shopify_query_eq in H1. destruct (configured env); [| discriminate H1].
  destruct (requests_post env t1 (synthesized_query env q)) as [data | x] eqn:Hp;
    [| discriminate H1].
  cbn [obind] in H1.
  destruct (read_edges env data) as [v | x] eqn:Hr; [| discriminate H1].
  inversion H1; subst v.
  destruct (Hs _ _ _ _ Hp Hr) as (l & -> & Hl).
  apply (format_products_on_list env l) in Hl. destruct Hl as (s & Hl).
  rewrite Hl in H2. discriminate H2.
Qed.

Lemma watch_shop_is_sound : sound_catalog Examples.watch_shop.
Proof.
  intros t q data v Hp Hr. simpl in Hp. inversion Hp; subst data.
  vm_compute in Hr. inversion Hr; subst v.
  exists [Examples.watch]. split; reflexivity.
Qed.

Lemma sound_catalog_always_answers_witness :
  sound_catalog Examples.watch_shop /\
  exists response,
    fst (chat_intent Examples.watch_shop (utf8 "invicta") []) = Return response.
Proof.
  split; [exact watch_shop_is_sound |].
  exact (sound_catalog_always_answers Examples.watch_shop (utf8 "invicta") []
           watch_shop_is_sound).
Defined.

(** X21.  A response that carries an ["errors"] entry is a failure, even
    when it also carries products: the first lookup raises, the
    response is the apology quoting the errors, and nothing more is
    called. *)
Theorem graphql_errors_end_in_apology
    (env : Env) (message : str) (t : trace)
    (d : list (str * json)) (errors : json) :
  str_truthy (py_strip message) = true ->
  configured env = true ->
  requests_post env (trace_after_intent env (py_strip message) t)
    (synthesized_query env (intent_of env (py_strip message) t)) = Return (JDict d) ->
  dict_lookup (utf8 "errors") d = Some errors ->
  chat_intent env message t =
    (Return (apology env
               (RuntimeError (utf8 "GraphQL errors: " ++ py_str env errors))),
     trace_after_intent env (py_strip message) t ++
     [CatalogPost (synthesized_query env (intent_of env (py_strip message) t))]).
Proof.
  intros Hne Hc Hp He. rewrite (chat_intent_from_lookup env message t Hne).
  unfold bind, attempt. rewrite shopify_query_eq, Hc, Hp.
  cbn [obind]. unfold read_edges, py_in, getitem. rewrite He. reflexivity.
Qed.

Lemma graphql_errors_end_in_apology_witness :
  str_truthy (py_strip (utf8 "invicta")) = true /\
  configured
    (Examples.shop (Return (response_with_errors (JStr (utf8 "Throttled"))
                              [Examples.watch]))) = true /\
  chat_intent
    (Examples.shop (Return (response_with_errors (JStr (utf8 "Throttled"))
                              [Examples.watch])))
    (utf8 "invicta") [] =
    (Return (utf8 "⚠️ No pude consultar Shopify (GraphQL errors: Throttled). Verifica dominio/token y vuelve a intentar."),
     [CatalogPost
        (synthesized_query
           (Examples.shop (Return (response_with_errors (JStr (utf8 "Throttled"))
                                     [Examples.watch])))
           (utf8 "invicta"))]).
Proof.
  split; [reflexivity | split; [reflexivity |]].
  etransitivity;
    [exact (graphql_errors_end_in_apology
              (Examples.shop (Return (response_with_errors (JStr (utf8 "Throttled"))
                                        [Examples.watch])))
              (utf8 "invicta") []
              [ (utf8 "errors", JStr (utf8 "Throttled"));
                (utf8 "data",
                 JDict [(utf8 "products",
                         JDict [(utf8 "edges", JList [Examples.watch])])]) ]
              (JStr (utf8 "Throttled"))
              eq_refl eq_refl eq_refl eq_refl) |].
  vm_compute. reflexivity.
Defined.

Lemma read_edges_falsy (env : Env) (data v : json) :
  read_edges env data = Return v -> truthy v = false -> v = JList [].
Proof.
  unfold read_edges. destruct (py_in (utf8 "errors") data) as [[|] | e];
    cbn [obind].
  - destruct (getitem data (utf8 "errors")); discriminate.
  - destruct (py_get data (utf8 "data") (JDict [])) as [d | e]; cbn [obind];
      [| discriminate].
    destruct (py_get d (utf8 "products") (JDict [])) as [p | e]; cbn [obind];
      [| discriminate].
    destruct (py_get p (utf8 "edges") (JList [])) as [edges | e]; cbn [obind];
      [| discriminate].
    unfold py_or. intros H T. inversion H; subst v.
    destruct (truthy edges) eqn:E; [congruence | reflexivity].
  - discriminate.
Qed.

(** X22.  A lookup that returns without hits returns the empty list:
    whatever falsy value the response holds for the edges ([None], an
    empty string, zero, an empty dictionary) or misses, the caller
    receives [[]]. *)
Theorem lookup_without_hits_is_empty_list
    (env : Env) (q : str) (t t' : trace) (v : json) :
  shopify_query env q t = (Return v, t') ->
  truthy v = false ->
  v = JList [].
Proof.
  rewrite shopify_query_eq. destruct (configured env); [| discriminate].
  destruct (requests_post env t (synthesized_query env q)) as [data | e];
    [| discriminate].
  cbn [obind]. intros H T.
  apply (read_edges_falsy env data v); [| exact T].
  inversion H; reflexivity.
Qed.

Lemma lookup_without_hits_is_empty_list_witness :
  shopify_query
    (Examples.shop
       (Return (JDict [(utf8 "data",
                        JDict [(utf8 "products",
                                JDict [(utf8 "edges", JNull)])])])))
    (utf8 "invicta") [] =
    (Return (JList []),
     [CatalogPost
        (synthesized_query
           (Examples.shop
              (Return (JDict [(utf8 "data",
                               JDict [(utf8 "products",
                                       JDict [(utf8 "edges", JNull)])])])))
           (utf8 "invicta"))]) /\
  truthy (JList []) = false /\
  JList [] = JList [].
Proof.
  assert (H : shopify_query
                (Examples.shop
                   (Return (JDict [(utf8 "data",
                                    JDict [(utf8 "products",
                                            JDict [(utf8 "edges", JNull)])])])))
                (utf8 "invicta") [] =
              (Return (JList []),
               [CatalogPost
                  (synthesized_query
                     (Examples.shop
                        (Return (JDict [(utf8 "data",
                                         JDict [(utf8 "products",
                                                 JDict [(utf8 "edges", JNull)])])])))
                     (utf8 "invicta"))])) by reflexivity.
  split; [exact H | split; [reflexivity |]].
  exact (lookup_without_hits_is_empty_list _ _ _ _ _ H eq_refl).
Defined.

(** ** The status endpoints and the intent *)

Lemma gql_set_iff_domain_set (env : Env) :
  env_truthy (SHOPIFY_GQL env) = env_truthy (SHOPIFY_DOMAIN env).
Proof.
  unfold SHOPIFY_GQL. destruct (SHOPIFY_DOMAIN env) as [[|c d] |]; reflexivity.
Qed.

Lemma trace_grows (t : trace) (x : event) : t <> t ++ [x].
Proof.
  intros H. apply (f_equal (@length event)) in H.
  rewrite length_app in H. simpl in H. lia.
Qed.

(** X23.  The health report tells whether a lookup reaches the catalog:
    [health()["env"]] shows both [SHOPIFY_DOMAIN_set] and
    [SHOPIFY_TOKEN_set] true exactly when [shopify_query] posts its
    query; otherwise it raises before any call. *)
Theorem health_tells_lookup_readiness (env : Env) (q : str) (t : trace) :
  (obind (getitem (health env) (utf8 "env"))
         (fun e => getitem e (utf8 "SHOPIFY_DOMAIN_set")) = Return (JBool true) /\
   obind (getitem (health env) (utf8 "env"))
         (fun e => getitem e (utf8 "SHOPIFY_TOKEN_set")) = Return (JBool true))
  <->
  snd (shopify_query env q t) = t ++ [CatalogPost (synthesized_query env q)].
Proof.
  change (obind (getitem (health env) (utf8 "env"))
                (fun e => getitem e (utf8 "SHOPIFY_DOMAIN_set")))
    with (Return (A := json) (JBool (env_truthy (SHOPIFY_DOMAIN env)))).
  change (obind (getitem (health env) (utf8 "env"))
                (fun e => getitem e (utf8 "SHOPIFY_TOKEN_set")))
    with (Return (A := json) (JBool (env_truthy (SHOPIFY_TOKEN env)))).
  rewrite shopify_query_eq. unfold configured. rewrite gql_set_iff_domain_set.
  destruct (env_truthy (SHOPIFY_DOMAIN env)), (env_truthy (SHOPIFY_TOKEN env));
    cbn [andb snd]; split; try tauto;
    try (intros [A B]; discriminate);
    try (intros H; exfalso; exact (trace_grows _ _ H)).
Qed.

(** X24.  The intent of a non-empty text is never empty: whatever the
    language model answers or raises, [intent_from_openai] returns a
    non-empty string, which is the text itself when no client is set. *)
Theorem intent_is_never_empty (env : Env) (user_text : str) (t : trace) :
  str_truthy user_text = true ->
  exists intent,
    fst (intent_from_openai env user_text t) = Return intent /\
    str_truthy intent = true /\
    (oai env = false -> intent = user_text).
Proof.
  intros Hne. rewrite intent_from_openai_eq.
  destruct (oai env) eqn:Hoai; cbn [fst].
  - eexists. split; [reflexivity |]. split; [| discriminate].
    unfold resolved_intent.
    destruct (responses_create env t (prompt_for env user_text)) as [v | e];
      [| exact Hne].
    destruct v as [| b | z | f | s | l | d]; try exact Hne.
    destruct (py_lower (ucd env) (py_strip s)); [exact Hne | reflexivity].
  - exists user_text. split; [reflexivity |]. split; [exact Hne | reflexivity].
Qed.

Lemma intent_is_never_empty_witness :
  exists intent,
    fst (intent_from_openai
           (MoreExamples.assisted (Return (JStr (utf8 "   "))) (Return JNull))
           (utf8 "reloj Invicta") []) = Return intent /\
    str_truthy intent = true /\
    (oai (MoreExamples.assisted (Return (JStr (utf8 "   "))) (Return JNull)) = false ->
     intent = utf8 "reloj Invicta").
Proof.
  exact (intent_is_never_empty
           (MoreExamples.assisted (Return (JStr (utf8 "   "))) (Return JNull))
           (utf8 "reloj Invicta") [] eq_refl).
Defined.

Lemma lstrip_fixed (s : str) :
  match s with c :: _ => py_isspace c = false | [] => True end ->
  lstrip s = s.
Proof.
  destruct s as [|c r]; [reflexivity |]. intros H. cbn [lstrip]. rewrite H.
  reflexivity.
Qed.

Lemma lstrip_head (s : str) :
  match lstrip s with c :: _ => py_isspace c = false | [] => True end.
Proof.
  induction s as [|c r IH]; [exact I |]. cbn [lstrip].
  destruct (py_isspace c) eqn:E; [exact IH | exact E].
Qed.

Lemma lstrip_suffix (s : str) : exists w, s = w ++ lstrip s.
Proof.
  induction s as [|c r [w IH]]; [exists []; reflexivity |]. cbn [lstrip].
  destruct (py_isspace c).
  - exists (c :: w). cbn [app]. f_equal. exact IH.
  - exists []. reflexivity.
Qed.

(** A stripped string begins and ends with a character that is not white
    space, so that stripping it again changes nothing. *)
Lemma py_strip_idempotent (s : str) : py_strip (py_strip s) = py_strip s.
Proof.
  unfold py_strip.
  pose proof (lstrip_head s) as Ha.
  pose proof (lstrip_head (rev (lstrip s))) as Hb.
  destruct (lstrip_suffix (rev (lstrip s))) as [w Hw].
  set (a := lstrip s) in *. set (b := lstrip (rev a)) in *.
  assert (Hrb : lstrip (rev b) = rev b).
  { apply lstrip_fixed.
    apply (f_equal (@rev codepoint)) in Hw.
    rewrite rev_involutive, rev_app_distr in Hw.
    destruct (rev b) as [|c r] eqn:E; [exact I |].
    rewrite Hw in Ha. exact Ha. }
  rewrite Hrb, rev_involutive.
  rewrite (lstrip_fixed b Hb). reflexivity.
Qed.

(** X25.  The endpoint does not see the white space around a message: it
    answers the stripped message as it answers the message, with the same
    calls. *)
Theorem chat_intent_ignores_outer_space (env : Env) (message : str) (t : trace) :
  chat_intent env (py_strip message) t = chat_intent env message t.
Proof.
  unfold chat_intent. rewrite !message_or_empty, py_strip_idempotent.
  reflexivity.
Qed.

(** ** Round trips and shapes *)

Lemma split_ws_run (w cur rest : str) :
  spaceless w -> split_ws cur (w ++ rest) = split_ws (rev w ++ cur) rest.
Proof.
  revert cur; induction w as [|c w IH]; intros cur Hw; [reflexivity |].
  cbn [app split_ws]. rewrite (Hw c (or_introl eq_refl)).
  rewrite IH by (intros d Hd; apply Hw; right; exact Hd).
  cbn [rev]. rewrite <- app_assoc. reflexivity.
Qed.

(** Splitting the join by a space of non-empty words gives the words. *)
Lemma py_split_join (ws : list str) :
  Forall (fun w => w <> [] /\ spaceless w) ws ->
  py_split (py_join [32] ws) = ws.
Proof.
  induction ws as [|w ws IH]; intros H; [reflexivity |].
  inversion H as [|? ? [Hne Hw] Hws]; subst.
  destruct ws as [|w' ws'].
  - cbn [py_join]. rewrite (py_split_word w Hw). destruct w; [congruence | reflexivity].
  - change (py_join [32] (w :: w' :: ws'))
      with (w ++ 32 :: py_join [32] (w' :: ws')).
    unfold py_split. rewrite split_ws_run by exact Hw. rewrite app_nil_r.
    cbn [split_ws]. change (py_isspace 32) with true. cbv iota.
    destruct (rev w) as [|x r] eqn:E.
    + apply (f_equal (@rev codepoint)) in E. rewrite rev_involutive in E.
      cbn in E. congruence.
    + rewrite <- E, rev_involutive. f_equal. exact (IH Hws).
Qed.

Lemma In_py_join (sep : str) (ws : list str) (c : codepoint) :
  In c (py_join sep ws) -> In c sep \/ exists w, In w ws /\ In c w.
Proof.
  induction ws as [|w ws IH]; [intros [] |].
  destruct ws as [|w' ws'].
  - cbn [py_join]. intros H. right. exists w. split; [left; reflexivity | exact H].
  - change (py_join sep (w :: w' :: ws'))
      with (w ++ sep ++ py_join sep (w' :: ws')).
    rewrite !in_app_iff. intros [H | [H | H]].
    + right. exists w. split; [left; reflexivity | exact H].
    + left. exact H.
    + destruct (IH H) as [G | (u & Hu & Hc)]; [left; exact G |].
      right. exists u. split; [right; exact Hu | exact Hc].
Qed.

Lemma py_replace_absent (old : codepoint) (new s : str) :
  ~ In old s -> py_replace old new s = s.
Proof.
  unfold py_replace. induction s as [|c s IH]; intros H; [reflexivity |].
  cbn [flat_map]. destruct (N.eqb_spec c old) as [-> | Hne].
  - exfalso. apply H. left. reflexivity.
  - rewrite IH by (intros G; apply H; right; exact G). reflexivity.
Qed.

Lemma ascii_lower_idempotent (c : codepoint) :
  ascii_lower (ascii_lower c) = ascii_lower c.
Proof.
  unfold ascii_lower.
  destruct ((65 <=? c) && (c <=? 90)) eqn:E; [| rewrite E; reflexivity].
  apply andb_true_iff in E. destruct E as [A B].
  apply N.leb_le in A. apply N.leb_le in B.
  assert (F : (c + 32 <=? 90) = false) by (apply N.leb_gt; lia).
  rewrite F, andb_false_r. reflexivity.
Qed.

(** The characters of a token of Basic Latin text. *)
Lemma ascii_token_chars (U : UCD) (s w : str) (x : codepoint) :
  BasicLatin U -> ascii_text s ->
  In w (normalize_terms U s) -> In x w ->
  x < 128 /\ ascii_lower x = x /\ x <> COMMA /\ x <> PERIOD /\ py_isspace x = false.
Proof.
  intros HU Hs Hw Hx.
  destruct (normalize_terms_words U s w Hw) as [Hsp _].
  destruct (cleaned_word_chars U s w x Hsp Hx) as (A & B & C & _).
  destruct (py_split_pieces _ _ Hsp) as (_ & _ & Hin). specialize (Hin x Hx).
  rewrite (cleaned_text_basic_latin U s HU Hs) in Hin.
  apply In_py_replace in Hin. destruct Hin as [[<- | []] | [Hin _]];
    [discriminate A |].
  apply In_py_replace in Hin. destruct Hin as [[<- | []] | [Hin _]];
    [discriminate A |].
  apply in_map_iff in Hin. destruct Hin as (c & <- & Hc).
  split; [exact (ascii_lower_below c (Hs c Hc)) |].
  split; [exact (ascii_lower_idempotent c) | auto].
Qed.

Lemma firstn_filter_fixed {A} (f : A -> bool) (n : nat) (l : list A) :
  firstn n (filter f (firstn n (filter f l))) = firstn n (filter f l).
Proof.
  rewrite (forallb_filter_id f (firstn n (filter f l))).
  - rewrite firstn_firstn, Nat.min_id. reflexivity.
  - apply forallb_forall. intros x Hx. apply In_firstn in Hx.
    apply filter_In in Hx. exact (proj2 Hx).
Qed.

(** X26.  The tokenizer is idempotent on Basic Latin text: the tokens,
    joined by spaces and tokenized again, are the tokens. *)
Theorem tokens_round_trip (U : UCD) (s : str) :
  BasicLatin U ->
  ascii_text s ->
  normalize_terms U (py_join (utf8 " ") (normalize_terms U s)) =
  normalize_terms U s.
Proof.
  intros HU Hs. change (utf8 " ") with [32].
  set (toks := normalize_terms U s).
  assert (Hc : forall c, In c (py_join [32] toks) ->
                 c < 128 /\ ascii_lower c = c /\ c <> COMMA /\ c <> PERIOD).
  { intros c Hc. apply In_py_join in Hc.
    destruct Hc as [[<- | []] | (w & Hw & Hc)].
    - repeat split; try reflexivity; discriminate.
    - destruct (ascii_token_chars U s w c HU Hs Hw Hc) as (A & B & C & D & _).
      auto. }
  assert (Hsplit : py_split (py_join [32] toks) = toks).
  { apply py_split_join. apply Forall_forall. intros w Hw.
    destruct (normalize_terms_words U s w Hw) as [Hsp _].
    destruct (py_split_pieces _ _ Hsp) as (A & B & _). auto. }
  rewrite (normalize_terms_eq U (py_join [32] toks)).
  rewrite (cleaned_text_basic_latin U _ HU (fun c H => proj1 (Hc c H))).
  assert (Hlow : map ascii_lower (py_join [32] toks) = py_join [32] toks).
  { rewrite <- (map_id (py_join [32] toks)) at 2. apply map_ext_in.
    intros c H. exact (proj1 (proj2 (Hc c H))). }
  rewrite Hlow.
  rewrite (py_replace_absent COMMA)
    by (intros H; exact (proj1 (proj2 (proj2 (Hc _ H))) eq_refl)).
  rewrite (py_replace_absent PERIOD)
    by (intros H; exact (proj2 (proj2 (proj2 (Hc _ H))) eq_refl)).
  rewrite Hsplit. unfold toks. rewrite normalize_terms_eq.
  apply firstn_filter_fixed.
Qed.

Lemma tokens_round_trip_witness :
  BasicLatin UCD14.fragment /\
  ascii_text (utf8 "Busco un reloj Invicta, dorado.") /\
  normalize_terms UCD14.fragment (utf8 "Busco un reloj Invicta, dorado.") =
    [utf8 "invicta"; utf8 "dorado"] /\
  normalize_terms UCD14.fragment
    (py_join (utf8 " ")
       (normalize_terms UCD14.fragment (utf8 "Busco un reloj Invicta, dorado."))) =
  normalize_terms UCD14.fragment (utf8 "Busco un reloj Invicta, dorado.").
Proof.
  assert (A : ascii_text (utf8 "Busco un reloj Invicta, dorado."))
    by (apply ascii_text_check; reflexivity).
  split; [exact fragment_basic_latin |]. split; [exact A |].
  split; [vm_compute; reflexivity |].
  exact (tokens_round_trip UCD14.fragment (utf8 "Busco un reloj Invicta, dorado.")
           fragment_basic_latin A).
Defined.

Lemma swap_separators_comma (x : codepoint) :
  swap_separators x = COMMA -> x = PERIOD.
Proof.
  unfold swap_separators.
  destruct (N.eqb_spec x COMMA) as [-> | H1]; [discriminate |].
  destruct (N.eqb_spec x PERIOD) as [-> | H2]; [reflexivity | congruence].
Qed.

Lemma two_digits_are_digits (n : N) :
  n < 100 -> forallb is_digit (two_digits n) = true.
Proof.
  intros H. unfold two_digits, is_digit. cbn [forallb].
  assert (D1 : n / 10 < 10) by (apply N.Div0.div_lt_upper_bound; exact H).
  assert (D0 : n mod 10 < 10) by (apply N.mod_lt; discriminate).
  rewrite !andb_true_iff, !N.leb_le.
  repeat split; try apply N.le_add_r; lia.
Qed.

Lemma fixed2_shape (sign : bool) (h : N) :
  exists body d1 d2,
    map swap_separators (fixed2 sign h) = body ++ [COMMA; d1; d2] /\
    is_digit d1 = true /\ is_digit d2 = true /\ ~ In COMMA body.
Proof.
  exists (map swap_separators
            ((if sign then utf8 "-" else []) ++ rev (group3 (rev (digits (h / 100)))))),
         (48 + h mod 100 / 10), (48 + (h mod 100) mod 10).
  assert (B : h mod 100 < 100) by (apply N.mod_lt; discriminate).
  pose proof (two_digits_are_digits (h mod 100) B) as Hd.
  unfold two_digits in Hd. cbn [forallb] in Hd.
  apply andb_true_iff in Hd. destruct Hd as [Hd1 Hd2].
  apply andb_true_iff in Hd2. destruct Hd2 as [Hd2 _].
  split; [| split; [exact Hd1 | split; [exact Hd2 |]]].
  - unfold fixed2, two_digits. rewrite app_assoc, map_app. f_equal.
    cbn [map app]. f_equal.
    assert (Fix : forall d, is_digit d = true -> swap_separators d = d).
    { intros d H. unfold is_digit in H. apply andb_true_iff in H.
      destruct H as [H1 H2]. apply N.leb_le in H1. apply N.leb_le in H2.
      unfold swap_separators.
      destruct (N.eqb_spec d COMMA) as [E | _]; [unfold COMMA in E; lia |].
      destruct (N.eqb_spec d PERIOD) as [E | _]; [unfold PERIOD in E; lia |].
      reflexivity. }
    rewrite (Fix _ Hd1), (Fix _ Hd2). reflexivity.
  - intros H. apply in_map_iff in H. destruct H as (x & Hx & Hin).
    apply swap_separators_comma in Hx. subst x.
    apply in_app_or in Hin. destruct Hin as [Hin | Hin].
    + destruct sign; [| destruct Hin].
      vm_compute in Hin. destruct Hin as [E | []]. discriminate E.
    + apply in_rev in Hin.
      destruct (group3_chars _ _ _ (le_n _) Hin) as [E | Hin'];
        [discriminate E |].
      apply in_rev in Hin'. apply uint_digits_chars in Hin'.
      unfold PERIOD in Hin'. lia.
Qed.

(** X27.  The price of a number ends in a comma and two decimal digits, and
    holds no other comma: thousands are separated by periods. *)
Theorem price_ends_in_two_decimals (env : Env) (v : json) (f : spec_float) :
  py_float env v = Return f ->
  is_number f = true ->
  exists body d1 d2,
    format_price env v = utf8 "S/ " ++ body ++ [COMMA; d1; d2] /\
    is_digit d1 = true /\ is_digit d2 = true /\ ~ In COMMA body.
Proof.
  intros Hf Hn. rewrite format_price_eq, Hf.
  assert (H : exists sign h, format_comma_2f f = fixed2 sign h).
  { destruct f as [s | s | | s m e]; try discriminate Hn;
      eexists; eexists; reflexivity. }
  destruct H as (sign & h & ->).
  destruct (fixed2_shape sign h) as (body & d1 & d2 & E & A & B & C).
  exists body, d1, d2. rewrite E. auto.
Qed.

Lemma price_ends_in_two_decimals_witness :
  py_float Examples.empty_shop (JFloat FLOAT_1234_5) = Return FLOAT_1234_5 /\
  is_number FLOAT_1234_5 = true /\
  exists body d1 d2,
    format_price Examples.empty_shop (JFloat FLOAT_1234_5) =
      utf8 "S/ " ++ body ++ [COMMA; d1; d2] /\
    is_digit d1 = true /\ is_digit d2 = true /\ ~ In COMMA body.
Proof.
  split; [reflexivity |]. split; [reflexivity |].
  exact (price_ends_in_two_decimals Examples.empty_shop (JFloat FLOAT_1234_5)
           FLOAT_1234_5 eq_refl eq_refl).
Defined.

Lemma format_lines_acc (env : Env) (es : list json) (acc r : list str) :
  format_lines env es acc = Return r ->
  exists lines,
    r = acc ++ lines /\
    Forall2 (fun e line => format_edge env e = Return line) es lines.
Proof.
  revert acc; induction es as [|e es IH]; intros acc H; cbn [format_lines] in H.
  - inversion H. exists []. rewrite app_nil_r. split; [reflexivity | constructor].
  - destruct (format_edge env e) as [line | x] eqn:E; cbn [obind] in H;
      [| discriminate H].
    destruct (IH _ H) as (lines & -> & HF).
    exists (line :: lines). rewrite <- app_assoc. split; [reflexivity |].
    constructor; assumption.
Qed.

(** X28.  A listing is made of the lines of the first three edges, one
    line per edge and in their order, separated by blank lines; edges
    after the third contribute nothing. *)
Theorem listing_is_first_three_lines (env : Env) (edges : list json) (listado : str) :
  format_products env (JList edges) = Return listado ->
  exists lines,
    Forall2 (fun e line => format_edge env e = Return line) (firstn 3 edges) lines /\
    listado = py_join [NL; NL] lines /\
    length lines = Nat.min 3 (length edges).
Proof.
  unfold format_products. cbn [first3 obind]. intros H.
  destruct (format_lines env (firstn 3 edges) []) as [r | x] eqn:E;
    cbn [obind] in H; [| discriminate H].
  inversion H as [Hl]. destruct (format_lines_acc env _ _ _ E) as (lines & -> & HF).
  exists lines. split; [exact HF |]. split; [reflexivity |].
  rewrite <- (Forall2_length HF). apply length_firstn.
Qed.

Lemma listing_is_first_three_lines_witness :
  exists listado,
    format_products Examples.watch_shop
      (JList [Examples.watch; Examples.watch; Examples.watch; JNull]) = Return listado /\
    exists lines,
      Forall2 (fun e line => format_edge Examples.watch_shop e = Return line)
              (firstn 3 [Examples.watch; Examples.watch; Examples.watch; JNull]) lines /\
      listado = py_join [NL; NL] lines /\
      length lines = Nat.min 3 (length [Examples.watch; Examples.watch; Examples.watch; JNull]).
Proof.
  eexists. split; [vm_compute; reflexivity |].
  apply (listing_is_first_three_lines Examples.watch_shop
           [Examples.watch; Examples.watch; Examples.watch; JNull]).
  vm_compute. reflexivity.
Defined.
